(** * Trading-signal pipeline: indicators, structure analysis, entry
      systems and risk management

    A shallow embedding of [backend/ict_analysis.py],
    [backend/entry_systems.py] and [backend/risk_management.py].

    Numbers.  The Python code computes with IEEE doubles (pandas / numpy
    [float64] and Python [float]).  A finite double is modelled by an exact
    rational ([Q]); rounding and the sign of zero are not modelled.  The
    special values NaN, +inf and -inf are modelled, with the IEEE rules for
    arithmetic and comparison, because the code relies on them (a rolling
    mean over too few rows is NaN, a numpy division by zero is +-inf or NaN,
    every comparison with NaN is false).

    Frames.  A frame is the list of its rows in index order.  The cells of
    the OHLCV columns are finite numbers; NaN and the infinities only arise
    in derived series and results.

    Errors.  A Python exception is a [Raise] result.

    Clock.  [get_quarterly_levels] reads the wall clock; the bounds it
    derives from the current year are a parameter ([Clock]). *)

From Stdlib Require Import QArith Qabs Lqa ZArith String List Bool Lia.
Import ListNotations.

(* ================================================================== *)
(** ** Exceptions *)

Inductive exn : Type :=
| IndexError          (* positional indexer out of bounds *)
| KeyError            (* missing dictionary key *)
| ZeroDivisionError.  (* Python float or int division by zero *)

Inductive result (A : Type) : Type :=
| Ok (a : A)
| Raise (e : exn).

Arguments Ok {A} a.
Arguments Raise {A} e.

Definition bind {A B : Type} (r : result A) (k : A -> result B) : result B :=
  match r with
  | Ok a => k a
  | Raise e => Raise e
  end.

Notation "x <- r ;; k" := (bind r (fun x => k))
  (at level 61, r at next level, right associativity).

(* ================================================================== *)
(** ** Floating-point values *)

Module Float.

Inductive float : Type :=
| Fin (q : Q)
| PInf
| NInf
| NaN.

Definition Qlt_bool (x y : Q) : bool := negb (Qle_bool y x).

Definition is_zero (q : Q) : bool := Qeq_bool q 0.

(** [a < b]; false as soon as one side is NaN. *)
Definition flt (a b : float) : bool :=
  match a, b with
  | NaN, _ | _, NaN => false
  | Fin x, Fin y => Qlt_bool x y
  | Fin _, PInf => true
  | Fin _, NInf => false
  | PInf, _ => false
  | NInf, NInf => false
  | NInf, _ => true
  end.

(** [a <= b]; false as soon as one side is NaN. *)
Definition fle (a b : float) : bool :=
  match a, b with
  | NaN, _ | _, NaN => false
  | Fin x, Fin y => Qle_bool x y
  | Fin _, PInf => true
  | Fin _, NInf => false
  | PInf, PInf => true
  | PInf, _ => false
  | NInf, _ => true
  end.

Definition fgt (a b : float) : bool := flt b a.
Definition fge (a b : float) : bool := fle b a.

Definition fneg (a : float) : float :=
  match a with
  | Fin x => Fin (- x)
  | PInf => NInf
  | NInf => PInf
  | NaN => NaN
  end.

Definition fadd (a b : float) : float :=
  match a, b with
  | NaN, _ | _, NaN => NaN
  | Fin x, Fin y => Fin (x + y)
  | PInf, NInf | NInf, PInf => NaN
  | PInf, _ | _, PInf => PInf
  | NInf, _ | _, NInf => NInf
  end.

Definition fsub (a b : float) : float := fadd a (fneg b).

(** Sign of a value that is not NaN: [Lt] negative, [Eq] zero, [Gt] positive. *)
Definition fsign (a : float) : comparison :=
  match a with
  | Fin x => Qcompare x 0
  | PInf => Gt
  | NInf => Lt
  | NaN => Eq
  end.

Definition signed_inf (s t : comparison) : float :=
  match s, t with
  | Eq, _ | _, Eq => NaN
  | Lt, Lt | Gt, Gt => PInf
  | _, _ => NInf
  end.

Definition fmul (a b : float) : float :=
  match a, b with
  | NaN, _ | _, NaN => NaN
  | Fin x, Fin y => Fin (x * y)
  | _, _ => signed_inf (fsign a) (fsign b)
  end.

(** numpy division: a zero divisor gives NaN (0/0) or an infinity, never
    an exception.  A zero divisor counts as +0. *)
Definition fdiv (a b : float) : float :=
  match a, b with
  | NaN, _ | _, NaN => NaN
  | Fin x, Fin y =>
      if is_zero y then
        match Qcompare x 0 with
        | Eq => NaN
        | Gt => PInf
        | Lt => NInf
        end
      else Fin (x / y)
  | Fin _, _ => Fin 0
  | _, Fin y => signed_inf (fsign a) (if is_zero y then Gt else Qcompare y 0)
  | _, _ => NaN
  end.

(** Python [float.__truediv__]: a zero divisor raises. *)
Definition pydiv (a b : float) : result float :=
  match b with
  | Fin y => if is_zero y then Raise ZeroDivisionError else Ok (fdiv a b)
  | _ => Ok (fdiv a b)
  end.

Definition fabs (a : float) : float :=
  match a with
  | Fin x => Fin (Qabs x)
  | PInf | NInf => PInf
  | NaN => NaN
  end.

(** Python's builtin two-argument [max] and [min]: the first argument is
    kept unless the second is strictly better. *)
Definition pymax (a b : float) : float := if fgt b a then b else a.
Definition pymin (a b : float) : float := if flt b a then b else a.

(** Numeric equality of floats ([==] on the finite ones; NaN is related
    to nothing). *)
Definition feq (a b : float) : Prop :=
  match a, b with
  | Fin x, Fin y => x == y
  | PInf, PInf | NInf, NInf => True
  | _, _ => False
  end.

Definition is_nan (a : float) : bool :=
  match a with NaN => true | _ => false end.

Definition is_fin (a : float) : bool :=
  match a with Fin _ => true | _ => false end.

Definition of_Z (z : Z) : float := Fin (inject_Z z).
Definition of_nat (n : nat) : float := Fin (inject_Z (Z.of_nat n)).

End Float.
Import Float.

Declare Scope float_scope.
Delimit Scope float_scope with fl.
Infix "+" := fadd : float_scope.
Infix "-" := fsub : float_scope.
Infix "*" := fmul : float_scope.
Infix "/" := fdiv : float_scope.
Infix "<?" := flt : float_scope.
Infix "<=?" := fle : float_scope.
Infix ">?" := fgt : float_scope.
Infix ">=?" := fge : float_scope.

(* ================================================================== *)
(** ** pandas Series primitives *)

Module Series.

Section Generic.
Variable A : Type.

(** [s.tail(n)] *)
Definition tail (n : nat) (s : list A) : list A :=
  skipn (length s - n) s.

(** [s.iloc[-k]] for [k >= 1]: the k-th element from the end. *)
Definition iloc_neg (k : nat) (s : list A) : result A :=
  if (k <=? length s)%nat then
    match nth_error s (length s - k) with
    | Some x => Ok x
    | None => Raise IndexError
    end
  else Raise IndexError.

(** [s.iloc[i]] for [i >= 0]. *)
Definition iloc (i : nat) (s : list A) : result A :=
  match nth_error s i with
  | Some x => Ok x
  | None => Raise IndexError
  end.

(** [s.iloc[-a:-b]] with [a >= b >= 0]: negative bounds are clamped. *)
Definition iloc_slice_neg (a b : nat) (s : list A) : list A :=
  let lo := (length s - a)%nat in
  let hi := (length s - b)%nat in
  firstn (hi - lo) (skipn lo s).

(** [s.iloc[i:j]] with non-negative bounds. *)
Definition iloc_slice (i j : nat) (s : list A) : list A :=
  firstn (j - i) (skipn i s).
End Generic.

Arguments tail {A} n s.
Arguments iloc_neg {A} k s.
Arguments iloc {A} i s.
Arguments iloc_slice_neg {A} a b s.
Arguments iloc_slice {A} i j s.

Definition dropna (s : list float) : list float :=
  filter (fun x => negb (is_nan x)) s.

Definition fsum (s : list float) : float :=
  fold_left fadd s (Fin 0).

(** [s.max()] and [s.min()]: NaN entries are skipped; NaN when nothing is
    left. *)
Definition max (s : list float) : float :=
  match dropna s with
  | [] => NaN
  | x :: r => fold_left (fun m y => if flt m y then y else m) r x
  end.

Definition min (s : list float) : float :=
  match dropna s with
  | [] => NaN
  | x :: r => fold_left (fun m y => if flt y m then y else m) r x
  end.

(** [s.mean()]: NaN entries are skipped; NaN when nothing is left. *)
Definition mean (s : list float) : float :=
  match dropna s with
  | [] => NaN
  | d => fdiv (fsum d) (of_nat (length d))
  end.

(** [s.shift(1)] *)
Definition shift1 (s : list float) : list float :=
  match s with
  | [] => []
  | _ => NaN :: removelast s
  end.

(** [s.rolling(window=w).agg()] with the default [min_periods = w]: row
    [i] is NaN unless the [w] rows ending at [i] exist and none is NaN.
    (The rows rolled over here come from finite cells and are finite or
    NaN.) *)
Definition rolling_at (w : nat) (agg : list float -> float)
    (s : list float) (i : nat) : float :=
  if (i + 1 <? w)%nat then NaN
  else
    let win := firstn w (skipn (i + 1 - w) s) in
    if existsb is_nan win then NaN else agg win.

Definition rolling (w : nat) (agg : list float -> float)
    (s : list float) : list float :=
  map (rolling_at w agg s) (seq 0 (length s)).

(** Element-wise operations on aligned series. *)
Fixpoint zip_with (f : float -> float -> float) (a b : list float)
  : list float :=
  match a, b with
  | x :: a', y :: b' => f x y :: zip_with f a' b'
  | _, _ => []
  end.

End Series.

(* ================================================================== *)
(** ** Market data *)

Record Bar : Type := mkBar {
  timestamp : Z;
  open : Q;
  high : Q;
  low : Q;
  close : Q;
  volume : Z
}.

(** The frame held by [ICTAnalysis] and [EntrySystems]: rows indexed by
    timestamp, in ascending order (the state left by
    [ICTAnalysis.__init__]). *)
Definition MarketSeries := list Bar.

Definition col (f : Bar -> Q) (data : MarketSeries) : list float :=
  map (fun b => Fin (f b)) data.

Definition col_volume (data : MarketSeries) : list float :=
  map (fun b => of_Z (volume b)) data.

Definition index (data : MarketSeries) : list Z := map timestamp data.

(** The data model's invariant on one bar. *)
Definition bar_ok (b : Bar) : Prop :=
  0 < open b /\ 0 < high b /\ 0 < low b /\ 0 < close b /\
  (0 <= volume b)%Z /\
  open b <= high b /\ close b <= high b /\
  low b <= open b /\ low b <= close b.

Definition series_ok (data : MarketSeries) : Prop := Forall bar_ok data.

Definition atr_period : nat := 20.

(* ================================================================== *)
(** ** Indicators *)

(** Row-wise maximum of three aligned columns,
    [pd.concat([a, b, c], axis=1).max(axis=1)]: NaN cells are skipped. *)
Fixpoint row_max3 (a b c : list float) : list float :=
  match a, b, c with
  | x :: a', y :: b', z :: c' => Series.max [x; y; z] :: row_max3 a' b' c'
  | _, _, _ => []
  end.

Definition true_range (data : MarketSeries) : list float :=
  let high := col high data in
  let low := col low data in
  let close := col close data in
  let tr1 := Series.zip_with fsub high low in
  let tr2 := map fabs (Series.zip_with fsub high (Series.shift1 close)) in
  let tr3 := map fabs (Series.zip_with fsub low (Series.shift1 close)) in
  row_max3 tr1 tr2 tr3.

(** [EntrySystems.calculate_atr] (the same body as
    [RiskManagement.calculate_atr]). *)
Definition calculate_atr (data : MarketSeries) : result float :=
  let tr := true_range data in
  let atr := Series.rolling atr_period Series.mean tr in
  Series.iloc_neg 1 atr.

(** [ICTAnalysis.calculate_sma_slope] *)
Definition calculate_sma_slope_with (period : nat) (data : MarketSeries)
  : result float :=
  let sma := Series.rolling period Series.mean (col close data) in
  if (length sma <? 2)%nat then Ok (Fin 0)
  else
    last <- Series.iloc_neg 1 sma ;;
    prev <- Series.iloc_neg 2 sma ;;
    Ok ((last - prev) / prev)%fl.

Definition calculate_sma_slope (data : MarketSeries) : result float :=
  calculate_sma_slope_with 20 data.

(* ================================================================== *)
(** ** Structure analysis ([ICTAnalysis]) *)

(** The wall clock at call time, as the code reads it: the bounds
    [datetime(current_year, m, d)] of the current year and of its four
    quarters, on the scale of the bar timestamps. *)
Inductive quarter : Type := Qtr1 | Qtr2 | Qtr3 | Qtr4.

Record Clock : Type := mkClock {
  year_start : Z;
  year_end : Z;
  quarter_start : quarter -> Z;
  quarter_end : quarter -> Z
}.

Record QuarterlyLevels : Type := mkLevels {
  q1_high : float; q1_low : float;
  q2_high : float; q2_low : float;
  q3_high : float; q3_low : float;
  q4_high : float; q4_low : float
}.

(** [frame[start:end]] on the sorted timestamp index: both ends included. *)
Definition loc_slice (lo hi : Z) (data : MarketSeries) : MarketSeries :=
  filter (fun b => (lo <=? timestamp b)%Z && (timestamp b <=? hi)%Z) data.

Definition quarter_levels (now : Clock) (yearly_data : MarketSeries)
    (q : quarter) : float * float :=
  let quarter_data :=
    loc_slice (quarter_start now q) (quarter_end now q) yearly_data in
  if (0 <? length quarter_data)%nat
  then (Series.max (col high quarter_data), Series.min (col low quarter_data))
  else (Fin 0, Fin 0).

Definition get_quarterly_levels (now : Clock) (data : MarketSeries)
  : QuarterlyLevels :=
  let yearly_data := loc_slice (year_start now) (year_end now) data in
  if (length yearly_data =? 0)%nat then
    mkLevels (Fin 0) (Fin 0) (Fin 0) (Fin 0) (Fin 0) (Fin 0) (Fin 0) (Fin 0)
  else
    let l1 := quarter_levels now yearly_data Qtr1 in
    let l2 := quarter_levels now yearly_data Qtr2 in
    let l3 := quarter_levels now yearly_data Qtr3 in
    let l4 := quarter_levels now yearly_data Qtr4 in
    mkLevels (fst l1) (snd l1) (fst l2) (snd l2)
             (fst l3) (snd l3) (fst l4) (snd l4).

Definition determine_bias (now : Clock) (data : MarketSeries)
  : result string :=
  let levels := get_quarterly_levels now data in
  current_price <- Series.iloc_neg 1 (col close data) ;;
  sma_slope <- calculate_sma_slope data ;;
  if (current_price >? q2_high levels)%fl && (sma_slope >? Fin 0)%fl
  then Ok "bullish"%string
  else if (current_price <? q3_low levels)%fl && (sma_slope <? Fin 0)%fl
  then Ok "bearish"%string
  else Ok "neutral"%string.

Record LiquidityCluster : Type := mkCluster {
  price : float;
  count : nat;
  cluster_timestamp : Z
}.

Record PDArray : Type := mkPD {
  premium : float;
  equilibrium : float;
  discount : float
}.

Record LiquidityPools : Type := mkPools {
  cluster_highs : list LiquidityCluster;
  cluster_lows : list LiquidityCluster;
  pd_arrays : PDArray
}.

(** The test of the inner loop:
    [abs(values[j] - anchor) / anchor <= threshold]. *)
Definition within (threshold anchor v : float) : bool :=
  (fabs (v - anchor) / anchor <=? threshold)%fl.

(** One of the two cluster loops of [find_liquidity_pools], over a column
    [values] of the window and its index [idx]:
    [for i in range(len - 2)], count the rows [j > i] within tolerance of
    row [i] and record row [i] when the count, itself included, reaches 3. *)
Definition cluster_count (threshold : float) (values : list float) (i : nat)
  : nat :=
  1 + length (filter (within threshold (nth i values NaN))
                     (skipn (i + 1) values)).

Definition cluster_scan (threshold : float) (values : list float)
    (idx : list Z) : list LiquidityCluster :=
  flat_map
    (fun i =>
       let count := cluster_count threshold values i in
       if (3 <=? count)%nat
       then [mkCluster (nth i values NaN) count (nth i idx 0%Z)]
       else [])
    (seq 0 (length values - 2)).

Definition find_liquidity_pools_with (lookback : nat) (threshold : float)
    (data : MarketSeries) : LiquidityPools :=
  let recent_data := Series.tail lookback data in
  let highs := cluster_scan threshold (col high recent_data) (index recent_data) in
  let lows := cluster_scan threshold (col low recent_data) (index recent_data) in
  let hi := Series.max (col high recent_data) in
  let lo := Series.min (col low recent_data) in
  let price_range := (hi - lo)%fl in
  let premium_level := (hi - price_range * Fin 0.25)%fl in
  let discount_level := (lo + price_range * Fin 0.25)%fl in
  mkPools highs lows
    (mkPD premium_level
          ((premium_level + discount_level) / Fin 2)%fl
          discount_level).

Definition default_threshold : float := Fin 0.005.

Definition find_liquidity_pools (data : MarketSeries) : LiquidityPools :=
  find_liquidity_pools_with 20 default_threshold data.

(* ================================================================== *)
(** ** Entry systems ([EntrySystems]) *)

(** An [EntrySystems] object: its own frame and the frame of the
    [ICTAnalysis] object it was given. *)
Record EntrySystems : Type := mkEntrySystems {
  data : MarketSeries;
  ict_analysis : MarketSeries
}.

Record EntryCandidate : Type := mkEntry {
  system : string;
  direction : string;
  entry_price : float;
  stop_loss : float;
  take_profit : float;
  invalidation_point : float;
  entry_timestamp : Z
}.

(** Python's [a and b] on conditions that may raise: [b] is not evaluated
    when [a] is false. *)
Definition and_then (a b : result bool) : result bool :=
  x <- a ;; if x then b else Ok false.

Infix "&&&" := and_then (at level 40, left associativity).

(** [min(items, default=d)] and [max(items, default=d)]. *)
Definition pymin_list (items : list float) (d : float) : float :=
  match items with
  | [] => d
  | x :: r => fold_left pymin r x
  end.

Definition pymax_list (items : list float) (d : float) : float :=
  match items with
  | [] => d
  | x :: r => fold_left pymax r x
  end.

Definition is_volatile (self : EntrySystems) : result bool :=
  current_atr <- calculate_atr (data self) ;;
  let avg_atr :=
    Series.zip_with fsub
      (Series.rolling atr_period Series.max (col high (data self)))
      (Series.rolling atr_period Series.min (col low (data self))) in
  Ok (current_atr >? Series.mean avg_atr)%fl.

Definition find_nearest_liquidity_pool (self : EntrySystems) (p : float)
    (dir : string) : float :=
  let liquidity := find_liquidity_pools (ict_analysis self) in
  if String.eqb dir "up" then
    let levels := map price (cluster_highs liquidity)
                  ++ [premium (pd_arrays liquidity)] in
    pymin_list (filter (fun level => (level >? p)%fl) levels) (p * Fin 1.02)%fl
  else
    let levels := map price (cluster_lows liquidity)
                  ++ [discount (pd_arrays liquidity)] in
    pymax_list (filter (fun level => (level <? p)%fl) levels) (p * Fin 0.98)%fl.

Definition lift2 (f : float -> float -> bool) (a b : result float)
  : result bool :=
  x <- a ;; y <- b ;; Ok (f x y).

Definition turtle_soup (self : EntrySystems)
  : result (option EntryCandidate) :=
  let recent_data := Series.tail 22 (data self) in
  let avg_volume := Series.mean (col_volume recent_data) in
  atr <- calculate_atr (data self) ;;
  let low_ := col low recent_data in
  let high_ := col high recent_data in
  let close_ := col close recent_data in
  let open_ := col open recent_data in
  let volume_ := col_volume recent_data in
  bullish <-
    lift2 flt (Series.iloc_neg 3 low_)
              (Ok (Series.min (Series.iloc_slice_neg 23 3 low_)))
    &&& lift2 fgt (Series.iloc_neg 1 close_) (Series.iloc_neg 1 open_)
    &&& lift2 fgt (Series.iloc_neg 1 volume_) (Ok (Fin 2 * avg_volume)%fl) ;;
  if bullish then
    entry <- Series.iloc_neg 1 close_ ;;
    low3 <- Series.iloc_neg 3 low_ ;;
    let stop := (low3 - Fin 1.5 * atr)%fl in
    let target := find_nearest_liquidity_pool self entry "up" in
    invalidation <- Series.iloc_neg 3 low_ ;;
    ts <- Series.iloc_neg 1 (index recent_data) ;;
    Ok (Some (mkEntry "turtle_soup" "long" entry stop target invalidation ts))
  else
    bearish <-
      lift2 fgt (Series.iloc_neg 3 high_)
                (Ok (Series.max (Series.iloc_slice_neg 23 3 high_)))
      &&& lift2 flt (Series.iloc_neg 1 close_) (Series.iloc_neg 1 open_)
      &&& lift2 fgt (Series.iloc_neg 1 volume_) (Ok (Fin 2 * avg_volume)%fl) ;;
    if bearish then
      entry <- Series.iloc_neg 1 close_ ;;
      high3 <- Series.iloc_neg 3 high_ ;;
      let stop := (high3 + Fin 1.5 * atr)%fl in
      let target := find_nearest_liquidity_pool self entry "down" in
      invalidation <- Series.iloc_neg 3 high_ ;;
      ts <- Series.iloc_neg 1 (index recent_data) ;;
      Ok (Some (mkEntry "turtle_soup" "short" entry stop target invalidation ts))
    else Ok None.

(** The two quantities [crt] tests for consolidation. *)
Definition crt_price_range (self : EntrySystems) : float :=
  let recent_data := Series.tail 6 (data self) in
  ((Series.max (col high recent_data) - Series.min (col low recent_data))
   / Series.min (col low recent_data))%fl.

Definition crt_volume_ratio (self : EntrySystems) : result float :=
  let recent_data := Series.tail 6 (data self) in
  rolled <- Series.iloc_neg 1
              (Series.rolling 20 Series.mean (col_volume (data self))) ;;
  Ok (Series.mean (col_volume recent_data) / rolled)%fl.

Definition crt (self : EntrySystems) : result (option EntryCandidate) :=
  let recent_data := Series.tail 6 (data self) in
  atr <- calculate_atr (data self) ;;
  let price_range := crt_price_range self in
  volume_ratio <- crt_volume_ratio self ;;
  if (price_range <=? Fin 0.005)%fl && (volume_ratio <? Fin 0.5)%fl then
    let range_high := Series.max (col high recent_data) in
    let range_low := Series.min (col low recent_data) in
    let range_mid := ((range_high + range_low) / Fin 2)%fl in
    last_close <- Series.iloc_neg 1 (col close recent_data) ;;
    if (last_close >? range_high)%fl then
      let stop := (range_low - Fin 1.5 * atr)%fl in
      let target := find_nearest_liquidity_pool self last_close "up" in
      ts <- Series.iloc_neg 1 (index recent_data) ;;
      Ok (Some (mkEntry "crt" "long" last_close stop target range_mid ts))
    else if (last_close <? range_low)%fl then
      let stop := (range_high + Fin 1.5 * atr)%fl in
      let target := find_nearest_liquidity_pool self last_close "down" in
      ts <- Series.iloc_neg 1 (index recent_data) ;;
      Ok (Some (mkEntry "crt" "short" last_close stop target range_mid ts))
    else Ok None
  else Ok None.

Definition market_maker_model (now : Clock) (self : EntrySystems)
  : result (option EntryCandidate) :=
  let recent_data := Series.tail 3 (data self) in
  let avg_volume := Series.mean (col_volume recent_data) in
  atr <- calculate_atr (data self) ;;
  let quarterly_levels := get_quarterly_levels now (ict_analysis self) in
  bias <- determine_bias now (ict_analysis self) ;;
  let low_ := col low recent_data in
  let high_ := col high recent_data in
  let close_ := col close recent_data in
  let open_ := col open recent_data in
  let volume_ := col_volume recent_data in
  long_ <-
    Ok (String.eqb bias "bullish")
    &&& lift2 fle (Series.iloc_neg 1 low_) (Ok (q2_low quarterly_levels))
    &&& lift2 fgt (Series.iloc_neg 1 close_) (Series.iloc_neg 1 open_)
    &&& lift2 fgt (Series.iloc_neg 1 volume_) (Ok (Fin 1.5 * avg_volume)%fl) ;;
  if long_ then
    entry <- Series.iloc_neg 1 close_ ;;
    let stop := (q2_low quarterly_levels - Fin 1.5 * atr)%fl in
    let target := find_nearest_liquidity_pool self entry "up" in
    ts <- Series.iloc_neg 1 (index recent_data) ;;
    Ok (Some (mkEntry "market_maker" "long" entry stop target
                      (q2_low quarterly_levels) ts))
  else
    short_ <-
      Ok (String.eqb bias "bearish")
      &&& lift2 fge (Series.iloc_neg 1 high_) (Ok (q3_high quarterly_levels))
      &&& lift2 flt (Series.iloc_neg 1 close_) (Series.iloc_neg 1 open_)
      &&& lift2 fgt (Series.iloc_neg 1 volume_) (Ok (Fin 1.5 * avg_volume)%fl) ;;
    if short_ then
      entry <- Series.iloc_neg 1 close_ ;;
      let stop := (q3_high quarterly_levels + Fin 1.5 * atr)%fl in
      let target := find_nearest_liquidity_pool self entry "down" in
      ts <- Series.iloc_neg 1 (index recent_data) ;;
      Ok (Some (mkEntry "market_maker" "short" entry stop target
                        (q3_high quarterly_levels) ts))
    else Ok None.

(** The dictionary returned by [generate_entries], in insertion order. *)
Definition Entries := list (string * EntryCandidate).

Definition set_if (key : string) (c : option EntryCandidate)
    (entries : Entries) : Entries :=
  match c with
  | Some e => entries ++ [(key, e)]
  | None => entries
  end.

Definition has_key (key : string) (entries : Entries) : bool :=
  existsb (fun kv => String.eqb (fst kv) key) entries.

Definition generate_entries (now : Clock) (self : EntrySystems)
  : result Entries :=
  let entries : Entries := [] in
  volatile <- is_volatile self ;;
  entries <-
    (if volatile : bool then
       ts <- turtle_soup self ;; Ok (set_if "turtle_soup" ts entries)
     else Ok entries) ;;
  c <- crt self ;;
  let entries := set_if "crt" c entries in
  m <- market_maker_model now self ;;
  let entries := set_if "market_maker" m entries in
  Ok entries.

(* ================================================================== *)
(** ** Risk management ([RiskManagement]) *)

Definition default_balance : float := Fin 10000.
Definition default_risk_percent : float := Fin 0.01.
Definition max_daily_risk : float := Fin 0.05.

(** [self.pip_values] *)
Definition pip_values : list (string * float) :=
  [("XAUUSD"%string, Fin 0.01); ("NASDAQ"%string, Fin 1)].

(** [d[key]]: a missing key raises [KeyError]. *)
Fixpoint dict_get (d : list (string * float)) (key : string) : result float :=
  match d with
  | [] => Raise KeyError
  | (k, v) :: d' => if String.eqb k key then Ok v else dict_get d' key
  end.

Definition dict_keys (d : list (string * float)) : list string := map fst d.

(** The arithmetic the arguments bring with them.  Both a Python [float]
    and a [numpy.float64] (a row of the frame, as passed by
    [generate_risk_metrics]) are floats; they differ on a zero divisor. *)
Inductive flavour : Type := PythonFloat | NumpyFloat.

Definition truediv (fl : flavour) (a b : float) : result float :=
  match fl with
  | PythonFloat => pydiv a b
  | NumpyFloat => Ok (a / b)%fl
  end.

Record PositionSize : Type := mkPosition {
  position_size : float;
  risk_amount : float;
  stop_loss_distance : float;
  pip_value : float
}.

Definition calculate_position_size (fl : flavour) (asset : string)
    (entry_price stop_loss : float) (balance risk_percent : option float)
  : result PositionSize :=
  let balance :=
    match balance with None => default_balance | Some b => b end in
  let risk_percent :=
    match risk_percent with None => default_risk_percent | Some r => r end in
  let risk_percent := pymin risk_percent (Fin 0.02) in
  let stop_loss_distance := fabs (entry_price - stop_loss)%fl in
  pip_value <- dict_get pip_values asset ;;
  let risk_amount := (balance * risk_percent)%fl in
  position_size <- truediv fl risk_amount (stop_loss_distance * pip_value)%fl ;;
  Ok (mkPosition position_size risk_amount stop_loss_distance pip_value).

Definition calculate_trailing_stop (entry_price current_price : float)
    (direction : string) (atr : float) : float :=
  if String.eqb direction "long" then
    let profit := (current_price - entry_price)%fl in
    if (profit >=? atr)%fl
    then pymax entry_price (current_price - atr)%fl
    else (entry_price - Fin 1.5 * atr)%fl
  else
    let profit := (entry_price - current_price)%fl in
    if (profit >=? atr)%fl
    then pymin entry_price (current_price + atr)%fl
    else (entry_price + Fin 1.5 * atr)%fl.

(** A [RiskManagement] object: its own frame and the [EntrySystems]
    object it was given. *)
Record RiskManagement : Type := mkRiskManagement {
  risk_data : MarketSeries;
  entry_systems : EntrySystems
}.

Definition calculate_dynamic_stop_loss (self : RiskManagement)
    (entry_price : float) (direction timeframe : string) : result float :=
  atr <- calculate_atr (risk_data self) ;;
  let atr_multiplier :=
    if existsb (String.eqb timeframe) ["1m"; "5m"; "15m"]%string
    then Fin 1.5 else Fin 2 in
  if String.eqb direction "long"
  then Ok (entry_price - atr * atr_multiplier)%fl
  else Ok (entry_price + atr * atr_multiplier)%fl.

Record RiskMetrics : Type := mkRiskMetrics {
  rm_position_size : float;
  rm_risk_amount : float;
  rm_dynamic_stop_loss : float;
  rm_trailing_stop : float;
  rm_risk_reward_ratio : float;
  rm_atr : float;
  rm_pip_value : float
}.

(** [generate_risk_metrics]; [None] is the
    [{'error': 'No entry signals available'}] answer.  The entry's prices
    are rows of the frame, so the sizing runs on numpy floats. *)
Definition generate_risk_metrics (now : Clock) (self : RiskManagement)
    (asset timeframe : string) (balance : option float)
  : result (option RiskMetrics) :=
  entries <- generate_entries now (entry_systems self) ;;
  match entries with
  | [] => Ok None
  | (_, entry) :: _ =>
      position <- calculate_position_size NumpyFloat asset
                    (entry_price entry) (stop_loss entry) balance None ;;
      dynamic_stop <- calculate_dynamic_stop_loss self (entry_price entry)
                        (direction entry) timeframe ;;
      atr <- calculate_atr (risk_data self) ;;
      current_price <- Series.iloc_neg 1 (col close (risk_data self)) ;;
      let trailing_stop :=
        calculate_trailing_stop (entry_price entry) current_price
                                (direction entry) atr in
      let risk := fabs (entry_price entry - stop_loss entry)%fl in
      let reward := fabs (take_profit entry - entry_price entry)%fl in
      let risk_reward :=
        if (risk >? Fin 0)%fl then (reward / risk)%fl else Fin 0 in
      Ok (Some (mkRiskMetrics (position_size position) (risk_amount position)
                              dynamic_stop trailing_stop risk_reward atr
                              (pip_value position)))
  end.

(** A trade-signal record: a Python dict in which every key may be
    absent. *)
Record Signal : Type := mkSignal {
  sig_result : option string;
  sig_risk_amount : option float;
  sig_risk_reward : option float;
  sig_entry_price : option float;
  sig_stop_loss : option float;
  sig_take_profit : option float
}.

Record PortfolioMetrics : Type := mkMetrics {
  win_rate : float;
  avg_risk_reward : float;
  max_drawdown : float;
  total_trades : nat
}.

Definition key_get (v : option float) : result float :=
  match v with
  | Some x => Ok x
  | None => Raise KeyError
  end.

Definition is_win (r : option string) : bool :=
  match r with
  | Some s => String.eqb s "win"
  | None => false
  end.

(** numpy reductions: NaN propagates. *)
Definition np_maximum (a b : float) : float :=
  if is_nan a then NaN else if is_nan b then NaN
  else if flt a b then b else a.

Definition np_mean (l : list float) : float :=
  (Series.fsum l / of_nat (length l))%fl.

Fixpoint accumulate_from (peak : float) (l : list float) : list float :=
  match l with
  | [] => []
  | x :: r => let peak' := np_maximum peak x in peak' :: accumulate_from peak' r
  end.

(** [np.maximum.accumulate] *)
Definition np_maximum_accumulate (l : list float) : list float :=
  match l with
  | [] => []
  | x :: r => x :: accumulate_from x r
  end.

(** [np.max] of a non-empty array. *)
Definition np_max (l : list float) : float :=
  match l with
  | [] => NaN
  | x :: r => fold_left np_maximum r x
  end.

(** The loop collecting [risk_rewards]. *)
Fixpoint risk_rewards (signals : list Signal) : result (list float) :=
  match signals with
  | [] => Ok []
  | signal :: rest =>
      here <-
        match sig_take_profit signal, sig_stop_loss signal with
        | Some tp, Some sl =>
            entry <- key_get (sig_entry_price signal) ;;
            let risk := fabs (entry - sl)%fl in
            let reward := fabs (tp - entry)%fl in
            if (risk >? Fin 0)%fl then Ok [(reward / risk)%fl] else Ok []
        | _, _ => Ok []
        end ;;
      more <- risk_rewards rest ;;
      Ok (here ++ more)
  end.

(** The loop replaying the equity curve from [current_equity]. *)
Fixpoint equity_curve (current_equity : float) (signals : list Signal)
  : list float :=
  match signals with
  | [] => []
  | signal :: rest =>
      match sig_result signal, sig_risk_amount signal with
      | Some r, Some amount =>
          let current_equity :=
            if String.eqb r "win" then
              (current_equity
               + amount * match sig_risk_reward signal with
                          | Some rr => rr
                          | None => Fin 1
                          end)%fl
            else (current_equity - amount)%fl in
          current_equity :: equity_curve current_equity rest
      | _, _ => equity_curve current_equity rest
      end
  end.

Definition calculate_portfolio_metrics (signals : list Signal)
  : result PortfolioMetrics :=
  match signals with
  | [] => Ok (mkMetrics (Fin 0) (Fin 0) (Fin 0) 0)
  | _ =>
      let winning_trades :=
        length (filter (fun signal => is_win (sig_result signal)) signals) in
      let total_trades := length signals in
      let win_rate :=
        if (0 <? total_trades)%nat
        then (of_nat winning_trades / of_nat total_trades)%fl
        else Fin 0 in
      rrs <- risk_rewards signals ;;
      let avg_risk_reward :=
        match rrs with [] => Fin 0 | _ => np_mean rrs end in
      let curve := equity_curve default_balance signals in
      let max_drawdown :=
        match curve with
        | [] => Fin 0
        | _ =>
            let peak := np_maximum_accumulate curve in
            let drawdown :=
              Series.zip_with fdiv (Series.zip_with fsub peak curve) peak in
            np_max drawdown
        end in
      Ok (mkMetrics win_rate avg_risk_reward max_drawdown total_trades)
  end.

(* ================================================================== *)
(** ** Notions used in the statements, and sample frames *)

(** [balance], or the default when it is [None]. *)
Definition effective_balance (b : option float) : float :=
  match b with None => default_balance | Some x => x end.

(** A signal that has both a target and a stop also has an entry price
    (otherwise [signal['entry_price']] raises [KeyError]). *)
Definition signal_priced (s : Signal) : Prop :=
  sig_take_profit s = None \/ sig_stop_loss s = None \/
  sig_entry_price s <> None.

(** [{'result': 'win', 'risk_amount': 100, 'risk_reward': 2}] *)
Definition winning_signal : Signal :=
  mkSignal (Some "win"%string) (Some (Fin 100)) (Some (Fin 2))
           None None None.

(** Series without NaN or infinite rows. *)
Definition all_fin (s : list float) : Prop :=
  Forall (fun x => is_fin x = true) s.

Definition fin_or_nan (x : float) : Prop :=
  is_fin x = true \/ x = NaN.

Definition Qsum (l : list Q) : Q := fold_left Qplus l 0.

(** The mean of a non-empty series of finite values. *)
Definition Qmean (l : list Q) : Q :=
  Qsum l / inject_Z (Z.of_nat (length l)).

(** The rolling mean [calculate_sma_slope] reads its last two rows from. *)
Definition sma (d : MarketSeries) : list float :=
  Series.rolling 20 Series.mean (col close d).

(** [steady n]: [n] identical, well-formed bars. *)
Definition steady_bar (t : Z) : Bar := mkBar t 10 12 9 11 1000.

Definition steady (n : nat) : MarketSeries :=
  map (fun i => steady_bar (Z.of_nat i)) (seq 0 n).

(** Rows closing at zero, and twenty of them followed by a row closing
    at 20. *)
Definition zero_bar (t : Z) : Bar := mkBar t 0 0 0 0 0.

Definition flat_zero (n : nat) : MarketSeries :=
  map (fun i => zero_bar (Z.of_nat i)) (seq 0 n).

Definition zero_then_jump : MarketSeries :=
  flat_zero 20 ++ [mkBar 20 0 20 0 20 0].

(** A clock whose current year holds the timestamps 0 .. 399, a hundred
    per quarter. *)
Definition sample_clock : Clock :=
  mkClock 0 399
    (fun q => match q with
              | Qtr1 => 0 | Qtr2 => 100 | Qtr3 => 200 | Qtr4 => 300
              end%Z)
    (fun q => match q with
              | Qtr1 => 99 | Qtr2 => 199 | Qtr3 => 299 | Qtr4 => 399
              end%Z).

Definition steady_system : EntrySystems :=
  mkEntrySystems (steady 25) (steady 25).

(** A quiet, tight 25-bar frame: lows at 10000, highs at [h], thin volume
    on the last six bars, and a last close at [c]. *)
Definition compressed (h c : Q) : MarketSeries :=
  map (fun i => mkBar (Z.of_nat i) 10025 h 10000 10025 10000) (seq 0 19)
  ++ map (fun i => mkBar (Z.of_nat i) 10025 h 10000 10025 100) (seq 19 5)
  ++ [mkBar 24 10025 h 10000 c 100].

Definition compressed_system (h c : Q) : EntrySystems :=
  mkEntrySystems (compressed h c) (compressed h c).

(** The volume column as exact numbers. *)
Definition volumes (d : MarketSeries) : list Q :=
  map (fun b => inject_Z (volume b)) d.

(** The three tests of the bullish branch of [turtle_soup], on the bars
    themselves: [recent] is the 22-bar tail window, [b3] its third bar from
    the end and [bl] its last bar. *)
Record bullish_turtle_soup (recent : MarketSeries) (b3 bl : Bar) : Prop := {
  undercut :
    Forall (fun b => low b3 < low b) (Series.iloc_slice_neg 23 3 recent);
  bullish_close : open bl < close bl;
  volume_spike : 2 * Qmean (volumes recent) < inject_Z (volume bl)
}.

(** The candidate the bullish branch of [turtle_soup] builds. *)
Definition turtle_soup_long (self : EntrySystems) (b3 bl : Bar) (atr : float)
  : EntryCandidate :=
  mkEntry "turtle_soup" "long"
    (Fin (close bl))
    (Fin (low b3) - Fin 1.5 * atr)%fl
    (find_nearest_liquidity_pool self (Fin (close bl)) "up")
    (Fin (low b3))
    (timestamp bl).

(** A 25-bar frame with a sharp undercut at the third bar from the end and
    a strong bullish close on heavy volume at the last bar. *)
Definition sweep_bar : Bar := mkBar 22 100 101 90 95 100.

Definition reversal_bar : Bar := mkBar 24 96 101 95 100 1000.

Definition sweep_series : MarketSeries :=
  map (fun i => mkBar (Z.of_nat i) 100 101 99 100 100) (seq 0 22)
  ++ [sweep_bar; mkBar 23 95 97 94 96 100; reversal_bar].

Definition sweep_system : EntrySystems :=
  mkEntrySystems sweep_series sweep_series.

(** How many highs of a window touch a price level: the rows within
    tolerance of the level, wherever they are. *)
Definition touches (th : float) (values : list float) (level : float) : nat :=
  length (filter (within th level) values).

(** Well-formed bars with given highs, at consecutive timestamps. *)
Definition level_bar (t : Z) (h : Q) : Bar :=
  mkBar t (h - 1) h (h - 1) (h - 1) 100.

Fixpoint bars_from (t : Z) (highs : list Q) : MarketSeries :=
  match highs with
  | [] => []
  | h :: r => level_bar t h :: bars_from (t + 1) r
  end.

(** Seventeen highs far from each other: 200, 300, ..., 1800. *)
Definition far_highs : list Q :=
  map (fun i => inject_Z (Z.of_nat (200 + 100 * i))) (seq 0 17).

(** Two highs at 99.999 and then one at 100.5, and the same 20 highs
    scanned in the reverse order. *)
Definition late_level : MarketSeries :=
  bars_from 0 ([99.999; 99.999; 100.5] ++ far_highs).

Definition early_level : MarketSeries :=
  bars_from 0 (rev ([99.999; 99.999; 100.5] ++ far_highs)).

(** Three equal highs followed by the far ones. *)
Definition triple_top : MarketSeries :=
  bars_from 0 ([100; 100; 100] ++ far_highs).

(** The levels [find_nearest_liquidity_pool] chooses from, upwards. *)
Definition levels_above (self : EntrySystems) : list float :=
  let liquidity := find_liquidity_pools (ict_analysis self) in
  map price (cluster_highs liquidity) ++ [premium (pd_arrays liquidity)].

(* ================================================================== *)
(** ** Liquidity events ([ICTAnalysis.detect_liquidity_events]) *)

(** [detect_liquidity_events] can also raise [ValueError] (the truth value
    of a Series), and [check_daily_risk_limit] too (a timestamp that is not
    in ISO format). *)
Inductive error : Type :=
| Builtin (e : exn)
| ValueError.

Inductive outcome (A : Type) : Type :=
| Return (a : A)
| Throw (e : error).

Arguments Return {A} a.
Arguments Throw {A} e.

Definition bind_outcome {A B : Type} (r : outcome A) (k : A -> outcome B)
  : outcome B :=
  match r with
  | Return a => k a
  | Throw e => Throw e
  end.

Definition lift_result {A : Type} (r : result A) : outcome A :=
  match r with
  | Ok a => Return a
  | Raise e => Throw (Builtin e)
  end.

Record Sweep : Type := mkSweep {
  sweep_type : string;
  sweep_price : float;
  sweep_timestamp : Z
}.

Record Run : Type := mkRun {
  run_type : string;
  start_price : float;
  end_price : float;
  start_timestamp : Z;
  end_timestamp : Z
}.

Record LiquidityEvents : Type := mkEvents {
  sweeps : list Sweep;
  runs : list Run
}.

(** [range(a, b)] *)
Definition py_range (a b : nat) : list nat := seq a (b - a).

(** [s.iloc[i-20:i]] for a row number [i >= 0]: a negative start counts
    from the end of the series. *)
Definition iloc_back20 {A : Type} (i : nat) (s : list A) : list A :=
  let start := if (20 <=? i)%nat then (i - 20)%nat
               else (length s + i - 20)%nat in
  Series.iloc_slice start i s.

(** The body of the sweep loop at row [i]: the events it appends. *)
Definition sweeps_at (recent_data : MarketSeries) (avg_volume : float)
    (i : nat) : result (list Sweep) :=
  let high_ := col high recent_data in
  let low_ := col low recent_data in
  let close_ := col close recent_data in
  let open_ := col open recent_data in
  let volume_ := col_volume recent_data in
  up <-
    lift2 fgt (Series.iloc i high_) (Ok (Series.max (iloc_back20 i high_)))
    &&& lift2 flt (Series.iloc (i + 1) close_) (Series.iloc i open_)
    &&& lift2 fgt (Series.iloc i volume_) (Ok (Fin 2 * avg_volume)%fl) ;;
  bullish <-
    (if up : bool then
       p <- Series.iloc i high_ ;;
       t <- Series.iloc i (index recent_data) ;;
       Ok [mkSweep "bullish" p t]
     else Ok []) ;;
  down <-
    lift2 flt (Series.iloc i low_) (Ok (Series.min (iloc_back20 i low_)))
    &&& lift2 fgt (Series.iloc (i + 1) close_) (Series.iloc i open_)
    &&& lift2 fgt (Series.iloc i volume_) (Ok (Fin 2 * avg_volume)%fl) ;;
  bearish <-
    (if down : bool then
       p <- Series.iloc i low_ ;;
       t <- Series.iloc i (index recent_data) ;;
       Ok [mkSweep "bearish" p t]
     else Ok []) ;;
  Ok (bullish ++ bearish).

Fixpoint sweep_loop (recent_data : MarketSeries) (avg_volume : float)
    (rows : list nat) : result (list Sweep) :=
  match rows with
  | [] => Ok []
  | i :: rest =>
      here <- sweeps_at recent_data avg_volume i ;;
      more <- sweep_loop recent_data avg_volume rest ;;
      Ok (here ++ more)
  end.

Definition zone_of (zones : PDArray) (p : float) : string :=
  if (p >=? premium zones)%fl then "premium"
  else if (p <=? discount zones)%fl then "discount"
  else "equilibrium".

(** The test [all(...)] of the run loop.  In the premium and discount
    zones it is [all] of a boolean Series; in the equilibrium zone it is
    the [and] of two boolean Series, which asks for the truth value of a
    Series: pandas raises [ValueError]. *)
Definition sustained (zones : PDArray) (zone : string) (closes : list float)
  : outcome bool :=
  if String.eqb zone "premium" then
    Return (forallb (fun c => (c >? premium zones)%fl) closes)
  else if String.eqb zone "discount" then
    Return (forallb (fun c => (c <? discount zones)%fl) closes)
  else Throw ValueError.

(** The body of the run loop at row [i], from the zone of the row before:
    the runs it appends and the zone it leaves. *)
Definition run_at (recent_data : MarketSeries) (avg_volume : float)
    (zones : PDArray) (current_zone : option string) (i : nat)
  : outcome (list Run * option string) :=
  let close_ := col close recent_data in
  bind_outcome (lift_result (Series.iloc i close_)) (fun p =>
  let zone := zone_of zones p in
  let changed :=
    match current_zone with
    | Some z => negb (String.eqb zone z)
    | None => true
    end in
  if changed then
    bind_outcome
      (sustained zones zone (Series.iloc_slice i (i + 5) close_))
      (fun ok =>
         if ok : bool then
           if (Series.mean
                 (Series.iloc_slice i (i + 5) (col_volume recent_data))
               >? Fin 1.5 * avg_volume)%fl
           then
             bind_outcome (lift_result (Series.iloc (i + 4) close_))
               (fun e =>
             bind_outcome
               (lift_result (Series.iloc i (index recent_data)))
               (fun t0 =>
             bind_outcome
               (lift_result (Series.iloc (i + 4) (index recent_data)))
               (fun t4 =>
                Return ([mkRun zone p e t0 t4], Some zone))))
           else Return ([], Some zone)
         else Return ([], Some zone))
  else Return ([], Some zone)).

Fixpoint run_loop (recent_data : MarketSeries) (avg_volume : float)
    (zones : PDArray) (current_zone : option string) (rows : list nat)
  : outcome (list Run) :=
  match rows with
  | [] => Return []
  | i :: rest =>
      bind_outcome (run_at recent_data avg_volume zones current_zone i)
        (fun r =>
      bind_outcome (run_loop recent_data avg_volume zones (snd r) rest)
        (fun more => Return (fst r ++ more)))
  end.

Definition detect_liquidity_events_with (lookback : nat)
    (data : MarketSeries) : outcome LiquidityEvents :=
  let recent_data := Series.tail (lookback + 3) data in
  let avg_volume := Series.mean (col_volume recent_data) in
  bind_outcome
    (lift_result
       (sweep_loop recent_data avg_volume
          (py_range lookback (length recent_data - 1))))
    (fun sweeps =>
  let liquidity_zones :=
    pd_arrays (find_liquidity_pools_with lookback default_threshold data) in
  bind_outcome
    (run_loop recent_data avg_volume liquidity_zones None
       (py_range lookback (length recent_data - 5)))
    (fun runs => Return (mkEvents sweeps runs))).

Definition detect_liquidity_events (data : MarketSeries)
  : outcome LiquidityEvents :=
  detect_liquidity_events_with 20 data.

Record ICTSignals : Type := mkICTSignals {
  ict_bias : string;
  ict_clusters : list LiquidityCluster * list LiquidityCluster;
  ict_pd_arrays : PDArray;
  ict_events : LiquidityEvents
}.

(** [ICTAnalysis.generate_signals] *)
Definition generate_signals (now : Clock) (data : MarketSeries)
  : outcome ICTSignals :=
  bind_outcome (lift_result (determine_bias now data)) (fun bias =>
  let liquidity := find_liquidity_pools data in
  bind_outcome (detect_liquidity_events data) (fun events =>
  Return (mkICTSignals bias
            (cluster_highs liquidity, cluster_lows liquidity)
            (pd_arrays liquidity) events))).

(* ================================================================== *)
(** ** Daily risk limit ([RiskManagement.check_daily_risk_limit]) *)

(** The keys of a signal record that [check_daily_risk_limit] reads. *)
Record RiskSignal : Type := mkRiskSignal {
  rs_timestamp : option string;
  rs_risk_amount : option float
}.

Record DailyRisk : Type := mkDailyRisk {
  daily_risk_percent : float;
  risk_limit_exceeded : bool;
  remaining_risk : float;
  today_signals : nat
}.

(** The list comprehension selecting today's signals.  [date_of] is
    [datetime.fromisoformat(_).date()] as a day number, [None] when the
    string is not in ISO format; [today] is [datetime.now().date()]. *)
Fixpoint signals_of_today (date_of : string -> option Z) (today : Z)
    (signals : list RiskSignal) : outcome (list RiskSignal) :=
  match signals with
  | [] => Return []
  | signal :: rest =>
      match rs_timestamp signal with
      | None => Throw (Builtin KeyError)
      | Some ts =>
          match date_of ts with
          | None => Throw ValueError
          | Some d =>
              bind_outcome (signals_of_today date_of today rest)
                (fun more =>
                   Return (if (d =? today)%Z then signal :: more else more))
          end
      end
  end.

(** [sum(signal.get('risk_amount', 0) for signal in today_signals)] *)
Definition total_risk_of (today_signals : list RiskSignal) : float :=
  fold_left fadd
    (map (fun signal =>
            match rs_risk_amount signal with
            | Some a => a
            | None => Fin 0
            end) today_signals)
    (Fin 0).

Definition check_daily_risk_limit (date_of : string -> option Z) (today : Z)
    (signals : list RiskSignal) (balance : option float)
  : outcome DailyRisk :=
  let balance :=
    match balance with None => default_balance | Some b => b end in
  bind_outcome (signals_of_today date_of today signals) (fun today_signals =>
  let total_risk := total_risk_of today_signals in
  bind_outcome (lift_result (pydiv total_risk balance)) (fun percent =>
  let exceeded := (percent >? max_daily_risk)%fl in
  Return (mkDailyRisk percent exceeded
            (pymax (Fin 0) (max_daily_risk * balance - total_risk)%fl)
            (length today_signals)))).

(* ================================================================== *)
(** ** Notions used in the further properties *)

(** The three tests of the bearish branch of [turtle_soup], on the bars
    themselves. *)
Record bearish_turtle_soup (recent : MarketSeries) (b3 bl : Bar) : Prop := {
  overshoot :
    Forall (fun b => high b < high b3) (Series.iloc_slice_neg 23 3 recent);
  bearish_close : close bl < open bl;
  bearish_volume_spike : 2 * Qmean (volumes recent) < inject_Z (volume bl)
}.

(** The candidate the bearish branch of [turtle_soup] builds. *)
Definition turtle_soup_short (self : EntrySystems) (b3 bl : Bar) (atr : float)
  : EntryCandidate :=
  mkEntry "turtle_soup" "short"
    (Fin (close bl))
    (Fin (high b3) + Fin 1.5 * atr)%fl
    (find_nearest_liquidity_pool self (Fin (close bl)) "down")
    (Fin (high b3))
    (timestamp bl).

(** The levels [find_nearest_liquidity_pool] chooses from, downwards. *)
Definition levels_below (self : EntrySystems) : list float :=
  let liquidity := find_liquidity_pools (ict_analysis self) in
  map price (cluster_lows liquidity) ++ [discount (pd_arrays liquidity)].

(** The bars of a frame inside the clock's current year and inside one of
    its quarters. *)
Definition bars_of_quarter (now : Clock) (data : MarketSeries) (q : quarter)
  : MarketSeries :=
  loc_slice (quarter_start now q) (quarter_end now q)
    (loc_slice (year_start now) (year_end now) data).

Definition level_high (l : QuarterlyLevels) (q : quarter) : float :=
  match q with
  | Qtr1 => q1_high l | Qtr2 => q2_high l
  | Qtr3 => q3_high l | Qtr4 => q4_high l
  end.

Definition level_low (l : QuarterlyLevels) (q : quarter) : float :=
  match q with
  | Qtr1 => q1_low l | Qtr2 => q2_low l
  | Qtr3 => q3_low l | Qtr4 => q4_low l
  end.

(** A frame on which both sweep rows fire: two bullish sweeps, no run. *)
Definition spike_series : MarketSeries :=
  map (fun i => mkBar (Z.of_nat i) 100 101 99 100 100) (seq 0 20)
  ++ [mkBar 20 104 105 99 100 1000;
      mkBar 21 103 106 99 100 1000;
      mkBar 22 100 101 99 100 100].

(** A rising 21-bar frame inside the second quarter of [sample_clock]
    whose last bar has left the quarter: the bias is bullish. *)
Definition rising : MarketSeries :=
  map (fun i => mkBar (100 + Z.of_nat i) 100 101 99 100 100) (seq 0 20)
  ++ [mkBar 200 99 106 98 105 1000].

Definition next_year_clock : Clock :=
  mkClock 1000 1399
    (fun q => match q with
              | Qtr1 => 1000 | Qtr2 => 1100 | Qtr3 => 1200 | Qtr4 => 1300
              end%Z)
    (fun q => match q with
              | Qtr1 => 1099 | Qtr2 => 1199 | Qtr3 => 1299 | Qtr4 => 1399
              end%Z).

(** What every entry of the dictionary satisfies. *)
Definition entry_ok (self : EntrySystems) (kv : string * EntryCandidate)
  : Prop :=
  system (snd kv) = fst kv /\
  (direction (snd kv) = "long" \/ direction (snd kv) = "short")%string /\
  Series.iloc_neg 1 (col close (data self)) = Ok (entry_price (snd kv)).

Definition rising_system : EntrySystems := mkEntrySystems rising rising.

(** A 25-bar frame with a blow-off high at the third bar from the end and
    a strong bearish close on heavy volume at the last bar. *)
Definition blowoff_bar : Bar := mkBar 22 100 110 99 105 100.

Definition rejection_bar : Bar := mkBar 24 104 105 99 100 1000.

Definition blowoff_series : MarketSeries :=
  map (fun i => mkBar (Z.of_nat i) 100 101 99 100 100) (seq 0 22)
  ++ [blowoff_bar; mkBar 23 105 106 103 104 100; rejection_bar].

Definition blowoff_system : EntrySystems :=
  mkEntrySystems blowoff_series blowoff_series.

Definition nonneg (x : float) : Prop := exists q, x = Fin q /\ 0 <= q.

(** The ATR multiplier of a timeframe. *)
Definition atr_multiplier (timeframe : string) : Q :=
  if existsb (String.eqb timeframe) ["1m"; "5m"; "15m"]%string
  then 1.5 else 2.

Definition unpriced_signal : Signal :=
  mkSignal (Some "win"%string) (Some (Fin 100)) (Some (Fin 2))
           None (Some (Fin 90)) (Some (Fin 120)).

(** A signal whose timestamp is present and in ISO format. *)
Definition dated (date_of : string -> option Z) (s : RiskSignal) : Prop :=
  exists ts d, rs_timestamp s = Some ts /\ date_of ts = Some d.


(** A calendar of two days for the examples. *)
Definition two_days (ts : string) : option Z :=
  if String.eqb ts "2024-01-01" then Some 1%Z
  else if String.eqb ts "2024-01-02" then Some 2%Z
  else None.

Definition risk_on (day : string) (amount : Q) : RiskSignal :=
  mkRiskSignal (Some day) (Some (Fin amount)).

Definition busy_day : list RiskSignal :=
  [risk_on "2024-01-01" 300; risk_on "2024-01-02" 200;
   risk_on "2024-01-02" 400].

(** A signal the equity replay skips, or a win with a non-negative
    credit. *)
Definition not_a_loss (s : Signal) : Prop :=
  sig_result s = None \/ sig_risk_amount s = None \/
  (sig_result s = Some "win"%string /\
   exists a, sig_risk_amount s = Some (Fin a) /\ 0 <= a /\
     (sig_risk_reward s = None \/
      exists r, sig_risk_reward s = Some (Fin r) /\ 0 <= r)).

(** Finite values that never fall, starting at or above [e]. *)
Inductive rising_from : Q -> list float -> Prop :=
| rising_nil e : rising_from e []
| rising_cons e x l : e <= x -> rising_from x l -> rising_from e (Fin x :: l).

Definition zero_like (x : float) : Prop := exists z, x = Fin z /\ z == 0.

(** A win, an open signal without a result, and a win without a stated
    reward. *)
Definition winning_streak : list Signal :=
  [ winning_signal;
    mkSignal None (Some (Fin 100)) None None None None;
    mkSignal (Some "win"%string) (Some (Fin 50)) None None None None ].

(** [{'result': 'loss', 'risk_amount': 100}] *)
Definition losing_signal : Signal :=
  mkSignal (Some "loss"%string) (Some (Fin 100)) None None None None.

(* ================================================================== *)
(** * Properties *)

(** ** Comparisons on finite values *)

Lemma Qlt_bool_iff (x y : Q) : Qlt_bool x y = true <-> x < y.
Proof.
  unfold Qlt_bool. rewrite negb_true_iff.
  split; intros H.
  - apply Qnot_le_lt. intros Hle. apply Qle_bool_iff in Hle. congruence.
  - destruct (Qle_bool y x) eqn:E; [|reflexivity].
    apply Qle_bool_iff in E. exfalso. apply (Qlt_not_le _ _ H E).
Qed.

Lemma Qlt_bool_false_iff (x y : Q) : Qlt_bool x y = false <-> y <= x.
Proof.
  unfold Qlt_bool. rewrite negb_false_iff. apply Qle_bool_iff.
Qed.

Lemma Qle_bool_false_iff (x y : Q) : Qle_bool x y = false <-> y < x.
Proof.
  rewrite <- Qlt_bool_iff. unfold Qlt_bool.
  destruct (Qle_bool x y); simpl; split; congruence.
Qed.

Lemma flt_Fin (x y : Q) : flt (Fin x) (Fin y) = true <-> x < y.
Proof. apply Qlt_bool_iff. Qed.

Lemma fle_Fin (x y : Q) : fle (Fin x) (Fin y) = true <-> x <= y.
Proof. apply Qle_bool_iff. Qed.

(** Turn every boolean comparison of rationals in sight into its
    proposition. *)
Ltac qprop :=
  repeat match goal with
  | H : Qle_bool _ _ = true |- _ => apply Qle_bool_iff in H
  | H : Qle_bool _ _ = false |- _ => apply Qle_bool_false_iff in H
  | H : Qlt_bool _ _ = true |- _ => apply Qlt_bool_iff in H
  | H : Qlt_bool _ _ = false |- _ => apply Qlt_bool_false_iff in H
  | |- Qle_bool _ _ = true => apply Qle_bool_iff
  | |- Qle_bool _ _ = false => apply Qle_bool_false_iff
  | |- Qlt_bool _ _ = true => apply Qlt_bool_iff
  | |- Qlt_bool _ _ = false => apply Qlt_bool_false_iff
  end.

(* ================================================================== *)
(** ** Risk management *)

(** The long stop once the breakeven lock is active. *)
Lemma trailing_stop_long_active (e c a : Q) :
  a <= c - e ->
  calculate_trailing_stop (Fin e) (Fin c) "long" (Fin a)
  = pymax (Fin e) (Fin c - Fin a)%fl.
Proof.
  intros H. unfold calculate_trailing_stop. simpl String.eqb. cbv iota.
  assert (E : (Fin c - Fin e >=? Fin a)%fl = true).
  { unfold fge, fsub, fneg, fadd, fle. qprop. unfold Qminus in H. exact H. }
  rewrite E. reflexivity.
Qed.

(** The long stop before the lock: the static initial stop. *)
Lemma trailing_stop_long_initial (e c a : Q) :
  c - e < a ->
  calculate_trailing_stop (Fin e) (Fin c) "long" (Fin a)
  = (Fin e - Fin 1.5 * Fin a)%fl.
Proof.
  intros H. unfold calculate_trailing_stop. simpl String.eqb. cbv iota.
  assert (E : (Fin c - Fin e >=? Fin a)%fl = false).
  { unfold fge, fsub, fneg, fadd, fle. qprop. unfold Qminus in H. exact H. }
  rewrite E. reflexivity.
Qed.

(** C1, as the code has it.  [calculate_trailing_stop] keeps no state: with
    the breakeven lock active the long stop is max(entry, current - atr),
    which is never below the entry price and is non-decreasing in the
    current price.  (So a later call at a lower price returns a lower stop.) *)
Theorem trailing_stop_long_monotone_in_price (e a c1 c2 : Q) :
  a <= c1 - e ->
  c1 <= c2 ->
  let s1 := calculate_trailing_stop (Fin e) (Fin c1) "long" (Fin a) in
  let s2 := calculate_trailing_stop (Fin e) (Fin c2) "long" (Fin a) in
  s1 = pymax (Fin e) (Fin c1 - Fin a)%fl /\
  s2 = pymax (Fin e) (Fin c2 - Fin a)%fl /\
  fle (Fin e) s1 = true /\
  fle s1 s2 = true.
Proof.
  intros H1 H12 s1 s2. subst s1 s2.
  assert (H2 : a <= c2 - e) by lra.
  rewrite (trailing_stop_long_active _ _ _ H1).
  rewrite (trailing_stop_long_active _ _ _ H2).
  split; [reflexivity|]. split; [reflexivity|].
  unfold pymax, fgt, fsub, fneg, fadd, flt.
  destruct (Qlt_bool e (c1 + - a)) eqn:E1;
    destruct (Qlt_bool e (c2 + - a)) eqn:E2;
    unfold fle; split; qprop; lra.
Qed.

Lemma trailing_stop_long_monotone_in_price_witness :
  fle (calculate_trailing_stop (Fin 100) (Fin 104) "long" (Fin 2))
      (calculate_trailing_stop (Fin 100) (Fin 105) "long" (Fin 2)) = true.
Proof.
  refine (proj2 (proj2 (proj2
    (trailing_stop_long_monotone_in_price 100 2 104 105 _ _)))).
  - unfold Qle; simpl; lia.
  - unfold Qle; simpl; lia.
Defined.

(** C1, as stated, fails: entry 100, ATR 2, prices 103, 105, 104.  The lock
    is active at each price, the stops are 101, 103, 102, and the stop
    returned at 104 is below the stop returned before it at 105. *)
Lemma trailing_stop_is_not_a_ratchet :
  let stop p := calculate_trailing_stop (Fin 100) (Fin p) "long" (Fin 2) in
  (Fin 103 - Fin 100 >=? Fin 2)%fl = true /\
  (Fin 105 - Fin 100 >=? Fin 2)%fl = true /\
  (Fin 104 - Fin 100 >=? Fin 2)%fl = true /\
  stop 103 = Fin 101 /\ stop 105 = Fin 103 /\ stop 104 = Fin 102 /\
  flt (stop 104) (stop 105) = true /\
  fle (stop 105) (stop 104) = false.
Proof. vm_compute. repeat split; reflexivity. Qed.

Lemma dict_get_pip_values_ok (asset : string) (v : float) :
  dict_get pip_values asset = Ok v ->
  In asset (dict_keys pip_values).
Proof.
  unfold pip_values, dict_keys. cbn [dict_get map fst In].
  destruct (String.eqb "XAUUSD" asset) eqn:E1.
  - apply String.eqb_eq in E1. auto.
  - destruct (String.eqb "NASDAQ" asset) eqn:E2.
    + apply String.eqb_eq in E2. auto.
    + intros H. discriminate H.
Qed.

Lemma dict_get_pip_values_in (asset : string) :
  In asset (dict_keys pip_values) ->
  exists v, dict_get pip_values asset = Ok v.
Proof.
  unfold pip_values, dict_keys. cbn [map fst In].
  intros [H | [H | []]]; subst asset; vm_compute; eauto.
Qed.

Lemma dict_get_pip_values_missing (asset : string) :
  ~ In asset (dict_keys pip_values) ->
  dict_get pip_values asset = Raise KeyError.
Proof.
  intros H. destruct (dict_get pip_values asset) as [v | e] eqn:E.
  - exfalso. apply H. eapply dict_get_pip_values_ok; eauto.
  - revert E. unfold pip_values. cbn [dict_get].
    destruct (String.eqb "XAUUSD" asset); [intros H0; discriminate H0|].
    destruct (String.eqb "NASDAQ" asset); [intros H0; discriminate H0|].
    congruence.
Qed.

(** What a returned sizing holds. *)
Lemma position_size_result (fl : flavour) (asset : string)
    (entry stop : float) (balance rp : option float) (r : PositionSize) :
  calculate_position_size fl asset entry stop balance rp = Ok r ->
  let risk_percent :=
    match rp with None => default_risk_percent | Some x => x end in
  risk_amount r
    = (effective_balance balance * pymin risk_percent (Fin 0.02))%fl /\
  stop_loss_distance r = fabs (entry - stop)%fl /\
  dict_get pip_values asset = Ok (pip_value r) /\
  position_size r
    = (risk_amount r / (fabs (entry - stop) * pip_value r))%fl.
Proof.
  unfold calculate_position_size, effective_balance.
  destruct (dict_get pip_values asset) as [pv | e]; simpl; [|discriminate].
  destruct fl; simpl.
  - unfold pydiv.
    destruct (fabs (entry - stop) * pv)%fl as [y | | |] eqn:E; simpl;
      try (intros H; inversion H; subst; simpl; rewrite ?E; auto; fail).
    destruct (is_zero y); [discriminate|].
    intros H; inversion H; subst; simpl; rewrite ?E; auto.
  - intros H; inversion H; subst; simpl; auto.
Qed.

(** C8.  The effective risk percent is clamped at 0.02: a call with
    [risk_percent = 0.05] gives the same outcome (the same sizing, or the
    same exception) as a call with 0.02, and every returned sizing has
    [risk_amount = balance * min(risk_percent, 0.02)] and
    [position_size = risk_amount / (|entry - stop| * pip_value[asset])]. *)
Theorem position_size_risk_percent_clamped
    (fl : flavour) (asset : string) (entry stop : float)
    (balance : option float) :
  calculate_position_size fl asset entry stop balance (Some (Fin 0.05))
  = calculate_position_size fl asset entry stop balance (Some (Fin 0.02))
  /\
  forall (rp : float) (r : PositionSize),
    calculate_position_size fl asset entry stop balance (Some rp) = Ok r ->
    risk_amount r
      = (effective_balance balance * pymin rp (Fin 0.02))%fl /\
    dict_get pip_values asset = Ok (pip_value r) /\
    position_size r
      = (risk_amount r / (fabs (entry - stop) * pip_value r))%fl.
Proof.
  split.
  - reflexivity.
  - intros rp r H.
    destruct (position_size_result _ _ _ _ _ _ _ H) as (Ha & _ & Hp & Hs).
    auto.
Qed.

(** The clamp at work on a concrete account: 5% requested, 2% risked. *)
Lemma position_size_risk_percent_clamped_witness :
  exists r,
    calculate_position_size PythonFloat "NASDAQ" (Fin 100) (Fin 90)
      (Some (Fin 10000)) (Some (Fin 0.05)) = Ok r /\
    risk_amount r = (Fin 10000 * pymin (Fin 0.05) (Fin 0.02))%fl /\
    feq (risk_amount r) (Fin 200) /\
    feq (position_size r) (Fin 20).
Proof.
  eexists. split; [reflexivity|].
  split.
  - exact (proj1 (proj2 (position_size_risk_percent_clamped
             PythonFloat "NASDAQ" (Fin 100) (Fin 90) (Some (Fin 10000)))
             (Fin 0.05) _ eq_refl)).
  - split; vm_compute; reflexivity.
Defined.

(** C10, as the code has it.  The lookup raises [KeyError] exactly for the
    assets outside the configured keys (no default is substituted), and a
    returned sizing carries the configured pip value.  For a configured
    asset the call returns, except that with plain Python floats a zero
    [stop_loss_distance * pip_value] raises [ZeroDivisionError]. *)
Theorem position_size_unknown_asset
    (fl : flavour) (asset : string) (entry stop : float)
    (balance risk_percent : option float) :
  let call :=
    calculate_position_size fl asset entry stop balance risk_percent in
  dict_keys pip_values = ["XAUUSD"; "NASDAQ"]%string /\
  (call = Raise KeyError <-> ~ In asset (dict_keys pip_values)) /\
  (forall r, call = Ok r ->
     In asset (dict_keys pip_values) /\
     dict_get pip_values asset = Ok (pip_value r)) /\
  (In asset (dict_keys pip_values) ->
     (exists r, call = Ok r) \/
     (fl = PythonFloat /\ call = Raise ZeroDivisionError /\
      exists pv z, dict_get pip_values asset = Ok pv /\
        (fabs (entry - stop) * pv)%fl = Fin z /\ z == 0)).
Proof.
  intros call. subst call.
  split; [reflexivity|].
  split; [split|split].
  - intros H Hin.
    destruct (dict_get_pip_values_in asset Hin) as [v Hv].
    revert H. unfold calculate_position_size. rewrite Hv. simpl.
    destruct fl; simpl; [|discriminate].
    unfold pydiv. destruct (_ * v)%fl as [y | | |]; try discriminate.
    destruct (is_zero y); discriminate.
  - intros H. unfold calculate_position_size.
    rewrite (dict_get_pip_values_missing asset H). reflexivity.
  - intros r H.
    destruct (position_size_result _ _ _ _ _ _ _ H) as (_ & _ & Hp & _).
    split; [eapply dict_get_pip_values_ok; eauto | exact Hp].
  - intros Hin.
    destruct (dict_get_pip_values_in asset Hin) as [v Hv].
    unfold calculate_position_size. rewrite Hv. simpl.
    destruct fl; simpl; [|left; eauto].
    unfold pydiv.
    destruct (fabs (entry - stop) * v)%fl as [y | | |] eqn:E;
      try (left; simpl; eauto; fail).
    destruct (is_zero y) eqn:Z; [|left; simpl; eauto].
    right. split; [reflexivity|]. split; [reflexivity|].
    exists v, y. split; [first [exact Hv | reflexivity]|].
    split; [first [exact E | reflexivity]|].
    apply Qeq_bool_iff. exact Z.
Qed.

(** C10, as stated, fails: a configured asset with [entry_price] equal to
    [stop_loss], passed as Python floats, raises [ZeroDivisionError], so
    the call does not succeed although the asset is a configured key. *)
Lemma position_size_known_asset_may_raise :
  In "XAUUSD"%string (dict_keys pip_values) /\
  calculate_position_size PythonFloat "XAUUSD" (Fin 100) (Fin 100) None None
  = Raise ZeroDivisionError.
Proof. split; [left; reflexivity | reflexivity]. Qed.

(** A configured asset with a non-zero stop distance is sized. *)
Example position_size_gold :
  exists r,
    calculate_position_size PythonFloat "XAUUSD" (Fin 2000) (Fin 1990)
      None None = Ok r /\
    pip_value r = Fin 0.01 /\ feq (position_size r) (Fin 1000).
Proof. eexists. split; [reflexivity|]. split; vm_compute; reflexivity. Qed.

Example position_size_unknown :
  calculate_position_size NumpyFloat "EURUSD" (Fin 1) (Fin 2) None None
  = Raise KeyError.
Proof. reflexivity. Qed.

Lemma position_size_unknown_asset_witness :
  calculate_position_size PythonFloat "EURUSD" (Fin 100) (Fin 90) None None
  = Raise KeyError.
Proof.
  apply (proj1 (proj2 (position_size_unknown_asset PythonFloat "EURUSD"
                         (Fin 100) (Fin 90) None None))).
  intros [H | [H | []]]; discriminate H.
Defined.


Lemma risk_rewards_single (s : Signal) :
  signal_priced s -> exists rrs, risk_rewards [s] = Ok rrs.
Proof.
  intros Hwf. unfold signal_priced in Hwf. unfold risk_rewards.
  destruct (sig_take_profit s) as [tp|] eqn:Etp; [|simpl; eauto].
  destruct (sig_stop_loss s) as [sl|] eqn:Esl; [|simpl; eauto].
  destruct (sig_entry_price s) as [e|] eqn:Ee.
  - cbn [key_get bind app].
    destruct (fabs (e - sl) >? Fin 0)%fl; cbn [bind app]; eauto.
  - exfalso. destruct Hwf as [H | [H | H]]; congruence.
Qed.

(** C9.  On the empty list the metrics are all zero.  On a single winning
    signal with [risk_amount = 100] and [risk_reward = 2] the equity curve,
    replayed from the default balance, is the single value
    [default_balance + 200], and the reported [max_drawdown] is 0. *)
Theorem portfolio_metrics_empty_and_single_win :
  calculate_portfolio_metrics []
  = Ok (mkMetrics (Fin 0) (Fin 0) (Fin 0) 0)
  /\
  forall s : Signal,
    sig_result s = Some "win"%string ->
    sig_risk_amount s = Some (Fin 100) ->
    sig_risk_reward s = Some (Fin 2) ->
    signal_priced s ->
    equity_curve default_balance [s] = [(default_balance + Fin 200)%fl] /\
    exists m,
      calculate_portfolio_metrics [s] = Ok m /\
      feq (max_drawdown m) (Fin 0) /\
      feq (win_rate m) (Fin 1) /\
      total_trades m = 1%nat.
Proof.
  split; [reflexivity|].
  intros s Hr Ha Hrr Hwf.
  assert (Hcurve :
    equity_curve default_balance [s] = [(default_balance + Fin 200)%fl]).
  { unfold equity_curve. rewrite Hr, Ha, Hrr. reflexivity. }
  split; [exact Hcurve|].
  destruct (risk_rewards_single s Hwf) as [rrs Hrrs].
  unfold calculate_portfolio_metrics.
  rewrite Hrrs, Hcurve. cbn [bind].
  eexists. split; [reflexivity|].
  cbn [max_drawdown win_rate total_trades length filter].
  rewrite Hr.
  repeat split; vm_compute; reflexivity.
Qed.

Lemma portfolio_metrics_single_win_witness :
  equity_curve default_balance [winning_signal] = [Fin 10200] /\
  exists m,
    calculate_portfolio_metrics [winning_signal] = Ok m /\
    feq (max_drawdown m) (Fin 0) /\
    feq (win_rate m) (Fin 1) /\
    total_trades m = 1%nat.
Proof.
  apply (proj2 portfolio_metrics_empty_and_single_win winning_signal);
    try reflexivity.
  left. reflexivity.
Defined.

(** A loss after the win shows the replay order and a real drawdown:
    10000 -> 10200 -> 10100, drawdown 100 / 10200. *)
Example portfolio_metrics_win_then_loss :
  let loss := mkSignal (Some "loss"%string) (Some (Fin 100)) None
                       None None None in
  equity_curve default_balance [winning_signal; loss]
  = [Fin 10200; Fin 10100] /\
  exists m,
    calculate_portfolio_metrics [winning_signal; loss] = Ok m /\
    feq (max_drawdown m) (Fin (100 / 10200)).
Proof.
  split; [reflexivity|]. eexists. split; [reflexivity|].
  vm_compute. reflexivity.
Qed.

(* ================================================================== *)
(** ** Series of finite values *)

Lemma all_fin_map_Fin (l : list Q) : all_fin (map Fin l).
Proof. induction l; constructor; auto. Qed.

Lemma all_fin_inv (s : list float) :
  all_fin s -> exists l, s = map Fin l.
Proof.
  induction 1 as [| x s Hx _ IH].
  - exists []. reflexivity.
  - destruct IH as [l ->]. destruct x as [q | | |]; try discriminate.
    exists (q :: l). reflexivity.
Qed.

Lemma all_fin_col (f : Bar -> Q) (d : MarketSeries) : all_fin (col f d).
Proof. unfold col. induction d; constructor; auto. Qed.

Lemma col_map (f : Bar -> Q) (d : MarketSeries) :
  col f d = map Fin (map f d).
Proof. unfold col. rewrite map_map. reflexivity. Qed.

Lemma col_volume_map (d : MarketSeries) :
  col_volume d = map Fin (map (fun b => inject_Z (volume b)) d).
Proof. unfold col_volume, of_Z. rewrite map_map. reflexivity. Qed.

Lemma dropna_Fin (l : list Q) : Series.dropna (map Fin l) = map Fin l.
Proof.
  unfold Series.dropna. induction l; simpl; [reflexivity|]. now rewrite IHl.
Qed.

Lemma existsb_is_nan_Fin (l : list Q) : existsb is_nan (map Fin l) = false.
Proof. induction l; simpl; auto. Qed.

Lemma fold_fadd_Fin (l : list Q) (acc : Q) :
  fold_left fadd (map Fin l) (Fin acc) = Fin (fold_left Qplus l acc).
Proof.
  revert acc. induction l as [| x l IH]; intros acc; simpl; [reflexivity|].
  apply IH.
Qed.

Lemma fsum_Fin (l : list Q) : Series.fsum (map Fin l) = Fin (Qsum l).
Proof. apply fold_fadd_Fin. Qed.

Lemma is_zero_of_pos (n : nat) :
  (0 < n)%nat -> is_zero (inject_Z (Z.of_nat n)) = false.
Proof.
  intros H. unfold is_zero.
  destruct (Qeq_bool (inject_Z (Z.of_nat n)) 0) eqn:E; [|reflexivity].
  apply Qeq_bool_iff in E. unfold Qeq, inject_Z in E. simpl in E. lia.
Qed.

Lemma mean_Fin (l : list Q) :
  l <> [] -> Series.mean (map Fin l) = Fin (Qmean l).
Proof.
  intros Hne. unfold Series.mean. rewrite dropna_Fin.
  destruct l as [| x l]; [congruence|].
  change (map Fin (x :: l)) with (Fin x :: map Fin l) at 1.
  cbv iota beta.
  change (Fin x :: map Fin l) with (map Fin (x :: l)).
  rewrite fsum_Fin, length_map. unfold of_nat, fdiv.
  rewrite is_zero_of_pos by (simpl; lia). reflexivity.
Qed.

(** Maximum and minimum of a non-empty series of finite values. *)
Lemma fold_max_Fin (l : list Q) (x : Q) :
  exists m,
    fold_left (fun m y => if flt m y then y else m) (map Fin l) (Fin x)
    = Fin m /\
    In m (x :: l) /\ forall y, In y (x :: l) -> y <= m.
Proof.
  revert x. induction l as [| z l IH]; intros x; simpl.
  - exists x. split; [reflexivity|]. split; [auto|].
    intros y [<- | []]. apply Qle_refl.
  - destruct (Qlt_bool x z) eqn:E; qprop.
    + destruct (IH z) as (m & Hm & Hin & Hle). exists m.
      split; [exact Hm|]. split; [simpl in *; tauto|].
      intros y [<- | Hy].
      * apply Qle_trans with z; [lra | apply Hle; left; reflexivity].
      * apply Hle. exact Hy.
    + destruct (IH x) as (m & Hm & Hin & Hle). exists m.
      split; [exact Hm|]. split; [simpl in *; tauto|].
      intros y [<- | [<- | Hy]].
      * apply Hle. left. reflexivity.
      * apply Qle_trans with x; [lra | apply Hle; left; reflexivity].
      * apply Hle. right. exact Hy.
Qed.

Lemma fold_min_Fin (l : list Q) (x : Q) :
  exists m,
    fold_left (fun m y => if flt y m then y else m) (map Fin l) (Fin x)
    = Fin m /\
    In m (x :: l) /\ forall y, In y (x :: l) -> m <= y.
Proof.
  revert x. induction l as [| z l IH]; intros x; simpl.
  - exists x. split; [reflexivity|]. split; [auto|].
    intros y [<- | []]. apply Qle_refl.
  - destruct (Qlt_bool z x) eqn:E; qprop.
    + destruct (IH z) as (m & Hm & Hin & Hle). exists m.
      split; [exact Hm|]. split; [simpl in *; tauto|].
      intros y [<- | Hy].
      * apply Qle_trans with z; [apply Hle; left; reflexivity | lra].
      * apply Hle. exact Hy.
    + destruct (IH x) as (m & Hm & Hin & Hle). exists m.
      split; [exact Hm|]. split; [simpl in *; tauto|].
      intros y [<- | [<- | Hy]].
      * apply Hle. left. reflexivity.
      * apply Qle_trans with x; [apply Hle; left; reflexivity | lra].
      * apply Hle. right. exact Hy.
Qed.

Lemma max_Fin (l : list Q) :
  l <> [] ->
  exists m, Series.max (map Fin l) = Fin m /\
            In m l /\ forall y, In y l -> y <= m.
Proof.
  intros Hne. unfold Series.max. rewrite dropna_Fin.
  destruct l as [| x l]; [congruence|]. apply fold_max_Fin.
Qed.

Lemma min_Fin (l : list Q) :
  l <> [] ->
  exists m, Series.min (map Fin l) = Fin m /\
            In m l /\ forall y, In y l -> m <= y.
Proof.
  intros Hne. unfold Series.min. rewrite dropna_Fin.
  destruct l as [| x l]; [congruence|]. apply fold_min_Fin.
Qed.

Lemma max_nil : Series.max [] = NaN.
Proof. reflexivity. Qed.

Lemma min_nil : Series.min [] = NaN.
Proof. reflexivity. Qed.

(* ================================================================== *)
(** ** Positions and windows *)

Lemma iloc_neg_nil (A : Type) (k : nat) :
  (1 <= k)%nat -> Series.iloc_neg k (@nil A) = Raise IndexError.
Proof.
  intros H. unfold Series.iloc_neg. simpl.
  destruct k; [lia | reflexivity].
Qed.

Lemma iloc_neg_short (A : Type) (k : nat) (s : list A) :
  (length s < k)%nat -> Series.iloc_neg k s = Raise IndexError.
Proof.
  intros H. unfold Series.iloc_neg.
  destruct (k <=? length s)%nat eqn:E; [|reflexivity].
  apply Nat.leb_le in E. lia.
Qed.

Lemma iloc_neg_nth (A : Type) (k : nat) (s : list A) (d : A) :
  (1 <= k <= length s)%nat ->
  Series.iloc_neg k s = Ok (nth (length s - k) s d).
Proof.
  intros H. unfold Series.iloc_neg.
  destruct (k <=? length s)%nat eqn:E;
    [|apply Nat.leb_gt in E; lia].
  rewrite (nth_error_nth' s d) by lia. reflexivity.
Qed.

Lemma iloc_neg_map (A B : Type) (f : A -> B) (k : nat) (s : list A) :
  Series.iloc_neg k (map f s) = (x <- Series.iloc_neg k s ;; Ok (f x)).
Proof.
  unfold Series.iloc_neg. rewrite length_map.
  destruct (k <=? length s)%nat; [|reflexivity].
  rewrite nth_error_map.
  destruct (nth_error s (length s - k)); reflexivity.
Qed.

Lemma length_tail (A : Type) (n : nat) (s : list A) :
  length (Series.tail n s) = Nat.min n (length s).
Proof. unfold Series.tail. rewrite length_skipn. lia. Qed.

Lemma tail_nonempty (A : Type) (n : nat) (s : list A) :
  (1 <= n)%nat -> s <> [] -> Series.tail n s <> [].
Proof.
  intros Hn Hs Ht. apply (f_equal (@length A)) in Ht.
  rewrite length_tail in Ht. simpl in Ht.
  destruct s; [congruence | simpl in Ht; lia].
Qed.

Lemma tail_incl (A : Type) (n : nat) (s : list A) (x : A) :
  In x (Series.tail n s) -> In x s.
Proof.
  unfold Series.tail. intros H.
  rewrite <- (firstn_skipn (length s - n) s). apply in_or_app. now right.
Qed.

(** The last row of a tail window is the last row of the frame. *)
Lemma iloc_neg_tail (A : Type) (k n : nat) (s : list A) :
  (1 <= k <= n)%nat -> (k <= length s)%nat ->
  Series.iloc_neg k (Series.tail n s) = Series.iloc_neg k s.
Proof.
  intros Hk Hs. unfold Series.iloc_neg. rewrite length_tail.
  destruct (k <=? Nat.min n (length s))%nat eqn:E1;
    [|apply Nat.leb_gt in E1; lia].
  destruct (k <=? length s)%nat eqn:E2;
    [|apply Nat.leb_gt in E2; lia].
  unfold Series.tail. rewrite nth_error_skipn.
  replace (length s - n + (Nat.min n (length s) - k))%nat
    with (length s - k)%nat by lia.
  reflexivity.
Qed.

Lemma iloc_neg_In (A : Type) (k : nat) (s : list A) (x : A) :
  Series.iloc_neg k s = Ok x -> In x s.
Proof.
  unfold Series.iloc_neg. destruct (k <=? length s)%nat; [|discriminate].
  destruct (nth_error s (length s - k)) eqn:E; [|discriminate].
  intros H. inversion H; subst. eapply nth_error_In; eauto.
Qed.

Lemma length_zip_with (f : float -> float -> float) (a b : list float) :
  length (Series.zip_with f a b) = Nat.min (length a) (length b).
Proof.
  revert b. induction a as [| x a IH]; intros [| y b]; simpl; auto.
Qed.

Lemma length_row_max3 (a b c : list float) :
  length (row_max3 a b c)
  = Nat.min (length a) (Nat.min (length b) (length c)).
Proof.
  revert b c. induction a as [| x a IH]; intros [| y b] [| z c]; simpl; auto.
Qed.

Lemma length_removelast (A : Type) (s : list A) :
  length (removelast s) = (length s - 1)%nat.
Proof.
  induction s as [| x s IH]; [reflexivity|].
  destruct s as [| y s]; [reflexivity|].
  change (S (length (removelast (y :: s))) = (length (x :: y :: s) - 1)%nat).
  rewrite IH. simpl. lia.
Qed.

Lemma length_shift1 (s : list float) :
  length (Series.shift1 s) = length s.
Proof.
  destruct s as [| x s]; [reflexivity|].
  change (S (length (removelast (x :: s))) = length (x :: s)).
  rewrite length_removelast. simpl. lia.
Qed.

Lemma length_col (f : Bar -> Q) (d : MarketSeries) :
  length (col f d) = length d.
Proof. apply length_map. Qed.

Lemma length_true_range (d : MarketSeries) :
  length (true_range d) = length d.
Proof.
  unfold true_range.
  rewrite length_row_max3, !length_map, !length_zip_with, !length_shift1,
    !length_col.
  lia.
Qed.

Lemma length_rolling (w : nat) (agg : list float -> float) (s : list float) :
  length (Series.rolling w agg s) = length s.
Proof. unfold Series.rolling. now rewrite length_map, length_seq. Qed.

Lemma iloc_neg_rolling (w k : nat) (agg : list float -> float)
    (s : list float) :
  (1 <= k <= length s)%nat ->
  Series.iloc_neg k (Series.rolling w agg s)
  = Ok (Series.rolling_at w agg s (length s - k)).
Proof.
  intros H. unfold Series.rolling. rewrite iloc_neg_map.
  rewrite (iloc_neg_nth _ _ _ 0%nat) by (rewrite length_seq; lia).
  rewrite length_seq, seq_nth by lia. reflexivity.
Qed.

(** Too few rows before row [i]: the rolling value is NaN. *)
Lemma rolling_at_short (w i : nat) (agg : list float -> float)
    (s : list float) :
  (i + 1 < w)%nat -> Series.rolling_at w agg s i = NaN.
Proof.
  intros H. unfold Series.rolling_at.
  destruct (i + 1 <? w)%nat eqn:E; [reflexivity|].
  apply Nat.ltb_ge in E. lia.
Qed.

(** A full window of finite rows: the rolling mean is their mean. *)
Lemma rolling_mean_at_Fin (w i : nat) (l : list Q) :
  (1 <= w <= i + 1)%nat -> (i < length l)%nat ->
  Series.rolling_at w Series.mean (map Fin l) i
  = Fin (Qmean (firstn w (skipn (i + 1 - w) l))).
Proof.
  intros Hw Hi. unfold Series.rolling_at.
  destruct (i + 1 <? w)%nat eqn:E; [apply Nat.ltb_lt in E; lia|].
  rewrite skipn_map, firstn_map, existsb_is_nan_Fin.
  apply mean_Fin. intros Hnil.
  apply (f_equal (@length Q)) in Hnil.
  rewrite length_firstn, length_skipn in Hnil. simpl in Hnil. lia.
Qed.

(* ================================================================== *)
(** ** Indicators *)

Lemma max3_fin (x y z : float) :
  is_fin x = true -> fin_or_nan y -> fin_or_nan z ->
  is_fin (Series.max [x; y; z]) = true.
Proof.
  intros Hx [Hy | ->] [Hz | ->];
    destruct x as [x | | |]; try discriminate;
    try (destruct y as [y | | |]; try discriminate);
    try (destruct z as [z | | |]; try discriminate);
    unfold Series.max; simpl;
    repeat match goal with
           | |- context [Qlt_bool ?a ?b] => destruct (Qlt_bool a b); simpl
           end; reflexivity.
Qed.

Lemma row_max3_fin (a b c : list float) :
  all_fin a -> Forall fin_or_nan b -> Forall fin_or_nan c ->
  all_fin (row_max3 a b c).
Proof.
  intros Ha. revert b c.
  induction Ha as [| x a Hx Ha IH]; intros b c Hb Hc; [constructor|].
  destruct Hb as [| y b Hy Hb]; [constructor|].
  destruct Hc as [| z c Hz Hc]; [constructor|].
  cbn [row_max3]. constructor; [apply max3_fin; auto | apply IH; auto].
Qed.

Lemma zip_sub_fin (a b : list float) :
  all_fin a -> all_fin b -> all_fin (Series.zip_with fsub a b).
Proof.
  intros Ha. revert b.
  induction Ha as [| x a Hx Ha IH]; intros b Hb; [constructor|].
  destruct Hb as [| y b Hy Hb]; [constructor|].
  cbn [Series.zip_with]. constructor; [|apply IH; auto].
  destruct x, y; try discriminate. reflexivity.
Qed.

Lemma zip_sub_fin_or_nan (a b : list float) :
  all_fin a -> Forall fin_or_nan b ->
  Forall fin_or_nan (Series.zip_with fsub a b).
Proof.
  intros Ha. revert b.
  induction Ha as [| x a Hx Ha IH]; intros b Hb; [constructor|].
  destruct Hb as [| y b Hy Hb]; [constructor|].
  cbn [Series.zip_with]. constructor; [|apply IH; auto].
  destruct x as [x | | |]; try discriminate.
  destruct Hy as [Hy | ->]; [|right; reflexivity].
  destruct y; try discriminate. left. reflexivity.
Qed.

Lemma map_fabs_fin_or_nan (s : list float) :
  Forall fin_or_nan s -> Forall fin_or_nan (map fabs s).
Proof.
  induction 1 as [| x s Hx _ IH]; simpl; constructor; auto.
  destruct Hx as [Hx | ->]; [|right; reflexivity].
  destruct x; try discriminate. left. reflexivity.
Qed.

Lemma Forall_removelast (A : Type) (P : A -> Prop) (s : list A) :
  Forall P s -> Forall P (removelast s).
Proof.
  induction 1 as [| x s Hx Hs IH]; [constructor|].
  destruct s as [| y s]; [constructor|].
  change (Forall P (x :: removelast (y :: s))). constructor; auto.
Qed.

Lemma shift1_fin_or_nan (s : list float) :
  all_fin s -> Forall fin_or_nan (Series.shift1 s).
Proof.
  intros H. destruct s as [| x s]; [constructor|].
  unfold Series.shift1. constructor; [right; reflexivity|].
  apply Forall_removelast.
  eapply Forall_impl; [|exact H]. intros a Ha. left. exact Ha.
Qed.

(** Every row of the true range is an ordinary number: the first row is
    [high - low] (the two NaN cells are skipped). *)
Lemma true_range_fin (d : MarketSeries) : all_fin (true_range d).
Proof.
  unfold true_range. apply row_max3_fin.
  - apply zip_sub_fin; apply all_fin_col.
  - apply map_fabs_fin_or_nan, zip_sub_fin_or_nan;
      [apply all_fin_col | apply shift1_fin_or_nan, all_fin_col].
  - apply map_fabs_fin_or_nan, zip_sub_fin_or_nan;
      [apply all_fin_col | apply shift1_fin_or_nan, all_fin_col].
Qed.

Lemma calculate_atr_empty : calculate_atr [] = Raise IndexError.
Proof. reflexivity. Qed.

Lemma calculate_atr_short (d : MarketSeries) :
  (1 <= length d < 20)%nat -> calculate_atr d = Ok NaN.
Proof.
  intros H. unfold calculate_atr.
  rewrite iloc_neg_rolling by (rewrite length_true_range; lia).
  rewrite rolling_at_short; [reflexivity|].
  rewrite length_true_range. unfold atr_period. lia.
Qed.

Lemma calculate_atr_enough (d : MarketSeries) :
  (20 <= length d)%nat -> exists q, calculate_atr d = Ok (Fin q).
Proof.
  intros H. unfold calculate_atr.
  rewrite iloc_neg_rolling by (rewrite length_true_range; lia).
  destruct (all_fin_inv _ (true_range_fin d)) as [l Hl].
  assert (Hlen : length l = length d).
  { rewrite <- (length_true_range d), Hl, length_map. reflexivity. }
  rewrite Hl, length_map.
  rewrite rolling_mean_at_Fin by (unfold atr_period; lia).
  eauto.
Qed.

Lemma calculate_atr_nonempty (d : MarketSeries) :
  d <> [] -> exists a, calculate_atr d = Ok a.
Proof.
  intros H. unfold calculate_atr.
  rewrite iloc_neg_rolling; [eauto|].
  rewrite length_true_range. destruct d; [congruence | simpl; lia].
Qed.

Lemma sma_slope_tiny (d : MarketSeries) :
  (length d < 2)%nat -> calculate_sma_slope d = Ok (Fin 0).
Proof.
  intros H. unfold calculate_sma_slope, calculate_sma_slope_with.
  rewrite length_rolling, length_col.
  destruct (length d <? 2)%nat eqn:E; [reflexivity|].
  apply Nat.ltb_ge in E. lia.
Qed.

Lemma sma_slope_quotient (d : MarketSeries) :
  (2 <= length d)%nat ->
  exists last prev,
    Series.iloc_neg 1 (sma d) = Ok last /\
    Series.iloc_neg 2 (sma d) = Ok prev /\
    calculate_sma_slope d = Ok ((last - prev) / prev)%fl.
Proof.
  intros H. unfold calculate_sma_slope, calculate_sma_slope_with, sma.
  rewrite length_rolling, length_col.
  destruct (length d <? 2)%nat eqn:E; [apply Nat.ltb_lt in E; lia|].
  rewrite !iloc_neg_rolling by (rewrite length_col; lia).
  cbn [bind]. eauto.
Qed.

Lemma sma_slope_short (d : MarketSeries) :
  (2 <= length d <= 20)%nat -> calculate_sma_slope d = Ok NaN.
Proof.
  intros H. destruct (sma_slope_quotient d) as (last & prev & _ & Hp & Hs);
    [lia|].
  unfold sma in Hp.
  rewrite iloc_neg_rolling in Hp by (rewrite length_col; lia).
  rewrite rolling_at_short in Hp by (rewrite length_col; lia).
  inversion Hp; subst prev. rewrite Hs.
  destruct last; reflexivity.
Qed.

(** C3, as the code has it.  ATR(20) needs 20 bars, not 21: on a non-empty
    series of fewer than 20 bars [calculate_atr] returns NaN (on the empty
    series it raises [IndexError]) and from 20 bars on it returns an
    ordinary number.  [calculate_sma_slope] returns NaN on 2 to 20 bars and
    the number 0 on fewer than 2 bars. *)
Theorem indicators_on_short_series (d : MarketSeries) :
  (d = [] -> calculate_atr d = Raise IndexError) /\
  ((1 <= length d < 20)%nat -> calculate_atr d = Ok NaN) /\
  ((20 <= length d)%nat -> exists q, calculate_atr d = Ok (Fin q)) /\
  ((length d < 2)%nat -> calculate_sma_slope d = Ok (Fin 0)) /\
  ((2 <= length d <= 20)%nat -> calculate_sma_slope d = Ok NaN).
Proof.
  split; [intros ->; apply calculate_atr_empty|].
  split; [apply calculate_atr_short|].
  split; [apply calculate_atr_enough|].
  split; [apply sma_slope_tiny | apply sma_slope_short].
Qed.

Lemma indicators_on_short_series_witness :
  calculate_atr (steady 19) = Ok NaN /\
  calculate_sma_slope (steady 19) = Ok NaN.
Proof.
  split.
  - apply (proj1 (proj2 (indicators_on_short_series (steady 19)))).
    simpl. lia.
  - apply (proj2 (proj2 (proj2 (proj2
             (indicators_on_short_series (steady 19)))))).
    simpl. lia.
Defined.

(** C3, as stated, fails on two series of fewer than 21 bars: with 20 bars
    ATR(20) is the ordinary number 3, and with one bar the SMA slope is the
    ordinary number 0. *)
Lemma short_series_numeric_indicators :
  (length (steady 20) < 21)%nat /\
  series_ok (steady 20) /\
  (exists q, calculate_atr (steady 20) = Ok (Fin q) /\ q == 3) /\
  (length (steady 1) < 21)%nat /\
  calculate_sma_slope (steady 1) = Ok (Fin 0).
Proof.
  split; [simpl; lia|].
  split.
  { unfold steady. apply Forall_forall. intros b Hb.
    apply in_map_iff in Hb. destruct Hb as (i & <- & _).
    unfold bar_ok, steady_bar. simpl.
    repeat split; try lia; unfold Qlt, Qle; simpl; lia. }
  split; [eexists; split; [vm_compute; reflexivity | reflexivity]|].
  split; [simpl; lia | reflexivity].
Qed.

Lemma fdiv_zero_divisor (x y : Q) :
  y == 0 -> is_fin (Fin x / Fin y)%fl = false.
Proof.
  intros Hy. unfold fdiv, is_zero.
  assert (E : Qeq_bool y 0 = true) by (apply Qeq_bool_iff; exact Hy).
  rewrite E. destruct (x ?= 0); reflexivity.
Qed.

(** C5, as the code has it.  With fewer than 2 rows the slope is 0; with
    at least 2 rows it is (last - previous) / previous on the last two
    entries of the rolling mean, whatever they are.  A zero previous entry
    is not special-cased: the quotient is then NaN or an infinity. *)
Theorem sma_slope_formula (d : MarketSeries) :
  ((length d < 2)%nat -> calculate_sma_slope d = Ok (Fin 0)) /\
  ((2 <= length d)%nat ->
     exists last prev,
       Series.iloc_neg 1 (sma d) = Ok last /\
       Series.iloc_neg 2 (sma d) = Ok prev /\
       calculate_sma_slope d = Ok ((last - prev) / prev)%fl) /\
  (forall last prev : Q,
     Series.iloc_neg 1 (sma d) = Ok (Fin last) ->
     Series.iloc_neg 2 (sma d) = Ok (Fin prev) ->
     prev == 0 ->
     exists v, calculate_sma_slope d = Ok v /\ is_fin v = false).
Proof.
  split; [apply sma_slope_tiny|].
  split; [apply sma_slope_quotient|].
  intros last prev Hl Hp Hz.
  assert (Hlen : (2 <= length d)%nat).
  { destruct (le_lt_dec 2 (length d)) as [|Hlt]; [assumption|].
    rewrite iloc_neg_short in Hp; [discriminate|].
    unfold sma. rewrite length_rolling, length_col. exact Hlt. }
  destruct (sma_slope_quotient d Hlen) as (l' & p' & Hl' & Hp' & Hs).
  rewrite Hl in Hl'. rewrite Hp in Hp'.
  inversion Hl'; inversion Hp'; subst l' p'.
  eexists. split; [exact Hs|].
  apply (fdiv_zero_divisor (last + - prev) prev Hz).
Qed.

Lemma sma_slope_formula_witness :
  exists v, calculate_sma_slope (flat_zero 21) = Ok v /\ is_fin v = false.
Proof.
  apply (proj2 (proj2 (sma_slope_formula (flat_zero 21))) (0 # 20) (0 # 20));
    vm_compute; reflexivity.
Defined.

(** C5, as stated, fails: the previous SMA entry is zero and the result is
    NaN (0/0) or +infinity, not a neutral zero. *)
Lemma sma_slope_zero_denominator :
  (exists p, Series.iloc_neg 2 (sma (flat_zero 21)) = Ok (Fin p) /\ p == 0) /\
  calculate_sma_slope (flat_zero 21) = Ok NaN /\
  (exists p, Series.iloc_neg 2 (sma zero_then_jump) = Ok (Fin p) /\ p == 0) /\
  calculate_sma_slope zero_then_jump = Ok PInf.
Proof.
  split; [eexists; split; [vm_compute; reflexivity | reflexivity]|].
  split; [vm_compute; reflexivity|].
  split; [eexists; split; [vm_compute; reflexivity | reflexivity]|].
  vm_compute; reflexivity.
Qed.

(** On well-formed data with at least 21 bars the slope is an ordinary
    number. *)
Example sma_slope_steady :
  exists q, calculate_sma_slope (steady 21) = Ok (Fin q) /\ q == 0.
Proof. eexists. split; [vm_compute; reflexivity | reflexivity]. Qed.

(* ================================================================== *)
(** ** CRT *)

Lemma series_ok_tail (n : nat) (d : MarketSeries) :
  series_ok d -> series_ok (Series.tail n d).
Proof.
  unfold series_ok. rewrite !Forall_forall. intros H b Hb.
  apply H. eapply tail_incl; eauto.
Qed.

Lemma iloc_neg_last_bar (d : MarketSeries) :
  d <> [] -> exists b, Series.iloc_neg 1 d = Ok b /\ In b d.
Proof.
  intros H. destruct d as [| b0 d']; [congruence|].
  rewrite (iloc_neg_nth _ _ _ b0) by (simpl; lia).
  eexists. split; [reflexivity|].
  apply nth_In. simpl. lia.
Qed.

Lemma iloc_neg_col (f : Bar -> Q) (k : nat) (d : MarketSeries) (b : Bar) :
  Series.iloc_neg k d = Ok b ->
  Series.iloc_neg k (col f d) = Ok (Fin (f b)).
Proof. intros H. unfold col. rewrite iloc_neg_map, H. reflexivity. Qed.

(** On well-formed bars the last close is inside the range of its own
    window: neither breakout test of [crt] can pass. *)
Lemma close_inside_window (w : MarketSeries) (b : Bar) :
  series_ok w -> In b w ->
  (Fin (close b) >? Series.max (col high w))%fl = false /\
  (Fin (close b) <? Series.min (col low w))%fl = false.
Proof.
  intros Hok Hin.
  assert (Hne : w <> []) by (intros ->; inversion Hin).
  assert (Hb : bar_ok b) by (eapply Forall_forall in Hok; eauto).
  destruct Hb as (_ & _ & _ & _ & _ & _ & Hch & _ & Hlc).
  rewrite !col_map.
  destruct (max_Fin (map high w)) as (m & -> & _ & Hm).
  { intros E. apply map_eq_nil in E. congruence. }
  destruct (min_Fin (map low w)) as (n & -> & _ & Hn).
  { intros E. apply map_eq_nil in E. congruence. }
  specialize (Hm (high b) (in_map high w b Hin)).
  specialize (Hn (low b) (in_map low w b Hin)).
  unfold fgt, flt. split; qprop; lra.
Qed.

Lemma crt_volume_ratio_nonempty (self : EntrySystems) :
  data self <> [] -> exists vr, crt_volume_ratio self = Ok vr.
Proof.
  intros H. unfold crt_volume_ratio.
  rewrite iloc_neg_rolling; [cbn [bind]; eauto|].
  unfold col_volume. rewrite length_map.
  destruct (data self); [congruence | simpl; lia].
Qed.

Lemma crt_volume_ratio_ok (self : EntrySystems) (vr : float) :
  crt_volume_ratio self = Ok vr -> data self <> [].
Proof.
  unfold crt_volume_ratio. intros H E. rewrite E in H. discriminate H.
Qed.

Lemma crt_empty (self : EntrySystems) :
  data self = [] -> crt self = Raise IndexError.
Proof. intros E. unfold crt. rewrite E. reflexivity. Qed.

(** [crt] returns a candidate only through its consolidation test. *)
Lemma crt_fires_only_if (self : EntrySystems) (c : EntryCandidate) :
  crt self = Ok (Some c) ->
  exists vr,
    crt_volume_ratio self = Ok vr /\
    (crt_price_range self <=? Fin 0.005)%fl = true /\
    (vr <? Fin 0.5)%fl = true.
Proof.
  unfold crt.
  destruct (calculate_atr (data self)) as [a | e]; [|discriminate].
  cbn [bind].
  destruct (crt_volume_ratio self) as [vr | e]; [|discriminate].
  cbn [bind].
  destruct (crt_price_range self <=? Fin 0.005)%fl; [|discriminate].
  destruct (vr <? Fin 0.5)%fl eqn:E; [|discriminate].
  intros _. exists vr. repeat split; auto.
Qed.

Lemma crt_guard_false (self : EntrySystems) (vr : float) :
  crt_volume_ratio self = Ok vr ->
  (crt_price_range self <=? Fin 0.005)%fl && (vr <? Fin 0.5)%fl = false ->
  crt self = Ok None.
Proof.
  intros Hvr Hg. unfold crt.
  destruct (calculate_atr_nonempty (data self)) as [a ->];
    [eapply crt_volume_ratio_ok; eauto|].
  cbn [bind]. rewrite Hvr. cbn [bind]. rewrite Hg. reflexivity.
Qed.

Lemma crt_valid_bars (self : EntrySystems) :
  series_ok (data self) -> data self <> [] -> crt self = Ok None.
Proof.
  intros Hok Hne. unfold crt.
  destruct (calculate_atr_nonempty (data self) Hne) as [a ->].
  destruct (crt_volume_ratio_nonempty self Hne) as [vr ->].
  cbn [bind].
  destruct ((crt_price_range self <=? Fin 0.005)%fl && (vr <? Fin 0.5)%fl);
    [|reflexivity].
  set (w := Series.tail 6 (data self)).
  assert (Hw : w <> []) by (apply tail_nonempty; [lia | exact Hne]).
  destruct (iloc_neg_last_bar w Hw) as (b & Hb & Hin).
  rewrite (iloc_neg_col close 1 w b Hb). cbn [bind].
  destruct (close_inside_window w b (series_ok_tail 6 _ Hok) Hin)
    as [-> ->].
  reflexivity.
Qed.

(** The key ["crt"] is in the result of [generate_entries] exactly when
    [crt] returned a candidate. *)
Lemma generate_entries_crt_key (now : Clock) (self : EntrySystems)
    (entries : Entries) :
  generate_entries now self = Ok entries ->
  has_key "crt" entries = true ->
  exists c, crt self = Ok (Some c).
Proof.
  unfold generate_entries.
  destruct (is_volatile self) as [v | e]; [|discriminate]. cbn [bind].
  destruct (crt self) as [[c |] | e]; [eauto | |].
  - destruct v.
    + destruct (turtle_soup self) as [[t |] | e]; [| |discriminate];
        cbn [bind set_if app];
        (destruct (market_maker_model now self) as [[m |] | e];
           [| |discriminate]);
        cbn [bind set_if app]; intros H; inversion H; subst;
        intros K; vm_compute in K; discriminate K.
    + cbn [bind set_if app].
      destruct (market_maker_model now self) as [[m |] | e];
        [| |discriminate];
        cbn [bind set_if app]; intros H; inversion H; subst;
        intros K; vm_compute in K; discriminate K.
  - destruct v.
    + destruct (turtle_soup self) as [[t |] | e']; discriminate.
    + discriminate.
Qed.

Lemma steady_ok (n : nat) : series_ok (steady n).
Proof.
  unfold steady. apply Forall_forall. intros b Hb.
  apply in_map_iff in Hb. destruct Hb as (i & <- & _).
  unfold bar_ok, steady_bar. simpl.
  repeat split; try lia; unfold Qlt, Qle; simpl; lia.
Qed.

(** C2.  On bars that satisfy the data model's invariant [crt] never
    returns a candidate: it returns [None] (on the empty series it raises),
    because the last close can neither exceed the window's highest high nor
    undercut its lowest low.  So no result of [generate_entries] has a
    ["crt"] key. *)
Theorem crt_never_fires_on_valid_bars (now : Clock) (self : EntrySystems) :
  series_ok (data self) ->
  (data self <> [] -> crt self = Ok None) /\
  (data self = [] -> crt self = Raise IndexError) /\
  (forall c, crt self <> Ok (Some c)) /\
  (forall entries,
     generate_entries now self = Ok entries ->
     has_key "crt" entries = false).
Proof.
  intros Hok.
  assert (Hno : forall c, crt self <> Ok (Some c)).
  { intros c Hc. destruct (data self) as [| b d] eqn:E.
    - rewrite (crt_empty self E) in Hc. discriminate Hc.
    - rewrite crt_valid_bars in Hc;
        [discriminate Hc | rewrite E; exact Hok | rewrite E; discriminate]. }
  split; [apply crt_valid_bars; exact Hok|].
  split; [apply crt_empty|].
  split; [exact Hno|].
  intros entries Hg.
  destruct (has_key "crt" entries) eqn:K; [|reflexivity].
  destruct (generate_entries_crt_key now self entries Hg K) as [c Hc].
  exfalso. exact (Hno c Hc).
Qed.

Lemma crt_never_fires_on_valid_bars_witness :
  crt steady_system = Ok None /\
  generate_entries sample_clock steady_system = Ok [] /\
  has_key "crt" [] = false.
Proof.
  pose proof (crt_never_fires_on_valid_bars sample_clock steady_system
                (steady_ok 25)) as (H1 & _ & _ & H4).
  split; [apply H1; discriminate|].
  assert (G : generate_entries sample_clock steady_system = Ok [])
    by (vm_compute; reflexivity).
  split; [exact G | exact (H4 [] G)].
Defined.

(** C6.  [crt] returns a candidate only when the 6-bar relative range is
    at most 0.005 and the volume ratio is below 0.5: a frame whose range
    equals 0.0051, or whose range test or volume-ratio test fails, yields
    no candidate ([None] as soon as the frame is not empty). *)
Theorem crt_threshold_guard (self : EntrySystems) :
  (exists r, crt_price_range self = Fin r /\ r == 0.0051) \/
  (crt_price_range self <=? Fin 0.005)%fl = false \/
  (exists vr, crt_volume_ratio self = Ok vr /\ (vr <? Fin 0.5)%fl = false) ->
  (forall c, crt self <> Ok (Some c)) /\
  (data self <> [] -> crt self = Ok None).
Proof.
  intros H.
  assert (Hg : forall vr, crt_volume_ratio self = Ok vr ->
             (crt_price_range self <=? Fin 0.005)%fl && (vr <? Fin 0.5)%fl
             = false).
  { intros vr Hvr. destruct H as [(r & Hr & Hq) | [Hr | (vr' & Hvr' & Hv)]].
    - rewrite Hr. unfold fle.
      assert (E : Qle_bool r 0.005 = false) by (qprop; lra).
      rewrite E. reflexivity.
    - rewrite Hr. reflexivity.
    - rewrite Hvr in Hvr'. inversion Hvr'; subst vr'.
      rewrite Hv. apply andb_false_r. }
  split.
  - intros c Hc.
    destruct (crt_fires_only_if self c Hc) as (vr & Hvr & Hr & Hv).
    specialize (Hg vr Hvr). rewrite Hr, Hv in Hg. discriminate Hg.
  - intros Hne.
    destruct (crt_volume_ratio_nonempty self Hne) as [vr Hvr].
    apply (crt_guard_false self vr Hvr (Hg vr Hvr)).
Qed.

(** The boundary test: with a last close at 10060, above the highs, the
    frame with range 0.005 gives a long candidate; the same frame with the
    range moved to 0.0051 gives none. *)
Example crt_fires_at_range_0_005 :
  feq (crt_price_range (compressed_system 10050 10060)) (Fin 0.005) /\
  exists c,
    crt (compressed_system 10050 10060) = Ok (Some c) /\
    direction c = "long"%string /\ entry_price c = Fin 10060.
Proof.
  split; [vm_compute; reflexivity|].
  eexists. split; [vm_compute; reflexivity|]. split; reflexivity.
Qed.

Lemma crt_threshold_guard_witness :
  feq (crt_price_range (compressed_system 10051 10060)) (Fin 0.0051) /\
  crt (compressed_system 10051 10060) = Ok None.
Proof.
  split; [vm_compute; reflexivity|].
  apply (crt_threshold_guard (compressed_system 10051 10060)).
  - left. eexists. split; [vm_compute; reflexivity|]. reflexivity.
  - discriminate.
Defined.

(** The volume side of the guard: the same firing frame with the last six
    volumes as large as the others gives no candidate. *)
Example crt_quiet_volume_needed :
  let loud :=
    map (fun b => mkBar (timestamp b) (open b) (high b) (low b) (close b)
                        10000)
        (compressed 10050 10060) in
  (exists vr, crt_volume_ratio (mkEntrySystems loud loud) = Ok (Fin vr) /\
              vr == 1) /\
  crt (mkEntrySystems loud loud) = Ok None.
Proof.
  split; [eexists; split; [vm_compute; reflexivity | reflexivity]|].
  vm_compute; reflexivity.
Qed.

(* ================================================================== *)
(** ** Liquidity clusters *)

Lemma cluster_count_bound (th : float) (values : list float) (i : nat) :
  (cluster_count th values i <= length values - i)%nat \/
  (length values <= i)%nat.
Proof.
  destruct (le_lt_dec (length values) i) as [H | H]; [right; exact H|].
  left. unfold cluster_count.
  pose proof (filter_length_le (within th (nth i values NaN))
                               (skipn (i + 1) values)) as Hf.
  rewrite length_skipn in Hf. lia.
Qed.

(** Row [i] is recorded exactly when its count, itself and the later rows
    within tolerance of it, reaches 3. *)
Lemma cluster_scan_spec (th : float) (values : list float) (idx : list Z)
    (c : LiquidityCluster) :
  In c (cluster_scan th values idx) <->
  exists i,
    (i < length values)%nat /\
    (3 <= cluster_count th values i)%nat /\
    c = mkCluster (nth i values NaN) (cluster_count th values i)
                  (nth i idx 0%Z).
Proof.
  unfold cluster_scan. rewrite in_flat_map. split.
  - intros (i & Hi & Hc). apply in_seq in Hi.
    destruct (3 <=? cluster_count th values i)%nat eqn:E; [|destruct Hc].
    apply Nat.leb_le in E. destruct Hc as [<- | []].
    exists i. repeat split; [lia | exact E].
  - intros (i & Hi & H3 & ->). exists i. split.
    + apply in_seq. destruct (cluster_count_bound th values i); lia.
    + apply Nat.leb_le in H3. rewrite H3. left. reflexivity.
Qed.

Lemma skipn_cons_nth (A : Type) (d : A) (l : list A) (i : nat) :
  (i < length l)%nat -> skipn i l = nth i l d :: skipn (S i) l.
Proof.
  revert i. induction l as [| x l IH]; intros i Hi; [simpl in Hi; lia|].
  destruct i as [| i]; [reflexivity|].
  simpl in Hi. rewrite !skipn_cons. cbn [nth]. apply IH. lia.
Qed.

Lemma within_self (h : Q) :
  0 < h -> within default_threshold (Fin h) (Fin h) = true.
Proof.
  intros Hh. unfold within, default_threshold, fsub, fneg, fadd, fabs, fdiv.
  assert (Z : is_zero h = false).
  { unfold is_zero. destruct (Qeq_bool h 0) eqn:E; [|reflexivity].
    apply Qeq_bool_iff in E. lra. }
  rewrite Z. apply fle_Fin.
  assert (E : Qabs (h + - h) == 0).
  { assert (E0 : h + - h == 0) by ring. rewrite E0. reflexivity. }
  rewrite E. unfold Qdiv. rewrite Qmult_0_l. lra.
Qed.

(** On positive prices a recorded row is touched at least as often as its
    count says. *)
Lemma cluster_count_le_touches (values : list float) (i : nat) (h : Q) :
  (i < length values)%nat ->
  nth i values NaN = Fin h -> 0 < h ->
  (cluster_count default_threshold values i
   <= touches default_threshold values (Fin h))%nat.
Proof.
  intros Hi Hn Hh. unfold cluster_count, touches. rewrite Hn.
  rewrite <- (firstn_skipn i values) at 2.
  rewrite (skipn_cons_nth _ NaN values i Hi), Hn.
  rewrite filter_app, length_app. cbn [filter].
  rewrite (within_self h Hh). cbn [length].
  replace (i + 1)%nat with (S i) by lia. lia.
Qed.

Lemma nth_col (f : Bar -> Q) (d : MarketSeries) (i : nat) (b0 : Bar) :
  (i < length d)%nat -> nth i (col f d) NaN = Fin (f (nth i d b0)).
Proof.
  intros Hi. unfold col.
  rewrite (nth_indep _ NaN (Fin (f b0))) by (rewrite length_map; exact Hi).
  apply (map_nth (fun b => Fin (f b))).
Qed.

(** C7, as the code has it.  Within the window of the last 20 bars, row
    [i] is recorded in [clusters['highs']] exactly when 1 plus the number
    of later rows whose high is within 0.5% of row [i]'s high (relative to
    row [i]'s high) is at least 3; the recorded cluster carries that price,
    that count and that row's timestamp.  The same holds for lows.  Rows
    before [i] are not counted.  On well-formed bars a recorded level is
    touched by at least 3 highs of the window: one touched by only 2 is
    never recorded. *)
Theorem liquidity_cluster_boundary (d : MarketSeries) (c : LiquidityCluster) :
  let recent := Series.tail 20 d in
  let recorded values :=
    exists i,
      (i < length recent)%nat /\
      (3 <= cluster_count default_threshold values i)%nat /\
      c = mkCluster (nth i values NaN)
                    (cluster_count default_threshold values i)
                    (nth i (index recent) 0%Z) in
  (In c (cluster_highs (find_liquidity_pools d))
   <-> recorded (col high recent)) /\
  (In c (cluster_lows (find_liquidity_pools d))
   <-> recorded (col low recent)) /\
  (series_ok d ->
   In c (cluster_highs (find_liquidity_pools d)) ->
   (3 <= count c)%nat /\
   (3 <= touches default_threshold (col high recent) (price c))%nat) /\
  (series_ok d ->
   In c (cluster_lows (find_liquidity_pools d)) ->
   (3 <= count c)%nat /\
   (3 <= touches default_threshold (col low recent) (price c))%nat).
Proof.
  intros recent recorded. subst recorded.
  assert (Hh : In c (cluster_highs (find_liquidity_pools d)) <->
    exists i, (i < length recent)%nat /\
      (3 <= cluster_count default_threshold (col high recent) i)%nat /\
      c = mkCluster (nth i (col high recent) NaN)
                    (cluster_count default_threshold (col high recent) i)
                    (nth i (index recent) 0%Z)).
  { unfold find_liquidity_pools, find_liquidity_pools_with. fold recent.
    cbn [cluster_highs]. rewrite cluster_scan_spec, length_col.
    reflexivity. }
  assert (Hl : In c (cluster_lows (find_liquidity_pools d)) <->
    exists i, (i < length recent)%nat /\
      (3 <= cluster_count default_threshold (col low recent) i)%nat /\
      c = mkCluster (nth i (col low recent) NaN)
                    (cluster_count default_threshold (col low recent) i)
                    (nth i (index recent) 0%Z)).
  { unfold find_liquidity_pools, find_liquidity_pools_with. fold recent.
    cbn [cluster_lows]. rewrite cluster_scan_spec, length_col.
    reflexivity. }
  split; [exact Hh|]. split; [exact Hl|].
  split; intros Hok Hin.
  - apply Hh in Hin. destruct Hin as (i & Hi & H3 & ->). cbn [count price].
    split; [exact H3|].
    destruct recent as [| b0 r] eqn:E; [simpl in Hi; lia|].
    rewrite <- E in *.
    assert (Hb : bar_ok (nth i recent b0)).
    { pose proof (series_ok_tail 20 d Hok) as Hr. fold recent in Hr.
      eapply Forall_forall in Hr; [exact Hr|]. apply nth_In. exact Hi. }
    rewrite (nth_col high recent i b0 Hi).
    eapply Nat.le_trans; [exact H3|].
    apply cluster_count_le_touches;
      [rewrite length_col; exact Hi | apply nth_col; exact Hi |].
    destruct Hb as (_ & Hpos & _). exact Hpos.
  - apply Hl in Hin. destruct Hin as (i & Hi & H3 & ->). cbn [count price].
    split; [exact H3|].
    destruct recent as [| b0 r] eqn:E; [simpl in Hi; lia|].
    rewrite <- E in *.
    assert (Hb : bar_ok (nth i recent b0)).
    { pose proof (series_ok_tail 20 d Hok) as Hr. fold recent in Hr.
      eapply Forall_forall in Hr; [exact Hr|]. apply nth_In. exact Hi. }
    rewrite (nth_col low recent i b0 Hi).
    eapply Nat.le_trans; [exact H3|].
    apply cluster_count_le_touches;
      [rewrite length_col; exact Hi | apply nth_col; exact Hi |].
    destruct Hb as (_ & _ & Hpos & _). exact Hpos.
Qed.

Lemma bars_from_ok (highs : list Q) (t : Z) :
  Forall (fun h => 1 < h) highs -> series_ok (bars_from t highs).
Proof.
  intros H. revert t.
  induction H as [| h highs Hh _ IH]; intros t; [constructor|].
  cbn [bars_from]. constructor; [|apply IH].
  unfold bar_ok, level_bar. simpl. repeat split; try lia; lra.
Qed.

Lemma far_highs_ok : Forall (fun h => 1 < h) far_highs.
Proof. repeat constructor. Qed.

(** C7, as stated, fails.  In both windows the level 100.5 is touched by
    exactly 3 highs within 0.5%.  Scanned with 100.5 first it is recorded
    with count 3; scanned in the reverse order nothing is recorded. *)
Lemma liquidity_cluster_scan_order :
  length late_level = 20%nat /\
  series_ok late_level /\ series_ok early_level /\
  map high early_level = rev (map high late_level) /\
  touches default_threshold (col high late_level) (Fin 100.5) = 3%nat /\
  touches default_threshold (col high early_level) (Fin 100.5) = 3%nat /\
  cluster_highs (find_liquidity_pools late_level) = [] /\
  cluster_highs (find_liquidity_pools early_level)
  = [mkCluster (Fin 100.5) 3 17].
Proof.
  split; [reflexivity|].
  split.
  { apply bars_from_ok, Forall_app. split;
      [repeat constructor | exact far_highs_ok]. }
  split.
  { apply bars_from_ok, Forall_rev, Forall_app. split;
      [repeat constructor | exact far_highs_ok]. }
  split; [reflexivity|].
  repeat split; vm_compute; reflexivity.
Qed.

(** A level whose first touch is followed by exactly two more is recorded;
    with only one more it is not. *)
Example three_equal_highs :
  cluster_highs (find_liquidity_pools
                   (bars_from 0 ([100; 100; 100] ++ far_highs)))
  = [mkCluster (Fin 100) 3 0].
Proof. vm_compute. reflexivity. Qed.

Example two_equal_highs :
  cluster_highs (find_liquidity_pools
                   (bars_from 0 ([100; 100; 150] ++ far_highs)))
  = [].
Proof. vm_compute. reflexivity. Qed.

Lemma triple_top_ok : series_ok triple_top.
Proof.
  apply bars_from_ok, Forall_app. split;
    [repeat constructor | exact far_highs_ok].
Qed.

Lemma liquidity_cluster_boundary_witness :
  In (mkCluster (Fin 100) 3 0) (cluster_highs (find_liquidity_pools triple_top))
  /\
  (3 <= touches default_threshold
          (col high (Series.tail 20 triple_top)) (Fin 100))%nat.
Proof.
  assert (Hin : In (mkCluster (Fin 100) 3 0)
                   (cluster_highs (find_liquidity_pools triple_top)))
    by (left; reflexivity).
  split; [exact Hin|].
  exact (proj2 (proj1 (proj2 (proj2
           (liquidity_cluster_boundary triple_top (mkCluster (Fin 100) 3 0))))
           triple_top_ok Hin)).
Defined.

(* ================================================================== *)
(** ** Turtle Soup *)

Lemma iloc_neg_col_volume (k : nat) (d : MarketSeries) (b : Bar) :
  Series.iloc_neg k d = Ok b ->
  Series.iloc_neg k (col_volume d) = Ok (of_Z (volume b)).
Proof. intros H. unfold col_volume. rewrite iloc_neg_map, H. reflexivity. Qed.

Lemma iloc_neg_index (k : nat) (d : MarketSeries) (b : Bar) :
  Series.iloc_neg k d = Ok b ->
  Series.iloc_neg k (index d) = Ok (timestamp b).
Proof. intros H. unfold index. rewrite iloc_neg_map, H. reflexivity. Qed.

Lemma iloc_slice_neg_map (A B : Type) (f : A -> B) (a b : nat) (s : list A) :
  Series.iloc_slice_neg a b (map f s) = map f (Series.iloc_slice_neg a b s).
Proof.
  unfold Series.iloc_slice_neg.
  now rewrite length_map, skipn_map, firstn_map.
Qed.

Lemma length_iloc_slice_neg (A : Type) (a b : nat) (s : list A) :
  (b <= a)%nat ->
  length (Series.iloc_slice_neg a b s)
  = (Nat.min a (length s) - b)%nat.
Proof.
  intros H. unfold Series.iloc_slice_neg.
  rewrite length_firstn, length_skipn. lia.
Qed.

(** [x < s.min()] on finite rows: [x] is below every row, and there is a
    row. *)
Lemma flt_min_iff (x : Q) (l : list Q) :
  l <> [] ->
  (Fin x <? Series.min (map Fin l))%fl = true
  <-> Forall (fun y => x < y) l.
Proof.
  intros Hne. destruct (min_Fin l Hne) as (m & -> & Hin & Hle).
  rewrite flt_Fin, Forall_forall. split.
  - intros H y Hy. specialize (Hle y Hy). lra.
  - intros H. apply H. exact Hin.
Qed.

Lemma fgt_max_iff (x : Q) (l : list Q) :
  l <> [] ->
  (Fin x >? Series.max (map Fin l))%fl = true
  <-> Forall (fun y => y < x) l.
Proof.
  intros Hne. destruct (max_Fin l Hne) as (m & -> & Hin & Hle).
  unfold fgt. rewrite flt_Fin, Forall_forall. split.
  - intros H y Hy. specialize (Hle y Hy). lra.
  - intros H. apply H. exact Hin.
Qed.

Section TurtleSoup.

Variable self : EntrySystems.
Variables b3 bl : Bar.

Let recent := Series.tail 22 (data self).

Hypothesis Hlen : (25 <= length (data self))%nat.
Hypothesis H3 : Series.iloc_neg 3 (data self) = Ok b3.
Hypothesis H1 : Series.iloc_neg 1 (data self) = Ok bl.

Lemma recent_length : length recent = 22%nat.
Proof. subst recent. rewrite length_tail. lia. Qed.

Lemma recent_3 : Series.iloc_neg 3 recent = Ok b3.
Proof. subst recent. rewrite iloc_neg_tail by lia. exact H3. Qed.

Lemma recent_1 : Series.iloc_neg 1 recent = Ok bl.
Proof. subst recent. rewrite iloc_neg_tail by lia. exact H1. Qed.

Lemma prior_nonempty (f : Bar -> Q) :
  map f (Series.iloc_slice_neg 23 3 recent) <> [].
Proof.
  intros E. apply (f_equal (@length Q)) in E.
  rewrite length_map, length_iloc_slice_neg, recent_length in E by lia.
  simpl in E. lia.
Qed.

Lemma undercut_test :
  (Fin (low b3) <? Series.min (Series.iloc_slice_neg 23 3 (col low recent)))%fl
  = true
  <-> Forall (fun b => low b3 < low b) (Series.iloc_slice_neg 23 3 recent).
Proof.
  unfold col. rewrite iloc_slice_neg_map.
  rewrite <- (map_map low Fin).
  rewrite flt_min_iff by apply prior_nonempty.
  rewrite Forall_map. reflexivity.
Qed.

Lemma volume_test :
  (of_Z (volume bl) >? Fin 2 * Series.mean (col_volume recent))%fl = true
  <-> 2 * Qmean (volumes recent) < inject_Z (volume bl).
Proof.
  rewrite col_volume_map. fold (volumes recent).
  rewrite mean_Fin.
  - unfold fgt, of_Z, fmul. apply flt_Fin.
  - intros E. apply (f_equal (@length Q)) in E.
    unfold volumes in E. rewrite length_map, recent_length in E.
    discriminate E.
Qed.

End TurtleSoup.

(** *** The take-profit level *)

Lemma filter_map_Fin (f : float -> bool) (l : list Q) :
  filter f (map Fin l) = map Fin (filter (fun q => f (Fin q)) l).
Proof.
  induction l as [| x l IH]; [reflexivity|].
  simpl. destruct (f (Fin x)); simpl; now rewrite IH.
Qed.

Lemma pymin_list_Fin (l : list Q) (d : float) :
  l <> [] ->
  exists m, pymin_list (map Fin l) d = Fin m /\
            In m l /\ forall y, In y l -> m <= y.
Proof.
  intros Hne. destruct l as [| x l]; [congruence|].
  apply (fold_min_Fin l x).
Qed.

Lemma In_map_Fin (x : Q) (l : list Q) : In (Fin x) (map Fin l) -> In x l.
Proof.
  intros H. apply in_map_iff in H. destruct H as (y & E & Hy).
  inversion E; subst. exact Hy.
Qed.

Lemma cluster_prices_fin (th : float) (f : Bar -> Q) (w : MarketSeries)
    (idx : list Z) :
  all_fin (map price (cluster_scan th (col f w) idx)).
Proof.
  apply Forall_forall. intros x Hx.
  apply in_map_iff in Hx. destruct Hx as (c & <- & Hc).
  apply cluster_scan_spec in Hc. destruct Hc as (i & Hi & _ & ->).
  cbn [price]. rewrite length_col in Hi.
  destruct w as [| b0 w']; [simpl in Hi; lia|].
  rewrite (nth_col f (b0 :: w') i b0 Hi). reflexivity.
Qed.

Lemma pd_levels_fin (d : MarketSeries) :
  d <> [] ->
  exists hi lo,
    Series.max (col high (Series.tail 20 d)) = Fin hi /\
    Series.min (col low (Series.tail 20 d)) = Fin lo /\
    premium (pd_arrays (find_liquidity_pools d))
    = Fin (hi + - ((hi + - lo) * 0.25)) /\
    discount (pd_arrays (find_liquidity_pools d))
    = Fin (lo + (hi + - lo) * 0.25).
Proof.
  intros Hne.
  assert (Hw : Series.tail 20 d <> []) by (apply tail_nonempty; [lia|auto]).
  destruct (max_Fin (map high (Series.tail 20 d))) as (hi & Hhi & _).
  { intros E. apply map_eq_nil in E. auto. }
  destruct (min_Fin (map low (Series.tail 20 d))) as (lo & Hlo & _).
  { intros E. apply map_eq_nil in E. auto. }
  rewrite <- col_map in Hhi, Hlo.
  exists hi, lo. split; [exact Hhi|]. split; [exact Hlo|].
  unfold find_liquidity_pools, find_liquidity_pools_with.
  cbn [pd_arrays premium discount]. rewrite Hhi, Hlo. split; reflexivity.
Qed.

(** Upwards, [find_nearest_liquidity_pool] returns the lowest level
    strictly above the price, among the prices of the high clusters and the
    premium level; when no level is above the price it returns 1.02 times
    the price. *)
Lemma nearest_pool_above (self : EntrySystems) (p : Q) :
  ict_analysis self <> [] ->
  let target := find_nearest_liquidity_pool self (Fin p) "up" in
  (exists q,
     target = Fin q /\ In (Fin q) (levels_above self) /\ p < q /\
     forall x, In (Fin x) (levels_above self) -> p < x -> q <= x)
  \/
  (target = (Fin p * Fin 1.02)%fl /\
   forall x, In (Fin x) (levels_above self) -> x <= p).
Proof.
  intros Hne target.
  assert (Hfin : all_fin (levels_above self)).
  { unfold levels_above. apply Forall_app. split.
    - unfold find_liquidity_pools, find_liquidity_pools_with.
      cbn [cluster_highs]. apply cluster_prices_fin.
    - destruct (pd_levels_fin (ict_analysis self) Hne)
        as (hi & lo & _ & _ & -> & _).
      repeat constructor. }
  destruct (all_fin_inv _ Hfin) as [qs Hqs].
  assert (Ht : target
               = pymin_list
                   (filter (fun level => (level >? Fin p)%fl)
                           (levels_above self))
                   (Fin p * Fin 1.02)%fl) by reflexivity.
  rewrite Hqs in *. rewrite filter_map_Fin in Ht.
  destruct (filter (fun q => (Fin q >? Fin p)%fl) qs) as [| x r] eqn:F.
  - right. split; [exact Ht|].
    intros x Hx. apply In_map_Fin in Hx.
    destruct (Qlt_le_dec p x) as [Hlt | Hle]; [|exact Hle].
    exfalso.
    assert (Hin : In x (filter (fun q => (Fin q >? Fin p)%fl) qs)).
    { apply filter_In. split; [exact Hx|]. apply flt_Fin. exact Hlt. }
    rewrite F in Hin. destruct Hin.
  - left.
    destruct (pymin_list_Fin (x :: r) (Fin p * Fin 1.02)%fl)
      as (m & Hm & Hin & Hle); [discriminate|].
    rewrite <- F in Hin, Hle.
    apply filter_In in Hin. destruct Hin as [Hin Hgt].
    apply flt_Fin in Hgt.
    exists m. split; [rewrite Ht; exact Hm|].
    split; [apply in_map; exact Hin|]. split; [exact Hgt|].
    intros y Hy Hpy. apply Hle. apply filter_In.
    split; [apply In_map_Fin; exact Hy | apply flt_Fin; exact Hpy].
Qed.

(** The bullish branch of [turtle_soup] on a series of at least 25 bars,
    with [b3] its third bar from the end and [bl] its last bar. *)
Lemma turtle_soup_long_branch (self : EntrySystems) (b3 bl : Bar) :
  (25 <= length (data self))%nat ->
  Series.iloc_neg 3 (data self) = Ok b3 ->
  Series.iloc_neg 1 (data self) = Ok bl ->
  let recent := Series.tail 22 (data self) in
  (bullish_turtle_soup recent b3 bl ->
     exists atr,
       calculate_atr (data self) = Ok (Fin atr) /\
       turtle_soup self = Ok (Some (turtle_soup_long self b3 bl (Fin atr))))
  /\
  (forall c,
     turtle_soup self = Ok (Some c) ->
     direction c = "long"%string ->
     bullish_turtle_soup recent b3 bl).
Proof.
  intros Hlen H3 H1 recent.
  destruct (calculate_atr_enough (data self)) as [atr Hatr]; [lia|].
  pose proof (recent_3 self b3 Hlen H3) as R3.
  pose proof (recent_1 self bl Hlen H1) as R1.
  pose proof (undercut_test self b3 Hlen) as T1.
  pose proof (volume_test self bl Hlen) as T3.
  fold recent in R3, R1, T1, T3.
  assert (T2 : (Fin (close bl) >? Fin (open bl))%fl = true
               <-> open bl < close bl) by apply flt_Fin.
  unfold turtle_soup. fold recent. rewrite Hatr. cbn [bind].
  rewrite (iloc_neg_col low 3 recent b3 R3),
          (iloc_neg_col high 3 recent b3 R3),
          (iloc_neg_col close 1 recent bl R1),
          (iloc_neg_col open 1 recent bl R1),
          (iloc_neg_col_volume 1 recent bl R1),
          (iloc_neg_index 1 recent bl R1).
  cbn [lift2 bind and_then].
  destruct (Fin (low b3) <?
            Series.min (Series.iloc_slice_neg 23 3 (col low recent)))%fl
    eqn:C1;
    [destruct (Fin (close bl) >? Fin (open bl))%fl eqn:C2;
     [destruct (of_Z (volume bl) >?
                Fin 2 * Series.mean (col_volume recent))%fl eqn:C3|]|];
    cbn [bind].
  - (* all three tests pass *)
    split.
    + intros _. exists atr. split; reflexivity.
    + intros c _ _. constructor; [apply T1 | apply T2 | apply T3]; reflexivity.
  - split.
    + intros [_ _ Hv]. apply T3 in Hv. discriminate Hv.
    + intros c Hc Hd. exfalso. revert Hc.
      destruct (Fin (high b3) >?
                Series.max (Series.iloc_slice_neg 23 3 (col high recent)))%fl;
        cbn [bind and_then];
        [destruct (Fin (close bl) <? Fin (open bl))%fl; cbn [bind]|];
        intros Hc; inversion Hc; subst c; discriminate Hd.
  - split.
    + intros [_ Hb _]. apply T2 in Hb. discriminate Hb.
    + intros c Hc Hd. exfalso. revert Hc.
      destruct (Fin (high b3) >?
                Series.max (Series.iloc_slice_neg 23 3 (col high recent)))%fl;
        cbn [bind and_then];
        [destruct (Fin (close bl) <? Fin (open bl))%fl; cbn [bind];
         [destruct (of_Z (volume bl) >?
                    Fin 2 * Series.mean (col_volume recent))%fl;
          cbn [bind]|]|];
        intros Hc; inversion Hc; subst c; discriminate Hd.
  - split.
    + intros [Hu _ _]. apply T1 in Hu. discriminate Hu.
    + intros c Hc Hd. exfalso. revert Hc.
      destruct (Fin (high b3) >?
                Series.max (Series.iloc_slice_neg 23 3 (col high recent)))%fl;
        cbn [bind and_then];
        [destruct (Fin (close bl) <? Fin (open bl))%fl; cbn [bind];
         [destruct (of_Z (volume bl) >?
                    Fin 2 * Series.mean (col_volume recent))%fl;
          cbn [bind]|]|];
        intros Hc; inversion Hc; subst c; discriminate Hd.
Qed.

(** C4.  On a series of at least 25 bars, with [b3] its third bar from the
    end and [bl] its last bar: when the low of [b3] is strictly below every
    low of the rows [-23:-3] of the 22-bar tail window, [bl] closes above
    its open and its volume exceeds twice the window's mean volume,
    [turtle_soup] returns the long candidate with entry at the last close,
    stop at the low of [b3] minus 1.5 ATR (an ordinary number), target at
    the nearest liquidity pool above the entry and invalidation at the low
    of [b3]; a long candidate is returned only under those three
    conditions.  The target is the lowest level strictly above the entry
    among the high-cluster prices and the premium level, or 1.02 times the
    entry when there is none. *)
Theorem turtle_soup_long_candidate (self : EntrySystems) (b3 bl : Bar) :
  (25 <= length (data self))%nat ->
  Series.iloc_neg 3 (data self) = Ok b3 ->
  Series.iloc_neg 1 (data self) = Ok bl ->
  let recent := Series.tail 22 (data self) in
  (bullish_turtle_soup recent b3 bl ->
     exists atr,
       calculate_atr (data self) = Ok (Fin atr) /\
       turtle_soup self = Ok (Some (turtle_soup_long self b3 bl (Fin atr))))
  /\
  (forall c,
     turtle_soup self = Ok (Some c) ->
     direction c = "long"%string ->
     bullish_turtle_soup recent b3 bl)
  /\
  (ict_analysis self <> [] ->
   forall atr,
     let target := take_profit (turtle_soup_long self b3 bl atr) in
     (exists q,
        target = Fin q /\ In (Fin q) (levels_above self) /\ close bl < q /\
        forall x, In (Fin x) (levels_above self) -> close bl < x -> q <= x)
     \/
     (target = (Fin (close bl) * Fin 1.02)%fl /\
      forall x, In (Fin x) (levels_above self) -> x <= close bl)).
Proof.
  intros Hlen H3 H1 recent.
  destruct (turtle_soup_long_branch self b3 bl Hlen H3 H1) as [Hfire Honly].
  split; [exact Hfire|]. split; [exact Honly|].
  intros Hne atr. exact (nearest_pool_above self (close bl) Hne).
Qed.

Lemma sweep_series_ok : series_ok sweep_series.
Proof.
  unfold sweep_series. apply Forall_app. split.
  - apply Forall_forall. intros b Hb.
    apply in_map_iff in Hb. destruct Hb as (i & <- & _).
    unfold bar_ok. simpl.
    repeat split; try lia; unfold Qlt, Qle; simpl; lia.
  - repeat constructor; simpl; try lia; unfold Qlt, Qle; simpl; lia.
Qed.

Lemma sweep_is_bullish_turtle_soup :
  bullish_turtle_soup (Series.tail 22 sweep_series) sweep_bar reversal_bar.
Proof.
  constructor.
  - vm_compute. repeat constructor.
  - vm_compute. reflexivity.
  - vm_compute. reflexivity.
Qed.

Lemma turtle_soup_long_candidate_witness :
  exists atr,
    calculate_atr sweep_series = Ok (Fin atr) /\
    turtle_soup sweep_system
    = Ok (Some (turtle_soup_long sweep_system sweep_bar reversal_bar
                                 (Fin atr))).
Proof.
  apply (proj1 (turtle_soup_long_candidate sweep_system
                  sweep_bar reversal_bar
                  ltac:(simpl; lia) eq_refl eq_refl)).
  exact sweep_is_bullish_turtle_soup.
Defined.

(** The numbers of that candidate: ATR 2.7, stop 90 - 1.5 * 2.7. *)
Example turtle_soup_sweep_values :
  (exists atr, calculate_atr sweep_series = Ok (Fin atr) /\ atr == 2.7) /\
  exists c,
    turtle_soup sweep_system = Ok (Some c) /\
    direction c = "long"%string /\
    entry_price c = Fin 100 /\
    feq (stop_loss c) (Fin (90 - 1.5 * 2.7)) /\
    invalidation_point c = Fin 90 /\
    take_profit c = Fin 101.
Proof.
  split; [eexists; split; [vm_compute; reflexivity | reflexivity]|].
  eexists. split; [vm_compute; reflexivity|].
  repeat split; vm_compute; reflexivity.
Qed.

(** Without the volume spike the same frame gives no candidate. *)
Example turtle_soup_needs_volume :
  let calm :=
    map (fun b => mkBar (timestamp b) (open b) (high b) (low b) (close b)
                        100)
        sweep_series in
  turtle_soup (mkEntrySystems calm calm) = Ok None.
Proof. vm_compute. reflexivity. Qed.

(* ================================================================== *)
(** * Further properties *)

(** ** Liquidity events *)

Lemma iloc_ok (A : Type) (i : nat) (s : list A) :
  (i < length s)%nat -> exists x, Series.iloc i s = Ok x.
Proof.
  intros H. unfold Series.iloc.
  destruct (nth_error s i) eqn:E; [eauto|].
  apply nth_error_None in E. lia.
Qed.

Lemma iloc_map (A B : Type) (f : A -> B) (i : nat) (s : list A) (x : A) :
  Series.iloc i s = Ok x -> Series.iloc i (map f s) = Ok (f x).
Proof.
  unfold Series.iloc. rewrite nth_error_map.
  destruct (nth_error s i); [|discriminate].
  intros H. inversion H. reflexivity.
Qed.

Lemma sweeps_at_ok (recent : MarketSeries) (avg : float) (i : nat) :
  (i + 1 < length recent)%nat ->
  exists l, sweeps_at recent avg i = Ok l /\ (length l <= 1)%nat.
Proof.
  intros Hi.
  destruct (iloc_ok _ i recent) as [b Hb]; [lia|].
  destruct (iloc_ok _ (i + 1) recent) as [b' Hb']; [lia|].
  unfold sweeps_at, col, col_volume, index.
  rewrite !(iloc_map _ _ _ i recent b Hb).
  rewrite !(iloc_map _ _ _ (i + 1) recent b' Hb').
  cbn [lift2 bind and_then].
  destruct (Fin (close b') <? Fin (open b))%fl eqn:Edown;
    destruct (Fin (close b') >? Fin (open b))%fl eqn:Eup;
    try (exfalso; unfold fgt, flt in *; qprop; lra);
    repeat match goal with
           | |- context [if ?c then _ else _] =>
               destruct c; cbn [bind and_then app]
           end;
    eexists; (split; [reflexivity | simpl; lia]).
Qed.

Lemma sweep_loop_ok (recent : MarketSeries) (avg : float) (rows : list nat) :
  Forall (fun i => (i + 1 < length recent)%nat) rows ->
  exists l, sweep_loop recent avg rows = Ok l /\
            (length l <= length rows)%nat.
Proof.
  induction 1 as [| i rows Hi _ IH]; [exists []; split; [reflexivity|simpl; lia]|].
  destruct (sweeps_at_ok recent avg i Hi) as (l1 & E1 & H1).
  destruct IH as (l2 & E2 & H2).
  cbn [sweep_loop]. rewrite E1, E2. cbn [bind].
  eexists. split; [reflexivity|]. rewrite length_app. simpl. lia.
Qed.

Lemma liquidity_events_outcome (lookback : nat) (data : MarketSeries) :
  exists sw,
    detect_liquidity_events_with lookback data = Return (mkEvents sw []) /\
    (length sw
     <= length (Series.tail (lookback + 3) data) - 1 - lookback)%nat.
Proof.
  unfold detect_liquidity_events_with.
  set (recent := Series.tail (lookback + 3) data).
  assert (Hlen : length recent = Nat.min (lookback + 3) (length data))
    by apply length_tail.
  assert (Hruns : py_range lookback (length recent - 5) = []).
  { unfold py_range. replace (length recent - 5 - lookback)%nat with 0%nat
      by lia. reflexivity. }
  rewrite Hruns. cbn [run_loop bind_outcome].
  destruct (sweep_loop_ok recent (Series.mean (col_volume recent))
              (py_range lookback (length recent - 1))) as (sw & E & Hsw).
  { unfold py_range. apply Forall_forall. intros i Hi.
    apply in_seq in Hi. lia. }
  rewrite E. cbn [lift_result bind_outcome].
  exists sw. split; [reflexivity|].
  unfold py_range in Hsw. rewrite length_seq in Hsw. exact Hsw.
Qed.

(** X1.  [detect_liquidity_events] never raises and never reports a run:
    the window has at most [lookback + 3] rows, so the run loop
    [range(lookback, len - 5)] is empty.  It reports at most 2 sweeps (a
    row cannot be both a bullish and a bearish sweep, and only two rows
    are scanned), and none on a frame of fewer than [lookback + 2] bars. *)
Theorem liquidity_events_never_report_runs (lookback : nat)
    (data : MarketSeries) :
  exists sw,
    detect_liquidity_events_with lookback data = Return (mkEvents sw []) /\
    (length sw <= 2)%nat /\
    ((length data < lookback + 2)%nat -> sw = []).
Proof.
  destruct (liquidity_events_outcome lookback data) as (sw & E & Hsw).
  rewrite length_tail in Hsw.
  exists sw. split; [exact E|]. split; [lia|].
  intros Hshort.
  assert (Hz : (length sw <= 0)%nat) by lia.
  destruct sw; [reflexivity | simpl in Hz; lia].
Qed.


Example liquidity_events_sweeps :
  detect_liquidity_events spike_series
  = Return (mkEvents [mkSweep "bullish" (Fin 105) 20;
                      mkSweep "bullish" (Fin 106) 21] []).
Proof. vm_compute. reflexivity. Qed.

(** ** Bias *)

Lemma calculate_sma_slope_returns (d : MarketSeries) :
  exists v, calculate_sma_slope d = Ok v.
Proof.
  destruct (le_lt_dec 2 (length d)) as [H | H].
  - destruct (sma_slope_quotient d H) as (l & p & _ & _ & E). eauto.
  - rewrite (sma_slope_tiny d H). eauto.
Qed.

Lemma iloc_neg_1_col (f : Bar -> Q) (d : MarketSeries) :
  d <> [] ->
  exists b, Series.iloc_neg 1 d = Ok b /\ In b d /\
            Series.iloc_neg 1 (col f d) = Ok (Fin (f b)).
Proof.
  intros H. destruct (iloc_neg_last_bar d H) as (b & Hb & Hin).
  exists b. split; [exact Hb|]. split; [exact Hin|].
  apply iloc_neg_col. exact Hb.
Qed.

Lemma flt_NaN_r (x : float) : flt x NaN = false.
Proof. destruct x; reflexivity. Qed.

Lemma determine_bias_short (now : Clock) (d : MarketSeries) :
  (1 <= length d <= 20)%nat -> determine_bias now d = Ok "neutral"%string.
Proof.
  intros H. unfold determine_bias.
  destruct (iloc_neg_1_col close d) as (b & _ & _ & ->).
  { intros ->. simpl in H. lia. }
  cbn [bind].
  destruct (le_lt_dec 2 (length d)) as [H2 | H2].
  - rewrite sma_slope_short by lia. cbn [bind].
    unfold fgt. rewrite flt_NaN_r. cbn [flt]. rewrite !andb_false_r.
    reflexivity.
  - rewrite sma_slope_tiny by lia. cbn [bind].
    replace (Fin 0 >? Fin 0)%fl with false by reflexivity.
    replace (Fin 0 <? Fin 0)%fl with false by reflexivity.
    rewrite !andb_false_r. reflexivity.
Qed.

Lemma determine_bias_returns (now : Clock) (d : MarketSeries) :
  d <> [] ->
  exists b, determine_bias now d = Ok b /\
            In b ["bullish"; "bearish"; "neutral"]%string.
Proof.
  intros Hne. unfold determine_bias.
  destruct (iloc_neg_1_col close d Hne) as (b & _ & _ & ->).
  destruct (calculate_sma_slope_returns d) as [v ->].
  cbn [bind].
  destruct ((Fin (close b) >? q2_high (get_quarterly_levels now d))%fl
            && (v >? Fin 0)%fl).
  - eexists. split; [reflexivity|]. simpl. auto.
  - destruct ((Fin (close b) <? q3_low (get_quarterly_levels now d))%fl
              && (v <? Fin 0)%fl);
      eexists; (split; [reflexivity|]); simpl; auto.
Qed.

(** X2.  [determine_bias] raises [IndexError] on the empty frame and
    otherwise returns one of the three bias names; on a frame of at most 20
    bars the SMA slope is NaN or 0, so the bias is always neutral. *)
Theorem bias_of_short_series (now : Clock) (d : MarketSeries) :
  (d = [] -> determine_bias now d = Raise IndexError) /\
  (d <> [] ->
   exists b, determine_bias now d = Ok b /\
             In b ["bullish"; "bearish"; "neutral"]%string) /\
  ((1 <= length d <= 20)%nat -> determine_bias now d = Ok "neutral"%string).
Proof.
  split; [intros ->; reflexivity|].
  split; [apply determine_bias_returns | apply determine_bias_short].
Qed.


Example bias_bullish :
  determine_bias sample_clock rising = Ok "bullish"%string.
Proof. vm_compute. reflexivity. Qed.

Lemma quarterly_levels_outside_year (now : Clock) (d : MarketSeries) :
  loc_slice (year_start now) (year_end now) d = [] ->
  get_quarterly_levels now d
  = mkLevels (Fin 0) (Fin 0) (Fin 0) (Fin 0) (Fin 0) (Fin 0) (Fin 0) (Fin 0).
Proof.
  intros Hyear. unfold get_quarterly_levels. rewrite Hyear. reflexivity.
Qed.

Lemma determine_bias_outside_year (now : Clock) (d : MarketSeries) :
  series_ok d ->
  d <> [] ->
  loc_slice (year_start now) (year_end now) d = [] ->
  exists slope,
    calculate_sma_slope d = Ok slope /\
    determine_bias now d
    = Ok (if (slope >? Fin 0)%fl then "bullish" else "neutral")%string.
Proof.
  intros Hok Hne Hyear.
  pose proof (quarterly_levels_outside_year now d Hyear) as Hl.
  destruct (calculate_sma_slope_returns d) as [v Hv].
  exists v. split; [exact Hv|].
  unfold determine_bias. rewrite Hl, Hv.
  destruct (iloc_neg_1_col close d Hne) as (b & _ & Hin & ->).
  cbn [bind q2_high q3_low].
  assert (Hb : bar_ok b) by (eapply Forall_forall in Hok; eauto).
  destruct Hb as (_ & _ & _ & Hc & _).
  assert (E1 : (Fin (close b) >? Fin 0)%fl = true)
    by (apply flt_Fin; exact Hc).
  assert (E2 : (Fin (close b) <? Fin 0)%fl = false)
    by (unfold flt; qprop; lra).
  rewrite E1, E2. cbn [andb].
  destruct (v >? Fin 0)%fl; reflexivity.
Qed.

(** X3.  When no bar of the frame falls in the clock's current year all
    quarterly levels are 0, so on positive prices the bias is never
    bearish: it is bullish exactly when the SMA slope is positive and
    neutral otherwise, whatever the prices did. *)
Theorem bias_outside_current_year (now : Clock) (d : MarketSeries) :
  series_ok d ->
  d <> [] ->
  loc_slice (year_start now) (year_end now) d = [] ->
  get_quarterly_levels now d
  = mkLevels (Fin 0) (Fin 0) (Fin 0) (Fin 0) (Fin 0) (Fin 0) (Fin 0) (Fin 0)
  /\
  exists slope,
    calculate_sma_slope d = Ok slope /\
    determine_bias now d
    = Ok (if (slope >? Fin 0)%fl then "bullish" else "neutral")%string.
Proof.
  intros Hok Hne Hyear.
  split; [apply quarterly_levels_outside_year; exact Hyear|].
  apply determine_bias_outside_year; assumption.
Qed.


Lemma bias_outside_current_year_witness :
  exists slope,
    calculate_sma_slope (steady 25) = Ok slope /\
    determine_bias next_year_clock (steady 25)
    = Ok (if (slope >? Fin 0)%fl then "bullish" else "neutral")%string.
Proof.
  apply (proj2 (bias_outside_current_year next_year_clock (steady 25)
                  (steady_ok 25) ltac:(discriminate) eq_refl)).
Defined.

Lemma bias_of_short_series_witness :
  determine_bias sample_clock (steady 19) = Ok "neutral"%string.
Proof.
  apply (proj2 (proj2 (bias_of_short_series sample_clock (steady 19)))).
  simpl. lia.
Defined.

(** ** Entry generation *)

Lemma is_volatile_short (self : EntrySystems) :
  (1 <= length (data self) < 20)%nat -> is_volatile self = Ok false.
Proof.
  intros H. unfold is_volatile.
  rewrite calculate_atr_short by exact H. cbn [bind].
  unfold fgt. now rewrite flt_NaN_r.
Qed.

Lemma fdiv_NaN_r (x : float) : (x / NaN)%fl = NaN.
Proof. destruct x; reflexivity. Qed.

Lemma crt_short (self : EntrySystems) :
  (1 <= length (data self) < 20)%nat -> crt self = Ok None.
Proof.
  intros H.
  assert (Hvr : crt_volume_ratio self = Ok NaN).
  { unfold crt_volume_ratio.
    rewrite iloc_neg_rolling
      by (unfold col_volume; rewrite length_map; lia).
    rewrite rolling_at_short
      by (unfold col_volume; rewrite length_map; lia).
    cbn [bind]. now rewrite fdiv_NaN_r. }
  apply (crt_guard_false self NaN Hvr). apply andb_false_r.
Qed.

Lemma market_maker_neutral (now : Clock) (self : EntrySystems) :
  data self <> [] ->
  determine_bias now (ict_analysis self) = Ok "neutral"%string ->
  market_maker_model now self = Ok None.
Proof.
  intros Hne Hb. unfold market_maker_model.
  destruct (calculate_atr_nonempty (data self) Hne) as [a ->].
  rewrite Hb. reflexivity.
Qed.

Lemma market_maker_short (now : Clock) (self : EntrySystems) :
  (1 <= length (data self) < 20)%nat ->
  (1 <= length (ict_analysis self) <= 20)%nat ->
  market_maker_model now self = Ok None.
Proof.
  intros Hd Hi. apply market_maker_neutral.
  - intros E. rewrite E in Hd. simpl in Hd. lia.
  - apply determine_bias_short. exact Hi.
Qed.

Lemma generate_entries_short (now : Clock) (self : EntrySystems) :
  (1 <= length (data self) < 20)%nat ->
  (1 <= length (ict_analysis self) <= 20)%nat ->
  generate_entries now self = Ok [].
Proof.
  intros Hd Hi. unfold generate_entries.
  rewrite (is_volatile_short self Hd), (crt_short self Hd),
          (market_maker_short now self Hd Hi).
  reflexivity.
Qed.

(** X4.  A short series gives no signal: when the frame of the entry
    systems has 1 to 19 bars and the frame of the analysis 1 to 20,
    [generate_entries] returns the empty dictionary (ATR and the volume
    ratio are NaN, the bias is neutral), without raising. *)
Theorem generate_entries_short_series (now : Clock) (self : EntrySystems) :
  (1 <= length (data self) < 20)%nat ->
  (1 <= length (ict_analysis self) <= 20)%nat ->
  is_volatile self = Ok false /\
  crt self = Ok None /\
  market_maker_model now self = Ok None /\
  generate_entries now self = Ok [].
Proof.
  intros Hd Hi.
  repeat split.
  - apply is_volatile_short. exact Hd.
  - apply crt_short. exact Hd.
  - apply market_maker_short; assumption.
  - apply generate_entries_short; assumption.
Qed.

Lemma generate_entries_short_series_witness :
  generate_entries sample_clock (mkEntrySystems (steady 19) (steady 19))
  = Ok [].
Proof.
  apply (generate_entries_short_series sample_clock
           (mkEntrySystems (steady 19) (steady 19)));
    simpl; lia.
Defined.

(** Every candidate carries the name of the system that built it and one
    of the two directions. *)
Ltac run_binds :=
  repeat match goal with
         | |- context [bind ?r _] =>
             let E := fresh "E" in
             destruct r eqn:E; cbn [bind and_then lift2];
             try (intros ?; discriminate)
         | |- context [if ?c then _ else _] =>
             destruct c; cbn [bind and_then lift2];
             try (intros ?; discriminate)
         end.

Lemma turtle_soup_candidate (self : EntrySystems) (c : EntryCandidate) :
  turtle_soup self = Ok (Some c) ->
  system c = "turtle_soup"%string /\
  (direction c = "long" \/ direction c = "short")%string /\
  Series.iloc_neg 1 (col close (data self)) = Ok (entry_price c).
Proof.
  unfold turtle_soup.
  destruct (calculate_atr (data self)) as [a | e]; [|discriminate].
  cbn [bind].
  set (recent := Series.tail 22 (data self)).
  destruct (Series.iloc_neg 1 (col close recent)) as [cl | e] eqn:Ecl.
  2:{ cbn [lift2 bind and_then]. run_binds. }
  assert (Hcl : Series.iloc_neg 1 (col close (data self)) = Ok cl).
  { unfold col in *. rewrite iloc_neg_map in *.
    destruct (Series.iloc_neg 1 recent) as [b | e] eqn:Eb; [|discriminate].
    assert (Hlen : (1 <= length (data self))%nat).
    { destruct (data self); [discriminate Eb | simpl; lia]. }
    subst recent. rewrite iloc_neg_tail in Eb by lia. rewrite Eb.
    exact Ecl. }
  cbn [lift2 bind and_then]. run_binds;
    intros H; inversion H; subst c; cbn [system direction entry_price];
    auto.
Qed.

Lemma last_close_of_tail (n : nat) (d : MarketSeries) (x : float) :
  (1 <= n)%nat ->
  Series.iloc_neg 1 (col close (Series.tail n d)) = Ok x ->
  Series.iloc_neg 1 (col close d) = Ok x.
Proof.
  intros Hn H. unfold col in *. rewrite iloc_neg_map in *.
  destruct (Series.iloc_neg 1 (Series.tail n d)) as [b | e] eqn:Eb;
    [|discriminate].
  assert (Hlen : (1 <= length d)%nat).
  { destruct d; [discriminate Eb | simpl; lia]. }
  rewrite iloc_neg_tail in Eb by lia. rewrite Eb. exact H.
Qed.

Lemma crt_candidate (self : EntrySystems) (c : EntryCandidate) :
  crt self = Ok (Some c) ->
  system c = "crt"%string /\
  (direction c = "long" \/ direction c = "short")%string /\
  Series.iloc_neg 1 (col close (data self)) = Ok (entry_price c).
Proof.
  unfold crt.
  destruct (calculate_atr (data self)) as [a | e]; [|discriminate].
  cbn [bind].
  destruct (crt_volume_ratio self) as [vr | e]; [|discriminate].
  cbn [bind].
  destruct ((crt_price_range self <=? Fin 0.005)%fl && (vr <? Fin 0.5)%fl);
    [|discriminate].
  destruct (Series.iloc_neg 1 (col close (Series.tail 6 (data self))))
    as [cl | e] eqn:Ecl; [|discriminate].
  apply last_close_of_tail in Ecl; [|lia].
  cbn [bind]. run_binds;
    intros H; inversion H; subst c; cbn [system direction entry_price];
    auto.
Qed.

Lemma market_maker_candidate (now : Clock) (self : EntrySystems)
    (c : EntryCandidate) :
  market_maker_model now self = Ok (Some c) ->
  system c = "market_maker"%string /\
  (direction c = "long" \/ direction c = "short")%string /\
  Series.iloc_neg 1 (col close (data self)) = Ok (entry_price c).
Proof.
  unfold market_maker_model.
  destruct (calculate_atr (data self)) as [a | e]; [|discriminate].
  cbn [bind].
  destruct (determine_bias now (ict_analysis self)) as [bias | e];
    [|discriminate].
  cbn [bind].
  destruct (Series.iloc_neg 1 (col close (Series.tail 3 (data self))))
    as [cl | e] eqn:Ecl.
  2:{ cbn [lift2 bind and_then]. run_binds. }
  apply last_close_of_tail in Ecl; [|lia].
  cbn [lift2 bind and_then]. run_binds;
    intros H; inversion H; subst c; cbn [system direction entry_price];
    auto.
Qed.


Lemma entries_of_parts (now : Clock) (self : EntrySystems)
    (t c m : option EntryCandidate) :
  (forall x, t = Some x -> turtle_soup self = Ok (Some x)) ->
  crt self = Ok c ->
  market_maker_model now self = Ok m ->
  let entries :=
    set_if "market_maker" m (set_if "crt" c (set_if "turtle_soup" t [])) in
  (exists t c m : bool,
     map fst entries
     = (if t then ["turtle_soup"%string] else [])
       ++ (if c then ["crt"%string] else [])
       ++ (if m then ["market_maker"%string] else [])) /\
  NoDup (map fst entries) /\
  Forall (entry_ok self) entries.
Proof.
  intros Hts Ec Em entries. subst entries.
  split; [|split].
  - exists (match t with Some _ => true | None => false end),
           (match c with Some _ => true | None => false end),
           (match m with Some _ => true | None => false end).
    destruct t, c, m; reflexivity.
  - destruct t, c, m; cbn [set_if app map fst];
      repeat constructor; simpl; intuition discriminate.
  - apply Forall_forall. intros [k x] Hin. unfold entry_ok. cbn [fst snd].
    destruct t as [t|], c as [c|], m as [m|]; cbn [set_if app] in Hin;
      simpl in Hin;
      repeat match goal with
             | H : _ \/ _ |- _ => destruct H
             | H : False |- _ => destruct H
             | H : (_, _) = (_, _) |- _ => inversion H; subst; clear H
             end;
      first [ apply turtle_soup_candidate; apply Hts; reflexivity
            | apply crt_candidate; exact Ec
            | apply (market_maker_candidate now); exact Em ].
Qed.

(** X5.  Whatever [generate_entries] returns, its keys are distinct and
    come in the order turtle_soup, crt, market_maker (at most one candidate
    per system); every candidate carries its key as system name, is long or
    short, and enters at the last close of the frame. *)
Theorem generate_entries_keys (now : Clock) (self : EntrySystems)
    (entries : Entries) :
  generate_entries now self = Ok entries ->
  (exists t c m : bool,
     map fst entries
     = (if t then ["turtle_soup"%string] else [])
       ++ (if c then ["crt"%string] else [])
       ++ (if m then ["market_maker"%string] else [])) /\
  NoDup (map fst entries) /\
  Forall (entry_ok self) entries.
Proof.
  unfold generate_entries. cbv zeta.
  destruct (is_volatile self) as [v | e]; [|discriminate]. cbn [bind].
  destruct v.
  - destruct (turtle_soup self) as [t | e] eqn:Et; [|discriminate].
    cbn [bind].
    destruct (crt self) as [c | e] eqn:Ec; [|discriminate]. cbn [bind].
    destruct (market_maker_model now self) as [m | e] eqn:Em;
      [|discriminate].
    cbn [bind]. intros H. inversion H; subst entries; clear H.
    apply (entries_of_parts now self t c m); auto.
    intros x ->. exact Et.
  - cbn [bind].
    destruct (crt self) as [c | e] eqn:Ec; [|discriminate]. cbn [bind].
    destruct (market_maker_model now self) as [m | e] eqn:Em;
      [|discriminate].
    cbn [bind]. intros H. inversion H; subst entries; clear H.
    apply (entries_of_parts now self None c m); auto.
    discriminate.
Qed.


Lemma generate_entries_keys_witness :
  exists c,
    generate_entries sample_clock rising_system = Ok [("market_maker"%string, c)]
    /\ Forall (entry_ok rising_system) [("market_maker"%string, c)].
Proof.
  eexists. split; [vm_compute; reflexivity|].
  apply (generate_entries_keys sample_clock rising_system).
  vm_compute. reflexivity.
Defined.

Lemma iloc_neg_ok (A : Type) (k : nat) (s : list A) :
  (1 <= k <= length s)%nat -> exists x, Series.iloc_neg k s = Ok x.
Proof.
  intros H. destruct s as [| x0 s']; [simpl in H; lia|].
  rewrite (iloc_neg_nth _ _ _ x0) by exact H. eauto.
Qed.

Lemma tail_rows (k n : nat) (d : MarketSeries) :
  (1 <= k <= n)%nat -> (k <= length d)%nat ->
  exists b, Series.iloc_neg k (Series.tail n d) = Ok b /\
            Series.iloc_neg k d = Ok b.
Proof.
  intros Hk Hd. destruct (iloc_neg_ok _ k d) as [b Hb]; [lia|].
  exists b. split; [|exact Hb]. rewrite iloc_neg_tail by lia. exact Hb.
Qed.

Lemma turtle_soup_raises (self : EntrySystems) :
  (length (data self) < 3)%nat -> turtle_soup self = Raise IndexError.
Proof.
  intros H. unfold turtle_soup.
  destruct (data self) as [| b0 d0] eqn:E; [reflexivity|].
  rewrite <- E in *.
  destruct (calculate_atr_nonempty (data self)) as [a ->];
    [rewrite E; discriminate|].
  cbn [bind].
  rewrite (iloc_neg_short _ 3 (col low (Series.tail 22 (data self))))
    by (rewrite length_col, length_tail; lia).
  reflexivity.
Qed.

Lemma turtle_soup_returns (self : EntrySystems) :
  (3 <= length (data self))%nat -> exists r, turtle_soup self = Ok r.
Proof.
  intros H. unfold turtle_soup.
  destruct (calculate_atr_nonempty (data self)) as [a ->].
  { intros E. rewrite E in H. simpl in H. lia. }
  destruct (tail_rows 3 22 (data self)) as (b3 & R3 & _); [lia | lia |].
  destruct (tail_rows 1 22 (data self)) as (bl & R1 & _); [lia | lia |].
  cbn [bind].
  rewrite (iloc_neg_col low 3 _ b3 R3), (iloc_neg_col high 3 _ b3 R3),
          (iloc_neg_col close 1 _ bl R1), (iloc_neg_col open 1 _ bl R1),
          (iloc_neg_col_volume 1 _ bl R1), (iloc_neg_index 1 _ bl R1).
  cbn [lift2 bind and_then].
  repeat match goal with
         | |- context [if ?c then _ else _] =>
             destruct c; cbn [bind and_then]
         end; eauto.
Qed.

(** X6.  [turtle_soup] raises [IndexError] exactly on frames of fewer than
    3 bars (it reads row -3); on any longer frame it returns, a candidate
    or [None]. *)
Theorem turtle_soup_needs_three_bars (self : EntrySystems) :
  ((length (data self) < 3)%nat -> turtle_soup self = Raise IndexError) /\
  ((3 <= length (data self))%nat -> exists r, turtle_soup self = Ok r).
Proof.
  split; [apply turtle_soup_raises | apply turtle_soup_returns].
Qed.

Lemma turtle_soup_needs_three_bars_witness :
  turtle_soup (mkEntrySystems (steady 2) (steady 2)) = Raise IndexError.
Proof.
  apply (proj1 (turtle_soup_needs_three_bars
                  (mkEntrySystems (steady 2) (steady 2)))).
  simpl. lia.
Defined.

Lemma is_volatile_true_long (self : EntrySystems) :
  is_volatile self = Ok true -> (20 <= length (data self))%nat.
Proof.
  intros H. destruct (le_lt_dec 20 (length (data self))) as [|Hlt]; [auto|].
  destruct (data self) as [| b0 d0] eqn:E.
  - unfold is_volatile in H. rewrite E in H. discriminate H.
  - rewrite is_volatile_short in H; [discriminate H|].
    rewrite E in *. simpl in *. lia.
Qed.

Lemma is_volatile_returns (self : EntrySystems) :
  data self <> [] -> exists v, is_volatile self = Ok v.
Proof.
  intros H. unfold is_volatile.
  destruct (calculate_atr_nonempty (data self) H) as [a ->].
  cbn [bind]. eauto.
Qed.

Lemma crt_returns (self : EntrySystems) :
  data self <> [] -> exists r, crt self = Ok r.
Proof.
  intros H. unfold crt.
  destruct (calculate_atr_nonempty (data self) H) as [a ->].
  destruct (crt_volume_ratio_nonempty self H) as [vr ->].
  destruct (tail_rows 1 6 (data self)) as (bl & R1 & _);
    [lia | destruct (data self); [congruence | simpl; lia] |].
  cbn [bind].
  rewrite (iloc_neg_col close 1 _ bl R1), (iloc_neg_index 1 _ bl R1).
  cbn [bind].
  repeat match goal with
         | |- context [if ?c then _ else _] => destruct c; cbn [bind]
         end; eauto.
Qed.

Lemma market_maker_returns (now : Clock) (self : EntrySystems) :
  data self <> [] -> ict_analysis self <> [] ->
  exists r, market_maker_model now self = Ok r.
Proof.
  intros H Hi. unfold market_maker_model.
  destruct (calculate_atr_nonempty (data self) H) as [a ->].
  destruct (determine_bias_returns now (ict_analysis self) Hi)
    as (bias & -> & _).
  destruct (tail_rows 1 3 (data self)) as (bl & R1 & _);
    [lia | destruct (data self); [congruence | simpl; lia] |].
  cbn [bind].
  rewrite (iloc_neg_col low 1 _ bl R1), (iloc_neg_col high 1 _ bl R1),
          (iloc_neg_col close 1 _ bl R1), (iloc_neg_col open 1 _ bl R1),
          (iloc_neg_col_volume 1 _ bl R1), (iloc_neg_index 1 _ bl R1).
  cbn [lift2 bind and_then].
  repeat match goal with
         | |- context [if ?c then _ else _] =>
             destruct c; cbn [bind and_then]
         end; eauto.
Qed.

Lemma market_maker_empty_analysis (now : Clock) (self : EntrySystems) :
  data self <> [] -> ict_analysis self = [] ->
  market_maker_model now self = Raise IndexError.
Proof.
  intros H Hi. unfold market_maker_model.
  destruct (calculate_atr_nonempty (data self) H) as [a ->].
  rewrite Hi. reflexivity.
Qed.

(** X7.  [generate_entries] raises, and then [IndexError], exactly when
    one of the two frames is empty; on non-empty frames it returns a
    dictionary, whatever their length ([turtle_soup], which needs 3 bars,
    is only called when ATR is a number, that is from 20 bars on). *)
Theorem generate_entries_total (now : Clock) (self : EntrySystems) :
  (data self = [] \/ ict_analysis self = [] ->
   generate_entries now self = Raise IndexError) /\
  (data self <> [] -> ict_analysis self <> [] ->
   exists entries, generate_entries now self = Ok entries).
Proof.
  split.
  - intros H. unfold generate_entries. cbv zeta.
    destruct (data self) as [| b0 d0] eqn:E.
    { unfold is_volatile. rewrite E. reflexivity. }
    destruct H as [H | H]; [discriminate H|].
    assert (Hne : data self <> []) by (rewrite E; discriminate).
    destruct (is_volatile_returns self Hne) as [v Hv]. rewrite Hv.
    cbn [bind].
    destruct (crt_returns self Hne) as [c ->].
    rewrite (market_maker_empty_analysis now self Hne H).
    destruct v; [|reflexivity].
    destruct (turtle_soup_returns self) as [t ->];
      [apply is_volatile_true_long in Hv; lia | reflexivity].
  - intros Hne Hi. unfold generate_entries. cbv zeta.
    destruct (is_volatile_returns self Hne) as [v Hv]. rewrite Hv.
    cbn [bind].
    destruct (crt_returns self Hne) as [c ->].
    destruct (market_maker_returns now self Hne Hi) as [m ->].
    destruct v; [|cbn [bind]; eauto].
    destruct (turtle_soup_returns self) as [t ->];
      [apply is_volatile_true_long in Hv; lia | cbn [bind]; eauto].
Qed.

Lemma generate_entries_total_witness :
  generate_entries sample_clock (mkEntrySystems (steady 5) [])
  = Raise IndexError.
Proof.
  apply (proj1 (generate_entries_total sample_clock
                  (mkEntrySystems (steady 5) []))).
  right. reflexivity.
Defined.

(** ** Turtle Soup, bearish branch *)

Lemma overshoot_test (self : EntrySystems) (b3 : Bar) :
  (25 <= length (data self))%nat ->
  let recent := Series.tail 22 (data self) in
  (Fin (high b3) >? Series.max (Series.iloc_slice_neg 23 3 (col high recent)))%fl
  = true
  <-> Forall (fun b => high b < high b3) (Series.iloc_slice_neg 23 3 recent).
Proof.
  intros Hlen recent. unfold col. rewrite iloc_slice_neg_map.
  rewrite <- (map_map high Fin).
  rewrite fgt_max_iff by (apply prior_nonempty; exact Hlen).
  rewrite Forall_map. reflexivity.
Qed.

(** X8.  The bearish branch of [turtle_soup] mirrors the bullish one.  On
    a series of at least 25 bars, with [b3] its third bar from the end and
    [bl] its last bar, a short candidate is returned exactly when the high
    of [b3] is above every high of the rows [-23:-3] of the 22-bar window,
    [bl] closes below its open and its volume exceeds twice the window's
    mean volume; it enters at the last close with the stop 1.5 ATR above
    the high of [b3].  When neither branch's conditions hold the result is
    [None]. *)
Theorem turtle_soup_short_candidate (self : EntrySystems) (b3 bl : Bar) :
  (25 <= length (data self))%nat ->
  Series.iloc_neg 3 (data self) = Ok b3 ->
  Series.iloc_neg 1 (data self) = Ok bl ->
  let recent := Series.tail 22 (data self) in
  (bearish_turtle_soup recent b3 bl ->
     exists atr,
       calculate_atr (data self) = Ok (Fin atr) /\
       turtle_soup self = Ok (Some (turtle_soup_short self b3 bl (Fin atr))))
  /\
  (forall c,
     turtle_soup self = Ok (Some c) ->
     direction c = "short"%string ->
     bearish_turtle_soup recent b3 bl)
  /\
  (~ bullish_turtle_soup recent b3 bl ->
   ~ bearish_turtle_soup recent b3 bl ->
   turtle_soup self = Ok None).
Proof.
  intros Hlen H3 H1 recent.
  destruct (calculate_atr_enough (data self)) as [atr Hatr]; [lia|].
  pose proof (recent_3 self b3 Hlen H3) as R3.
  pose proof (recent_1 self bl Hlen H1) as R1.
  fold recent in R3, R1.
  unfold turtle_soup. fold recent. rewrite Hatr. cbn [bind].
  rewrite (iloc_neg_col low 3 recent b3 R3),
          (iloc_neg_col high 3 recent b3 R3),
          (iloc_neg_col close 1 recent bl R1),
          (iloc_neg_col open 1 recent bl R1),
          (iloc_neg_col_volume 1 recent bl R1),
          (iloc_neg_index 1 recent bl R1).
  cbn [lift2 bind and_then].
  destruct (Fin (low b3) <?
            Series.min (Series.iloc_slice_neg 23 3 (col low recent)))%fl
    eqn:C1;
  destruct (Fin (close bl) >? Fin (open bl))%fl eqn:C2;
  destruct (of_Z (volume bl) >?
            Fin 2 * Series.mean (col_volume recent))%fl eqn:C3;
  destruct (Fin (high b3) >?
            Series.max (Series.iloc_slice_neg 23 3 (col high recent)))%fl
    eqn:D1;
  destruct (Fin (close bl) <? Fin (open bl))%fl eqn:D2;
  cbn [bind and_then];
  pose proof (undercut_test self b3 Hlen) as T1;
  pose proof (volume_test self bl Hlen) as T3;
  pose proof (overshoot_test self b3 Hlen) as U1;
  fold recent in T1, T3, U1; cbv zeta in U1;
  assert (T2 : (Fin (close bl) >? Fin (open bl))%fl = true
               <-> open bl < close bl) by apply flt_Fin;
  assert (U2 : (Fin (close bl) <? Fin (open bl))%fl = true
               <-> close bl < open bl) by apply flt_Fin;
  (split; [|split]);
  try (intros [Ho Hb Hv]; apply U1 in Ho; apply U2 in Hb; apply T3 in Hv;
       try congruence;
       first [ exists atr; split; reflexivity
             | exfalso; apply T2 in C2; apply U2 in D2; lra ]);
  try (intros c Hc Hd; inversion Hc; try subst c;
       cbn [direction] in Hd;
       first [ discriminate Hd
             | constructor; [apply U1 | apply U2 | apply T3]; assumption ]);
  try (intros Hnb Hne; try reflexivity; exfalso;
       first [ apply Hnb; constructor;
               [apply T1 | apply T2 | apply T3]; assumption
             | apply Hne; constructor;
               [apply U1 | apply U2 | apply T3]; assumption ]).
Qed.


Lemma turtle_soup_short_candidate_witness :
  exists atr,
    calculate_atr blowoff_series = Ok (Fin atr) /\
    turtle_soup blowoff_system
    = Ok (Some (turtle_soup_short blowoff_system blowoff_bar rejection_bar
                                  (Fin atr))).
Proof.
  apply (proj1 (turtle_soup_short_candidate blowoff_system
                  blowoff_bar rejection_bar
                  ltac:(simpl; lia) eq_refl eq_refl)).
  constructor.
  - vm_compute. repeat constructor.
  - vm_compute. reflexivity.
  - vm_compute. reflexivity.
Defined.

(** ** Nearest liquidity pool *)

Lemma pymax_list_Fin (l : list Q) (d : float) :
  l <> [] ->
  exists m, pymax_list (map Fin l) d = Fin m /\
            In m l /\ forall y, In y l -> y <= m.
Proof.
  intros Hne. destruct l as [| x l]; [congruence|].
  apply (fold_max_Fin l x).
Qed.

Lemma nearest_pool_not_up (self : EntrySystems) (p : float) (dir : string) :
  dir <> "up"%string ->
  find_nearest_liquidity_pool self p dir
  = find_nearest_liquidity_pool self p "down".
Proof.
  intros H. unfold find_nearest_liquidity_pool.
  destruct (String.eqb dir "up") eqn:E; [|reflexivity].
  apply String.eqb_eq in E. contradiction.
Qed.

Lemma nearest_pool_below (self : EntrySystems) (p : Q) :
  ict_analysis self <> [] ->
  let target := find_nearest_liquidity_pool self (Fin p) "down" in
  (exists q,
     target = Fin q /\ In (Fin q) (levels_below self) /\ q < p /\
     forall x, In (Fin x) (levels_below self) -> x < p -> x <= q)
  \/
  (target = (Fin p * Fin 0.98)%fl /\
   forall x, In (Fin x) (levels_below self) -> p <= x).
Proof.
  intros Hne target.
  assert (Hfin : all_fin (levels_below self)).
  { unfold levels_below. apply Forall_app. split.
    - unfold find_liquidity_pools, find_liquidity_pools_with.
      cbn [cluster_lows]. apply cluster_prices_fin.
    - destruct (pd_levels_fin (ict_analysis self) Hne)
        as (hi & lo & _ & _ & _ & ->).
      repeat constructor. }
  destruct (all_fin_inv _ Hfin) as [qs Hqs].
  assert (Ht : target
               = pymax_list
                   (filter (fun level => (level <? Fin p)%fl)
                           (levels_below self))
                   (Fin p * Fin 0.98)%fl) by reflexivity.
  rewrite Hqs in *. rewrite filter_map_Fin in Ht.
  destruct (filter (fun q => (Fin q <? Fin p)%fl) qs) as [| x r] eqn:F.
  - right. split; [exact Ht|].
    intros x Hx. apply In_map_Fin in Hx.
    destruct (Qlt_le_dec x p) as [Hlt | Hle]; [|exact Hle].
    exfalso.
    assert (Hin : In x (filter (fun q => (Fin q <? Fin p)%fl) qs)).
    { apply filter_In. split; [exact Hx|]. apply flt_Fin. exact Hlt. }
    rewrite F in Hin. destruct Hin.
  - left.
    destruct (pymax_list_Fin (x :: r) (Fin p * Fin 0.98)%fl)
      as (m & Hm & Hin & Hle); [discriminate|].
    rewrite <- F in Hin, Hle.
    apply filter_In in Hin. destruct Hin as [Hin Hgt].
    apply flt_Fin in Hgt.
    exists m. split; [rewrite Ht; exact Hm|].
    split; [apply in_map; exact Hin|]. split; [exact Hgt|].
    intros y Hy Hpy. apply Hle. apply filter_In.
    split; [apply In_map_Fin; exact Hy | apply flt_Fin; exact Hpy].
Qed.

(** X9.  For a positive price and a non-empty analysis frame, the target
    of [find_nearest_liquidity_pool] is always on the asked side: upwards
    it is strictly above the price, in any other direction strictly below.
    Downwards it is the highest low-cluster or discount level strictly
    below the price, or 0.98 times the price when there is none; a
    direction other than 'up' is read as 'down'. *)
Theorem nearest_pool_on_the_asked_side (self : EntrySystems) (p : Q)
    (dir : string) :
  ict_analysis self <> [] ->
  0 < p ->
  (exists q, find_nearest_liquidity_pool self (Fin p) "up" = Fin q /\ p < q)
  /\
  (dir <> "up"%string ->
   exists q,
     find_nearest_liquidity_pool self (Fin p) dir = Fin q /\ q < p /\
     ((In (Fin q) (levels_below self) /\
       forall x, In (Fin x) (levels_below self) -> x < p -> x <= q)
      \/
      (q == p * 0.98 /\
       forall x, In (Fin x) (levels_below self) -> p <= x))).
Proof.
  intros Hne Hp. split.
  - destruct (nearest_pool_above self p Hne)
      as [(q & Hq & _ & Hlt & _) | (Hq & _)].
    + exists q. split; [exact Hq | exact Hlt].
    + exists (p * 1.02). split; [exact Hq | lra].
  - intros Hdir. rewrite (nearest_pool_not_up self (Fin p) dir Hdir).
    destruct (nearest_pool_below self p Hne)
      as [(q & Hq & Hin & Hlt & Hmax) | (Hq & Hnone)].
    + exists q. split; [exact Hq|]. split; [exact Hlt|]. left. auto.
    + exists (p * 0.98). split; [exact Hq|]. split; [lra|].
      right. split; [reflexivity | exact Hnone].
Qed.

Lemma nearest_pool_on_the_asked_side_witness :
  (exists q, find_nearest_liquidity_pool sweep_system (Fin 100) "up" = Fin q
             /\ 100 < q) /\
  (exists q, find_nearest_liquidity_pool sweep_system (Fin 100) "down" = Fin q
             /\ q < 100).
Proof.
  pose proof (nearest_pool_on_the_asked_side sweep_system 100 "down"
                ltac:(discriminate) ltac:(reflexivity)) as [Hu Hd].
  split; [exact Hu|].
  destruct (Hd ltac:(discriminate)) as (q & Hq & Hlt & _).
  exists q. split; [exact Hq | exact Hlt].
Defined.

(** ** Premium, equilibrium and discount *)



(** ** Quarterly levels *)

Lemma quarterly_levels_of_quarter (now : Clock) (d : MarketSeries)
    (q : quarter) :
  let levels := get_quarterly_levels now d in
  (level_high levels q, level_low levels q)
  = match bars_of_quarter now d q with
    | [] => (Fin 0, Fin 0)
    | bars => (Series.max (col high bars), Series.min (col low bars))
    end.
Proof.
  unfold get_quarterly_levels, bars_of_quarter.
  set (yearly := loc_slice (year_start now) (year_end now) d).
  destruct yearly as [| b0 y0] eqn:E.
  - destruct q; reflexivity.
  - cbn [length Nat.eqb].
    assert (Hq : forall q',
      quarter_levels now (b0 :: y0) q'
      = match loc_slice (quarter_start now q') (quarter_end now q')
                (b0 :: y0) with
        | [] => (Fin 0, Fin 0)
        | bars => (Series.max (col high bars), Series.min (col low bars))
        end).
    { intros q'. unfold quarter_levels.
      destruct (loc_slice (quarter_start now q') (quarter_end now q')
                  (b0 :: y0)); reflexivity. }
    destruct q; cbn [level_high level_low q1_high q1_low q2_high q2_low
                     q3_high q3_low q4_high q4_low];
      rewrite <- Hq; destruct (quarter_levels now (b0 :: y0) _); reflexivity.
Qed.

(** X11.  For each quarter of the clock's current year, the two levels of
    [get_quarterly_levels] are 0 and 0 when no bar of the frame falls in
    the quarter; otherwise they are the highest high and the lowest low of
    the quarter's bars: they bracket every bar of the quarter and each is
    reached by one of them. *)
Theorem quarterly_levels_bracket (now : Clock) (d : MarketSeries)
    (q : quarter) :
  let bars := bars_of_quarter now d q in
  let levels := get_quarterly_levels now d in
  (bars = [] ->
   level_high levels q = Fin 0 /\ level_low levels q = Fin 0) /\
  (bars <> [] ->
   exists hi lo,
     level_high levels q = Fin hi /\ level_low levels q = Fin lo /\
     (forall b, In b bars -> lo <= low b /\ high b <= hi) /\
     (exists b, In b bars /\ high b = hi) /\
     (exists b, In b bars /\ low b = lo)).
Proof.
  intros bars levels.
  pose proof (quarterly_levels_of_quarter now d q) as H.
  cbv zeta in H. fold levels bars in H.
  split.
  - intros E. rewrite E in H. inversion H. auto.
  - intros Hne.
    destruct bars as [| b0 r] eqn:E; [congruence|]. rewrite <- E in *.
    assert (H' : (level_high levels q, level_low levels q)
                 = (Series.max (col high bars), Series.min (col low bars))).
    { rewrite H, E. reflexivity. }
    rewrite !col_map in H'.
    destruct (max_Fin (map high bars)) as (hi & Hhi & Hin & Hmax).
    { intros E'. apply map_eq_nil in E'. auto. }
    destruct (min_Fin (map low bars)) as (lo & Hlo & Hin' & Hmin).
    { intros E'. apply map_eq_nil in E'. auto. }
    rewrite Hhi, Hlo in H'. inversion H' as [[Eh El]].
    exists hi, lo. split; [exact Eh|]. split; [exact El|].
    split; [|split].
    + intros b Hb. split; [apply Hmin | apply Hmax]; apply in_map; exact Hb.
    + apply in_map_iff in Hin. destruct Hin as (b & Eb & Hb). eauto.
    + apply in_map_iff in Hin'. destruct Hin' as (b & Eb & Hb). eauto.
Qed.

Lemma quarterly_levels_bracket_witness :
  level_high (get_quarterly_levels sample_clock rising) Qtr1 = Fin 0 /\
  exists hi lo,
    level_high (get_quarterly_levels sample_clock rising) Qtr2 = Fin hi /\
    level_low (get_quarterly_levels sample_clock rising) Qtr2 = Fin lo /\
    hi == 101 /\ lo == 99.
Proof.
  split.
  - apply (proj1 (quarterly_levels_bracket sample_clock rising Qtr1)).
    reflexivity.
  - destruct (proj2 (quarterly_levels_bracket sample_clock rising Qtr2))
      as (hi & lo & Hh & Hl & _); [discriminate|].
    exists hi, lo. split; [exact Hh|]. split; [exact Hl|].
    assert (E1 : level_high (get_quarterly_levels sample_clock rising) Qtr2
                 = Fin 101) by (vm_compute; reflexivity).
    assert (E2 : level_low (get_quarterly_levels sample_clock rising) Qtr2
                 = Fin 99) by (vm_compute; reflexivity).
    rewrite Hh in E1. rewrite Hl in E2.
    inversion E1; inversion E2. split; reflexivity.
Defined.

(** ** Market Maker Model *)

(** X12.  When no bar of the analysis frame falls in the clock's current
    year, [market_maker_model] never returns a candidate on well-formed
    bars: the quarterly levels are all 0, so the long test asks for a last
    low at or below 0 and the short test for a bearish bias, which needs a
    last close below 0. *)
Theorem market_maker_outside_current_year (now : Clock)
    (self : EntrySystems) :
  series_ok (data self) ->
  series_ok (ict_analysis self) ->
  data self <> [] ->
  ict_analysis self <> [] ->
  loc_slice (year_start now) (year_end now) (ict_analysis self) = [] ->
  market_maker_model now self = Ok None.
Proof.
  intros Hok Hoki Hne Hnei Hyear.
  pose proof (quarterly_levels_outside_year now (ict_analysis self) Hyear)
    as Hl.
  destruct (determine_bias_outside_year now (ict_analysis self)
              Hoki Hnei Hyear) as (slope & _ & Hb).
  unfold market_maker_model.
  destruct (calculate_atr_nonempty (data self) Hne) as [a ->].
  rewrite Hl, Hb. cbn [bind q2_low q3_high].
  destruct (tail_rows 1 3 (data self)) as (bl & R1 & D1);
    [lia | destruct (data self); [congruence | simpl; lia] |].
  assert (Hbl : bar_ok bl).
  { eapply Forall_forall in Hok; [exact Hok|]. eapply iloc_neg_In; eauto. }
  destruct Hbl as (_ & _ & Hlow & _).
  rewrite (iloc_neg_col low 1 _ bl R1), (iloc_neg_col high 1 _ bl R1),
          (iloc_neg_col close 1 _ bl R1), (iloc_neg_col open 1 _ bl R1),
          (iloc_neg_col_volume 1 _ bl R1).
  cbn [lift2 bind and_then].
  assert (E : (Fin (low bl) <=? Fin 0)%fl = false)
    by (unfold fle; qprop; exact Hlow).
  rewrite E.
  destruct (slope >? Fin 0)%fl; reflexivity.
Qed.

Lemma market_maker_outside_current_year_witness :
  market_maker_model next_year_clock rising_system = Ok None.
Proof.
  apply market_maker_outside_current_year; try discriminate;
    try reflexivity;
    (unfold rising_system, rising; cbn [data ict_analysis];
     apply Forall_app; split;
     [ apply Forall_forall; intros b Hb;
       apply in_map_iff in Hb; destruct Hb as (i & <- & _);
       unfold bar_ok; simpl;
       repeat split; try lia; unfold Qlt, Qle; simpl; lia
     | repeat constructor; simpl; try lia; unfold Qlt, Qle; simpl; lia ]).
Defined.

(** The same frame read in its own year gives a long candidate. *)
Example market_maker_inside_current_year :
  exists c,
    market_maker_model sample_clock rising_system = Ok (Some c) /\
    direction c = "long"%string /\ invalidation_point c = Fin 99.
Proof. eexists. split; [vm_compute; reflexivity|]. split; reflexivity. Qed.

(** ** ATR and the dynamic stop *)


Lemma max3_ge_first (x : Q) (y z : float) :
  fin_or_nan y -> fin_or_nan z ->
  exists m, Series.max [Fin x; y; z] = Fin m /\ x <= m.
Proof.
  intros [Hy | ->] [Hz | ->];
    try (destruct y as [y | | |]; try discriminate);
    try (destruct z as [z | | |]; try discriminate);
    unfold Series.max; simpl;
    repeat match goal with
           | |- context [Qlt_bool ?a ?b] =>
               let E := fresh "E" in destruct (Qlt_bool a b) eqn:E; simpl
           end;
    qprop; eexists; (split; [reflexivity | lra]).
Qed.

Lemma row_max3_nonneg (a b c : list float) :
  Forall nonneg a -> Forall fin_or_nan b -> Forall fin_or_nan c ->
  Forall nonneg (row_max3 a b c).
Proof.
  intros Ha. revert b c.
  induction Ha as [| x a Hx Ha IH]; intros b c Hb Hc; [constructor|].
  destruct Hb as [| y b Hy Hb]; [constructor|].
  destruct Hc as [| z c Hz Hc]; [constructor|].
  cbn [row_max3]. constructor; [|apply IH; auto].
  destruct Hx as (q & -> & Hq).
  destruct (max3_ge_first q y z Hy Hz) as (m & -> & Hm).
  exists m. split; [reflexivity | lra].
Qed.

Lemma bar_range_nonneg (d : MarketSeries) :
  series_ok d ->
  Forall nonneg (Series.zip_with fsub (col high d) (col low d)).
Proof.
  induction 1 as [| b d Hb _ IH]; [constructor|].
  cbn [col map Series.zip_with]. constructor; [|exact IH].
  destruct Hb as (_ & _ & _ & _ & _ & Hoh & _ & Hlo & _).
  exists (high b + - low b). split; [reflexivity | lra].
Qed.

Lemma true_range_nonneg (d : MarketSeries) :
  series_ok d -> Forall nonneg (true_range d).
Proof.
  intros Hok. unfold true_range. apply row_max3_nonneg.
  - apply bar_range_nonneg. exact Hok.
  - apply map_fabs_fin_or_nan, zip_sub_fin_or_nan;
      [apply all_fin_col | apply shift1_fin_or_nan, all_fin_col].
  - apply map_fabs_fin_or_nan, zip_sub_fin_or_nan;
      [apply all_fin_col | apply shift1_fin_or_nan, all_fin_col].
Qed.

Lemma nonneg_map_Fin (l : list Q) :
  Forall nonneg (map Fin l) -> Forall (fun q => 0 <= q) l.
Proof.
  induction l as [| x l IH]; intros H; [constructor|].
  inversion H as [| ? ? Hx Hl]; subst.
  constructor; [|apply IH; exact Hl].
  destruct Hx as (q & E & Hq). inversion E; subst. exact Hq.
Qed.

Lemma fold_Qplus_nonneg (l : list Q) (acc : Q) :
  0 <= acc -> Forall (fun q => 0 <= q) l -> 0 <= fold_left Qplus l acc.
Proof.
  intros Ha H. revert acc Ha.
  induction H as [| x l Hx _ IH]; intros acc Ha; [exact Ha|].
  simpl. apply IH. lra.
Qed.

Lemma Qmean_nonneg (l : list Q) :
  Forall (fun q => 0 <= q) l -> 0 <= Qmean l.
Proof.
  intros H. unfold Qmean, Qdiv. apply Qmult_le_0_compat.
  - apply fold_Qplus_nonneg; [lra | exact H].
  - apply Qinv_le_0_compat. unfold Qle, inject_Z. simpl. lia.
Qed.

Lemma Forall_window (A : Type) (P : A -> Prop) (w k : nat) (l : list A) :
  Forall P l -> Forall P (firstn w (skipn k l)).
Proof.
  intros H.
  assert (Hs : Forall P (skipn k l)).
  { rewrite <- (firstn_skipn k l) in H. apply Forall_app in H. apply H. }
  rewrite <- (firstn_skipn w (skipn k l)) in Hs.
  apply Forall_app in Hs. apply Hs.
Qed.

(** On well-formed bars ATR is never negative. *)
Lemma calculate_atr_nonneg (d : MarketSeries) :
  series_ok d -> (20 <= length d)%nat ->
  exists q, calculate_atr d = Ok (Fin q) /\ 0 <= q.
Proof.
  intros Hok H. unfold calculate_atr.
  rewrite iloc_neg_rolling by (rewrite length_true_range; lia).
  destruct (all_fin_inv _ (true_range_fin d)) as [l Hl].
  assert (Hlen : length l = length d).
  { rewrite <- (length_true_range d), Hl, length_map. reflexivity. }
  pose proof (true_range_nonneg d Hok) as Hnn.
  rewrite Hl in Hnn. apply nonneg_map_Fin in Hnn.
  rewrite Hl, length_map.
  rewrite rolling_mean_at_Fin by (unfold atr_period; lia).
  eexists. split; [reflexivity|].
  apply Qmean_nonneg, Forall_window. exact Hnn.
Qed.


(** X13.  On a well-formed frame of at least 20 bars the dynamic stop is
    an ordinary number on the losing side of a finite entry price: at or
    below it for 'long', at or above it for any other direction, at a
    distance of 1.5 ATR for the timeframes 1m, 5m and 15m and 2 ATR for
    every other timeframe string. *)
Theorem dynamic_stop_on_the_losing_side (self : RiskManagement) (e : Q)
    (direction timeframe : string) :
  series_ok (risk_data self) ->
  (20 <= length (risk_data self))%nat ->
  exists atr,
    calculate_atr (risk_data self) = Ok (Fin atr) /\ 0 <= atr /\
    calculate_dynamic_stop_loss self (Fin e) "long" timeframe
    = Ok (Fin (e + - (atr * atr_multiplier timeframe))) /\
    e + - (atr * atr_multiplier timeframe) <= e /\
    (direction <> "long"%string ->
     calculate_dynamic_stop_loss self (Fin e) direction timeframe
     = Ok (Fin (e + atr * atr_multiplier timeframe)) /\
     e <= e + atr * atr_multiplier timeframe).
Proof.
  intros Hok Hlen.
  destruct (calculate_atr_nonneg (risk_data self) Hok Hlen) as (atr & Ha & Hq).
  exists atr. split; [exact Ha|]. split; [exact Hq|].
  assert (Hm : 0 <= atr * atr_multiplier timeframe).
  { apply Qmult_le_0_compat; [exact Hq|]. unfold atr_multiplier.
    destruct (existsb _ _); lra. }
  unfold calculate_dynamic_stop_loss. rewrite Ha. cbn [bind].
  split; [|split; [lra|]].
  - cbn [String.eqb]. unfold atr_multiplier.
    destruct (existsb _ _); reflexivity.
  - intros Hd.
    destruct (String.eqb direction "long") eqn:E;
      [apply String.eqb_eq in E; contradiction|].
    split; [|lra].
    unfold atr_multiplier. destruct (existsb _ _); reflexivity.
Qed.

Lemma dynamic_stop_on_the_losing_side_witness :
  exists atr,
    calculate_atr sweep_series = Ok (Fin atr) /\ 0 <= atr /\
    calculate_dynamic_stop_loss (mkRiskManagement sweep_series sweep_system)
      (Fin 100) "long" "5m"
    = Ok (Fin (100 + - (atr * 1.5))).
Proof.
  destruct (dynamic_stop_on_the_losing_side
              (mkRiskManagement sweep_series sweep_system) 100 "short" "5m"
              sweep_series_ok ltac:(simpl; lia))
    as (atr & Ha & Hq & Hl & _).
  exists atr. split; [exact Ha|]. split; [exact Hq | exact Hl].
Defined.

(** ** Trailing stop *)

Lemma trailing_stop_not_long (e c a : float) (dir : string) :
  dir <> "long"%string ->
  calculate_trailing_stop e c dir a
  = (if (e - c >=? a)%fl then pymin e (c + a)%fl else (e + Fin 1.5 * a)%fl).
Proof.
  intros H. unfold calculate_trailing_stop.
  destruct (String.eqb dir "long") eqn:E; [|reflexivity].
  apply String.eqb_eq in E. contradiction.
Qed.

(** X14.  With the breakeven lock active the trailing stop sits exactly
    one ATR behind the current price: [current - atr] for 'long' (the
    [max] with the entry never selects a different level), and
    [current + atr], at or below the entry, for any other direction
    string.  Before the lock a non-long position has its stop 1.5 ATR
    above the entry.  A NaN ATR gives a NaN stop. *)
Theorem trailing_stop_one_atr_behind (e c a : Q) (dir : string) :
  (a <= c - e ->
   feq (calculate_trailing_stop (Fin e) (Fin c) "long" (Fin a))
       (Fin (c - a))) /\
  (dir <> "long"%string -> a <= e - c ->
   exists s,
     calculate_trailing_stop (Fin e) (Fin c) dir (Fin a) = Fin s /\
     s == c + a /\ s <= e) /\
  (dir <> "long"%string -> e - c < a ->
   calculate_trailing_stop (Fin e) (Fin c) dir (Fin a)
   = Fin (e + 1.5 * a)) /\
  calculate_trailing_stop (Fin e) (Fin c) dir NaN = NaN.
Proof.
  split; [|split; [|split]].
  - intros H. rewrite (trailing_stop_long_active e c a H).
    unfold pymax, fgt, fsub, fneg, fadd, flt.
    destruct (Qlt_bool e (c + - a)) eqn:E; qprop; unfold feq; lra.
  - intros Hd H. rewrite (trailing_stop_not_long _ _ _ dir Hd).
    assert (E : (Fin e - Fin c >=? Fin a)%fl = true).
    { unfold fge, fsub, fneg, fadd, fle. qprop. lra. }
    rewrite E. unfold pymin, fadd, flt.
    destruct (Qlt_bool (c + a) e) eqn:E'; qprop;
      eexists; (split; [reflexivity|]); split; lra.
  - intros Hd H. rewrite (trailing_stop_not_long _ _ _ dir Hd).
    assert (E : (Fin e - Fin c >=? Fin a)%fl = false).
    { unfold fge, fsub, fneg, fadd, fle. qprop. lra. }
    rewrite E. reflexivity.
  - unfold calculate_trailing_stop.
    destruct (String.eqb dir "long"); reflexivity.
Qed.

Lemma trailing_stop_one_atr_behind_witness :
  exists s,
    calculate_trailing_stop (Fin 100) (Fin 95) "short" (Fin 2) = Fin s /\
    s == 97 /\ s <= 100.
Proof.
  destruct (proj1 (proj2 (trailing_stop_one_atr_behind 100 95 2 "short"))
              ltac:(discriminate) ltac:(unfold Qle; simpl; lia))
    as (s & Hs & He & Hle).
  exists s. split; [exact Hs|]. split; [|exact Hle].
  rewrite He. reflexivity.
Defined.

(** ** Portfolio metrics *)

Lemma signal_priced_dec (s : Signal) : {signal_priced s} + {~ signal_priced s}.
Proof.
  unfold signal_priced.
  destruct (sig_take_profit s); [|left; auto].
  destruct (sig_stop_loss s); [|left; auto].
  destruct (sig_entry_price s); [left; right; right; discriminate|].
  right. intros [H | [H | H]]; try discriminate. apply H. reflexivity.
Qed.

Lemma risk_rewards_outcome (signals : list Signal) :
  (Forall signal_priced signals /\ exists rrs, risk_rewards signals = Ok rrs)
  \/
  (Exists (fun s => ~ signal_priced s) signals /\
   risk_rewards signals = Raise KeyError).
Proof.
  induction signals as [| s l IH].
  - left. split; [constructor | exists []; reflexivity].
  - assert (Hpriced : forall here,
      signal_priced s ->
      (Forall signal_priced (s :: l) /\
       exists rrs, here' <- Ok here ;; more <- risk_rewards l ;;
                   Ok (here' ++ more) = Ok rrs)
      \/
      (Exists (fun s => ~ signal_priced s) (s :: l) /\
       here' <- Ok here ;; more <- risk_rewards l ;;
       Ok (here' ++ more) = Raise KeyError)).
    { intros here Hs. cbn [bind].
      destruct IH as [(Hl & rrs & E) | (Hl & E)]; rewrite E; cbn [bind].
      - left. split; [constructor; assumption | eauto].
      - right. split; [apply Exists_cons_tl; exact Hl | reflexivity]. }
    cbn [risk_rewards].
    destruct (sig_take_profit s) as [tp|] eqn:Etp;
      [|apply Hpriced; unfold signal_priced; auto].
    destruct (sig_stop_loss s) as [sl|] eqn:Esl;
      [|apply Hpriced; unfold signal_priced; auto].
    destruct (sig_entry_price s) as [e|] eqn:Ee.
    + cbn [key_get bind].
      destruct (fabs (e - sl) >? Fin 0)%fl;
        apply Hpriced; unfold signal_priced; right; right; congruence.
    + right. split; [|reflexivity].
      apply Exists_cons_hd. unfold signal_priced.
      intros [H | [H | H]]; congruence.
Qed.

(** X15.  [calculate_portfolio_metrics] returns exactly when every signal
    that has both a take_profit and a stop_loss also has an entry_price;
    otherwise it raises [KeyError] (and never anything else). *)
Theorem portfolio_metrics_key_error (signals : list Signal) :
  (Forall signal_priced signals ->
   exists m, calculate_portfolio_metrics signals = Ok m) /\
  (Exists (fun s => ~ signal_priced s) signals ->
   calculate_portfolio_metrics signals = Raise KeyError) /\
  (forall e, calculate_portfolio_metrics signals = Raise e -> e = KeyError).
Proof.
  assert (Hcases :
    (Forall signal_priced signals /\
     exists m, calculate_portfolio_metrics signals = Ok m) \/
    (Exists (fun s => ~ signal_priced s) signals /\
     calculate_portfolio_metrics signals = Raise KeyError)).
  { destruct (risk_rewards_outcome signals) as [(Hl & rrs & E) | (Hl & E)].
    - left. split; [exact Hl|]. unfold calculate_portfolio_metrics.
      destruct signals; [eauto|]. rewrite E. cbn [bind]. eauto.
    - right. split; [exact Hl|]. unfold calculate_portfolio_metrics.
      destruct signals; [inversion Hl|]. rewrite E. reflexivity. }
  split; [|split].
  - intros Hall. destruct Hcases as [(_ & Hm) | (Hex & _)]; [exact Hm|].
    exfalso. apply Exists_exists in Hex. destruct Hex as (s & Hin & Hs).
    apply Hs. eapply Forall_forall in Hall; eauto.
  - intros Hex. destruct Hcases as [(Hall & _) | (_ & E)]; [|exact E].
    exfalso. apply Exists_exists in Hex. destruct Hex as (s & Hin & Hs).
    apply Hs. eapply Forall_forall in Hall; eauto.
  - intros e He. destruct Hcases as [(_ & m & E) | (_ & E)];
      rewrite E in He; [discriminate He | inversion He; reflexivity].
Qed.


Lemma portfolio_metrics_key_error_witness :
  calculate_portfolio_metrics [winning_signal; unpriced_signal]
  = Raise KeyError.
Proof.
  apply (proj1 (proj2 (portfolio_metrics_key_error
                         [winning_signal; unpriced_signal]))).
  apply Exists_cons_tl, Exists_cons_hd.
  intros [H | [H | H]]; try discriminate H. apply H. reflexivity.
Defined.

Lemma win_rate_fraction (w t : nat) :
  (w <= t)%nat -> (0 < t)%nat ->
  exists q, (of_nat w / of_nat t)%fl = Fin q /\ 0 <= q /\ q <= 1.
Proof.
  intros Hw Ht. unfold of_nat, fdiv.
  rewrite (is_zero_of_pos t Ht).
  eexists. split; [reflexivity|].
  assert (Hpos : 0 < inject_Z (Z.of_nat t)).
  { unfold Qlt, inject_Z. simpl. lia. }
  split.
  - apply Qle_shift_div_l; [exact Hpos|].
    rewrite Qmult_0_l. change 0 with (inject_Z 0).
    rewrite <- Zle_Qle. lia.
  - apply Qle_shift_div_r; [exact Hpos|].
    rewrite Qmult_1_l, <- Zle_Qle. lia.
Qed.

(** X16.  Whenever [calculate_portfolio_metrics] returns, [total_trades]
    is the number of signals given (with or without a result) and
    [win_rate] is a number between 0 and 1. *)
Theorem portfolio_metrics_win_rate (signals : list Signal)
    (m : PortfolioMetrics) :
  calculate_portfolio_metrics signals = Ok m ->
  total_trades m = length signals /\
  exists w, win_rate m = Fin w /\ 0 <= w /\ w <= 1.
Proof.
  unfold calculate_portfolio_metrics.
  destruct signals as [| s l].
  - intros H. inversion H; subst. split; [reflexivity|].
    exists 0. split; [reflexivity|]. split; lra.
  - destruct (risk_rewards (s :: l)) as [rrs | e]; [|discriminate].
    cbn [bind]. intros H. injection H as Hm. subst m.
    cbn [total_trades win_rate]. split; [reflexivity|].
    exact (win_rate_fraction
             (length (filter (fun x => is_win (sig_result x)) (s :: l)))
             (length (s :: l))
             (filter_length_le _ _) (Nat.lt_0_succ _)).
Qed.

Lemma portfolio_metrics_win_rate_witness :
  exists m,
    calculate_portfolio_metrics
      [winning_signal; mkSignal None None None None None None] = Ok m /\
    total_trades m = 2%nat /\
    exists w, win_rate m = Fin w /\ 0 <= w /\ w <= 1.
Proof.
  eexists. split; [reflexivity|].
  apply (portfolio_metrics_win_rate
           [winning_signal; mkSignal None None None None None None]).
  reflexivity.
Defined.

(** ** Daily risk limit *)



Lemma signals_of_today_dated (date_of : string -> option Z) (today : Z)
    (signals : list RiskSignal) :
  Forall (dated date_of) signals ->
  exists l, signals_of_today date_of today signals = Return l.
Proof.
  induction 1 as [| s rest (ts & d & Ets & Ed) _ (l & IH)].
  - exists []. reflexivity.
  - cbn [signals_of_today]. rewrite Ets, Ed, IH. cbn [bind_outcome]. eauto.
Qed.

Lemma signals_of_today_undated (date_of : string -> option Z) (today : Z)
    (signals : list RiskSignal) :
  Exists (fun s => ~ dated date_of s) signals ->
  signals_of_today date_of today signals = Throw (Builtin KeyError) \/
  signals_of_today date_of today signals = Throw ValueError.
Proof.
  induction signals as [| s rest IH]; intros H; [inversion H|].
  cbn [signals_of_today].
  destruct (rs_timestamp s) as [ts|] eqn:Ets; [|left; reflexivity].
  destruct (date_of ts) as [d|] eqn:Ed; [|right; reflexivity].
  inversion H as [? ? Hs | ? ? Hr]; subst.
  - exfalso. apply Hs. exists ts, d. auto.
  - destruct (IH Hr) as [-> | ->]; [left | right]; reflexivity.
Qed.






(** The day's numbers on that list: 600 at risk today, 6% of 10000. *)
Example busy_day_exceeds :
  exists r,
    check_daily_risk_limit two_days 2 busy_day None = Return r /\
    risk_limit_exceeded r = true /\ remaining_risk r = Fin 0 /\
    today_signals r = 2%nat /\ feq (daily_risk_percent r) (Fin 0.06).
Proof.
  eexists. split; [reflexivity|]. repeat split; vm_compute; reflexivity.
Qed.

(** X18.  [check_daily_risk_limit] reads the timestamp of every signal,
    of today or not: one signal without a timestamp, or with one that is
    not in ISO format, makes the whole check raise ([KeyError] or
    [ValueError]).  When every timestamp parses, it raises
    [ZeroDivisionError] for a zero balance and returns for any other
    finite balance. *)
Theorem daily_risk_limit_errors (date_of : string -> option Z) (today : Z)
    (signals : list RiskSignal) (balance : option float) :
  let call := check_daily_risk_limit date_of today signals balance in
  (Exists (fun s => ~ dated date_of s) signals ->
   call = Throw (Builtin KeyError) \/ call = Throw ValueError) /\
  (Forall (dated date_of) signals ->
   (forall z, balance = Some (Fin z) -> z == 0 ->
      call = Throw (Builtin ZeroDivisionError)) /\
   (forall z, balance = Some (Fin z) -> ~ z == 0 ->
      exists r, call = Return r) /\
   (balance = None -> exists r, call = Return r)).
Proof.
  intros call. subst call. unfold check_daily_risk_limit. split.
  - intros H.
    destruct (signals_of_today_undated date_of today signals H) as [-> | ->];
      [left | right]; reflexivity.
  - intros H.
    destruct (signals_of_today_dated date_of today signals H) as [l ->].
    cbn [bind_outcome]. split; [|split].
    + intros z -> Hz. unfold pydiv.
      assert (E : is_zero z = true) by (apply Qeq_bool_iff; exact Hz).
      rewrite E. reflexivity.
    + intros z -> Hz. unfold pydiv.
      assert (E : is_zero z = false).
      { unfold is_zero. destruct (Qeq_bool z 0) eqn:E'; [|reflexivity].
        apply Qeq_bool_iff in E'. contradiction. }
      rewrite E. cbn [lift_result bind_outcome].
      eexists. reflexivity.
    + intros ->. unfold pydiv, default_balance.
      change (is_zero 10000) with false.
      cbn [lift_result bind_outcome]. eexists. reflexivity.
Qed.

Lemma daily_risk_limit_errors_witness :
  check_daily_risk_limit two_days 2
    (busy_day ++ [mkRiskSignal None (Some (Fin 10))]) None
  = Throw (Builtin KeyError).
Proof.
  destruct (proj1 (daily_risk_limit_errors two_days 2
              (busy_day ++ [mkRiskSignal None (Some (Fin 10))]) None))
    as [H | H].
  - unfold busy_day. cbn [app].
    do 3 apply Exists_cons_tl. apply Exists_cons_hd.
    intros (ts & d & E & _). discriminate E.
  - exact H.
  - exfalso. vm_compute in H. discriminate H.
Defined.

(** ** Composite risk read *)

(** X19.  [generate_risk_metrics] looks the asset up only when there is an
    entry candidate.  With no candidate (for instance on a short series)
    it gives the no-signal answer whatever the asset, configured or not;
    with a candidate an unconfigured asset raises [KeyError], and a
    configured one on a non-empty frame always gets a result, sized on the
    default 1% risk with the configured pip value (a zero stop distance
    does not raise here: the prices are numpy floats). *)
Theorem risk_metrics_outcomes (now : Clock) (self : RiskManagement)
    (asset timeframe : string) (balance : option float) :
  let call := generate_risk_metrics now self asset timeframe balance in
  (generate_entries now (entry_systems self) = Ok [] -> call = Ok None) /\
  ((1 <= length (data (entry_systems self)) < 20)%nat ->
   (1 <= length (ict_analysis (entry_systems self)) <= 20)%nat ->
   call = Ok None) /\
  (forall kv rest,
     generate_entries now (entry_systems self) = Ok (kv :: rest) ->
     ~ In asset (dict_keys pip_values) ->
     call = Raise KeyError) /\
  (forall kv rest,
     generate_entries now (entry_systems self) = Ok (kv :: rest) ->
     In asset (dict_keys pip_values) ->
     risk_data self <> [] ->
     exists r,
       call = Ok (Some r) /\
       dict_get pip_values asset = Ok (rm_pip_value r) /\
       rm_risk_amount r = (effective_balance balance * Fin 0.01)%fl).
Proof.
  intros call. subst call. unfold generate_risk_metrics.
  split; [intros ->; reflexivity|].
  split.
  { intros Hd Hi.
    rewrite (generate_entries_short now (entry_systems self) Hd Hi).
    reflexivity. }
  split.
  - intros [k e] rest -> Hasset. cbn [bind].
    unfold calculate_position_size.
    rewrite (dict_get_pip_values_missing asset Hasset). reflexivity.
  - intros [k e] rest -> Hasset Hne. cbn [bind].
    destruct (dict_get_pip_values_in asset Hasset) as [pv Hpv].
    unfold calculate_position_size. rewrite Hpv.
    cbn [bind truediv].
    unfold calculate_dynamic_stop_loss.
    destruct (calculate_atr_nonempty (risk_data self) Hne) as [a ->].
    destruct (iloc_neg_1_col close (risk_data self) Hne) as (b & _ & _ & ->).
    cbn [bind].
    destruct (String.eqb (direction e) "long"); cbn [bind];
      eexists; (split; [reflexivity|]); split; reflexivity.
Qed.

Lemma risk_metrics_outcomes_witness :
  generate_risk_metrics sample_clock
    (mkRiskManagement rising rising_system) "EURUSD" "5m" None
  = Raise KeyError /\
  generate_risk_metrics sample_clock
    (mkRiskManagement (steady 19) (mkEntrySystems (steady 19) (steady 19)))
    "EURUSD" "5m" None
  = Ok None.
Proof.
  split.
  - assert (H : exists c, generate_entries sample_clock rising_system
                         = Ok [("market_maker"%string, c)])
      by (eexists; vm_compute; reflexivity).
    destruct H as (c & Hc).
    apply (proj1 (proj2 (proj2 (risk_metrics_outcomes sample_clock
             (mkRiskManagement rising rising_system) "EURUSD" "5m" None)))
             _ _ Hc).
    intros [H | [H | []]]; discriminate H.
  - apply (proj1 (proj2 (risk_metrics_outcomes sample_clock
             (mkRiskManagement (steady 19)
                (mkEntrySystems (steady 19) (steady 19)))
             "EURUSD" "5m" None))); simpl; lia.
Defined.

(** ** Position sizing *)


Lemma is_zero_false (x : Q) : ~ x == 0 -> is_zero x = false.
Proof.
  intros H. unfold is_zero. destruct (Qeq_bool x 0) eqn:E; [|reflexivity].
  apply Qeq_bool_iff in E. contradiction.
Qed.





(** ** Drawdown of a history without losses *)

Lemma rising_from_le (p q : Q) (l : list float) :
  p <= q -> rising_from q l -> rising_from p l.
Proof.
  intros Hpq H. destruct H as [| e x l Hx Hl]; constructor; [lra | exact Hl].
Qed.

Lemma equity_curve_rising (signals : list Signal) (e : Q) :
  Forall not_a_loss signals ->
  rising_from e (equity_curve (Fin e) signals).
Proof.
  intros H. revert e.
  induction H as [| s l Hs _ IH]; intros e; [constructor|].
  cbn [equity_curve].
  destruct Hs as [Hr | [Ha | (Hr & a & Ha & Ha0 & Hrr)]].
  - rewrite Hr. apply IH.
  - destruct (sig_result s); [rewrite Ha|]; apply IH.
  - rewrite Hr, Ha.
    replace (String.eqb "win" "win") with true by reflexivity.
    destruct Hrr as [Hn | (r & Hn & Hr0)]; rewrite Hn; cbn [fmul fadd].
    + constructor; [lra | apply IH].
    + constructor; [|apply IH].
      assert (0 <= a * r) by (apply Qmult_le_0_compat; assumption). lra.
Qed.

Lemma np_maximum_Fin (a b : Q) :
  np_maximum (Fin a) (Fin b) = if Qlt_bool a b then Fin b else Fin a.
Proof. reflexivity. Qed.

Lemma zero_drawdown (pk x : Q) :
  0 < pk -> pk == x -> zero_like (fdiv (fsub (Fin pk) (Fin x)) (Fin pk)).
Proof.
  intros Hpk Hx. unfold fsub, fneg, fadd, fdiv.
  rewrite is_zero_false by lra.
  eexists. split; [reflexivity|]. rewrite Hx. field. lra.
Qed.

Lemma drawdown_of_rising (curve : list float) (pk : Q) :
  0 < pk -> rising_from pk curve ->
  Forall zero_like
    (Series.zip_with fdiv
       (Series.zip_with fsub (accumulate_from (Fin pk) curve) curve)
       (accumulate_from (Fin pk) curve)).
Proof.
  revert pk. induction curve as [| y l IH]; intros pk Hpk H; [constructor|].
  inversion H as [| ? x ? Hx Hl]; subst.
  cbn [accumulate_from]. cbv zeta. rewrite np_maximum_Fin.
  destruct (Qlt_bool pk x) eqn:E; qprop; cbn [Series.zip_with].
  - constructor; [apply zero_drawdown; lra | apply IH; [lra | exact Hl]].
  - constructor; [apply zero_drawdown; lra|].
    apply IH; [exact Hpk|]. apply (rising_from_le pk x); [lra | exact Hl].
Qed.

Lemma np_max_zero_like (l : list float) (x : float) :
  zero_like x -> Forall zero_like l -> zero_like (fold_left np_maximum l x).
Proof.
  intros Hx H. revert x Hx.
  induction H as [| y l Hy _ IH]; intros x Hx; [exact Hx|].
  cbn [fold_left]. apply IH.
  destruct Hx as (a & -> & Ha), Hy as (b & -> & Hb).
  rewrite np_maximum_Fin. destruct (Qlt_bool a b); eexists; eauto.
Qed.

(** X21. A history whose signals are all priced and none of which is a
    loss (each is skipped by the equity replay, or is a win with a
    non-negative amount and reward) is summarised without error, with a
    maximum drawdown of zero. *)
Theorem portfolio_metrics_no_loss_no_drawdown (signals : list Signal) :
  Forall signal_priced signals -> Forall not_a_loss signals ->
  exists m, calculate_portfolio_metrics signals = Ok m /\
            feq (max_drawdown m) (Fin 0).
Proof.
  intros Hp Hn.
  destruct signals as [| s l].
  { eexists. split; [reflexivity|]. cbn. reflexivity. }
  destruct (risk_rewards_outcome (s :: l)) as [(_ & rrs & E) | (Hex & _)].
  2:{ exfalso. apply Exists_exists in Hex. destruct Hex as (x & Hin & Hx).
      rewrite Forall_forall in Hp. exact (Hx (Hp x Hin)). }
  unfold calculate_portfolio_metrics. rewrite E. cbn [bind]. cbv zeta.
  eexists. split; [reflexivity|]. cbn [max_drawdown].
  pose proof (equity_curve_rising (s :: l) 10000 Hn) as Hrise.
  change (Fin 10000) with default_balance in Hrise.
  destruct (equity_curve default_balance (s :: l)) as [| y r];
    [cbn; reflexivity|].
  inversion Hrise as [| ? x ? Hx Hr]; subst.
  assert (Hpos : 0 < x) by lra.
  cbn [np_maximum_accumulate Series.zip_with np_max].
  assert (Hz : zero_like
    (fold_left np_maximum
       (Series.zip_with fdiv
          (Series.zip_with fsub (accumulate_from (Fin x) r) r)
          (accumulate_from (Fin x) r))
       (fdiv (fsub (Fin x) (Fin x)) (Fin x)))).
  { apply np_max_zero_like.
    - apply zero_drawdown; [exact Hpos | reflexivity].
    - apply drawdown_of_rising; assumption. }
  destruct Hz as (z & -> & Hz). exact Hz.
Qed.

Lemma portfolio_metrics_no_loss_no_drawdown_witness :
  (Forall signal_priced winning_streak /\ Forall not_a_loss winning_streak) /\
  exists m, calculate_portfolio_metrics winning_streak = Ok m /\
            feq (max_drawdown m) (Fin 0).
Proof.
  assert (Hp : Forall signal_priced winning_streak).
  { repeat constructor; unfold signal_priced; cbn; auto. }
  assert (Hn : Forall not_a_loss winning_streak).
  { unfold winning_streak.
    constructor; [|constructor; [|constructor; [|constructor]]].
    - right. right. split; [reflexivity|].
      exists 100. split; [reflexivity|]. split; [lra|].
      right. exists 2. split; [reflexivity | lra].
    - left. reflexivity.
    - right. right. split; [reflexivity|].
      exists 50. split; [reflexivity|]. split; [lra|].
      left. reflexivity. }
  split; [split; assumption|].
  exact (portfolio_metrics_no_loss_no_drawdown winning_streak Hp Hn).
Defined.

(** With one loss in the history the drawdown is positive. *)
Example portfolio_metrics_drawdown_after_loss :
  exists m, calculate_portfolio_metrics (winning_signal :: losing_signal :: nil) = Ok m /\
            feq (max_drawdown m) (Fin (100 # 10200)).
Proof. eexists. split; [reflexivity|]. vm_compute. reflexivity. Qed.

(** ** The complete analysis *)

(** X22.  [generate_signals] raises [IndexError] on the empty frame (from
    [determine_bias]) and otherwise returns: the bias is one of the three
    labels, the PD levels are those of [find_liquidity_pools], and the
    events are what [detect_liquidity_events] reports, hence no run and at
    most two sweeps. *)
Theorem generate_signals_outcome (now : Clock) (data : MarketSeries) :
  (data = [] -> generate_signals now data = Throw (Builtin IndexError)) /\
  (data <> [] ->
   exists s,
     generate_signals now data = Return s /\
     In (ict_bias s) ["bullish"; "bearish"; "neutral"]%string /\
     determine_bias now data = Ok (ict_bias s) /\
     ict_pd_arrays s = pd_arrays (find_liquidity_pools data) /\
     detect_liquidity_events data = Return (ict_events s) /\
     runs (ict_events s) = [] /\
     (length (sweeps (ict_events s)) <= 2)%nat).
Proof.
  split; [intros ->; reflexivity|].
  intros Hne. unfold generate_signals.
  destruct (determine_bias_returns now data Hne) as (b & Hb & Hin).
  destruct (liquidity_events_outcome 20 data) as (sw & Hev & Hsw).
  rewrite length_tail in Hsw.
  rewrite Hb. unfold detect_liquidity_events. rewrite Hev.
  cbn [lift_result bind_outcome].
  eexists. split; [reflexivity|].
  cbn [ict_bias ict_pd_arrays ict_events runs sweeps].
  repeat split; first [assumption | reflexivity | lia].
Qed.

Lemma generate_signals_outcome_witness :
  generate_signals sample_clock [] = Throw (Builtin IndexError) /\
  spike_series <> [] /\
  exists s,
    generate_signals sample_clock spike_series = Return s /\
    In (ict_bias s) ["bullish"; "bearish"; "neutral"]%string /\
    determine_bias sample_clock spike_series = Ok (ict_bias s) /\
    ict_pd_arrays s = pd_arrays (find_liquidity_pools spike_series) /\
    detect_liquidity_events spike_series = Return (ict_events s) /\
    runs (ict_events s) = [] /\
    (length (sweeps (ict_events s)) <= 2)%nat.
Proof.
  split; [exact (proj1 (generate_signals_outcome sample_clock []) eq_refl)|].
  assert (Hne : spike_series <> []) by discriminate.
  split; [exact Hne|].
  exact (proj2 (generate_signals_outcome sample_clock spike_series) Hne).
Defined.
